(** * Batch scheduling and publishing pipeline

    A shallow embedding of the scheduling core of the two Facebook
    uploader pages of the repository:

    - [Uploader]   : the single-destination scheduler (UploaderPage),
      with its manual and smart slot allocators, [uploadPost] and
      [handleSchedulingProcess];
    - [CrossPost]  : the cross-destination reposting flow (CrossPostPage),
      with [uploadCrossPost], its history of already reposted items and
      its own [handleSchedulingProcess];
    - [UploaderPage], [CrossPostPage] : what the two pages do around the
      scheduler: connecting ([handleFetchPages], [handleLogout], the
      session kept in localStorage), the test upload, the posts of the
      source page, the selection and the filter on likes and comments;
    - [Gemini]     : the two caption functions of the caption service,
      with their fallback captions;
    - [Color]      : the colour utilities of types.ts.

    Conventions of the embedding.

    - A JavaScript [Date] is its time value: milliseconds since the epoch
      (UTC), a [Z].  Local fields ([getHours], [setHours], ...) are taken
      in a zone with a fixed offset [tz] (minutes east of UTC); daylight
      saving changes are not modelled.  A date-only string such as
      "2024-01-15" is read as midnight UTC of that day, as [new Date] does.
    - Strings are ASCII; [toLowerCase] maps A-Z.
    - A number that need not be an integer (an alpha, a percentage) is a
      double: a primitive float.
    - An awaited call to a collaborator (caption generation, a Graph API
      request) is an oracle: its result is supplied from outside, either a
      value or a thrown [Error] with its message ([Exc]).  The world gives
      the answer to the request made for queue position [i]; the request
      bodies (tokens, captions, media, publish times) are not data of the
      model.
    - React state is passed explicitly.  Setter calls are applied in
      program order; the refs ([schedulerCancelToken], [isPausedRef]) are
      fields of the same record, [isPausedRef] following [isPaused] at
      once.  The wall-clock string that [addLog] attaches to an entry is
      left out.
    - While the runner is suspended at an [await], the user may press the
      start/stop toggle or the pause button; those presses are supplied by
      the environment as lists of [UIAction]: one list for every second of
      a pause wait, one for the time an item is in flight.  When the
      presses of a pause wait have run out with the pause flag still set,
      nothing will clear it and the runner polls for ever ([Waiting]).
    - Beside the React state the record carries [effects], the calls made
      to collaborators and callbacks so far, newest first.

    Part I is the model, followed by the specification's wording of the
    allocators, the observations the properties are stated with, and
    sample inputs; the scheduler comes first, then the colours, the
    caption service and the rest of the two pages.  Part II holds the
    properties.
*)

From Stdlib Require Import ZArith List String Ascii Bool Lia Arith.
From Stdlib Require Import Sorting.Sorted Sorting.Permutation.
From Stdlib Require Import DecimalString.
From Stdlib Require Floats.
Import ListNotations.

Local Open Scope string_scope.
Local Open Scope Z_scope.

(* ================================================================== *)
(** * Part I: the model *)
(* ================================================================== *)

(** ** Thrown errors *)

(** [Exc A]: the result of an awaited call, a value or [throw new Error(msg)]. *)
Definition Exc (A : Type) : Type := (A + string)%type.
Definition ok {A : Type} (a : A) : Exc A := inl a.
Definition throw {A : Type} (msg : string) : Exc A := inr msg.

(** ** JavaScript strings (ASCII) *)

Module JSString.

Definition lowerChar (c : ascii) : ascii :=
  let n := nat_of_ascii c in
  if ((65 <=? n) && (n <=? 90))%nat then ascii_of_nat (n + 32) else c.

Fixpoint toLowerCase (s : string) : string :=
  match s with
  | EmptyString => EmptyString
  | String c s' => String (lowerChar c) (toLowerCase s')
  end.

(** [s.includes(needle)] *)
Fixpoint includes (needle s : string) : bool :=
  String.prefix needle s ||
  match s with
  | EmptyString => false
  | String _ s' => includes needle s'
  end.

(** [`${n}`] for a non-negative integer *)
Definition ofNat (n : nat) : string := NilZero.string_of_uint (Nat.to_uint n).

(** [`${x}`] for a value that may be [undefined] *)
Definition ofOption (x : option string) : string :=
  match x with Some v => v | None => "undefined" end.

End JSString.

(** ** JavaScript arrays: [Array.prototype.sort] with a comparator *)

Module JSArray.

Section Sort.
Context {A : Type}.
(** the comparator: negative when its first argument goes first *)
Variable cmp : A -> A -> Z.

(** [x] goes in front of the first element it is not greater than, so
    equal elements keep their original order (the sort is stable). *)
Fixpoint insert (x : A) (l : list A) : list A :=
  match l with
  | [] => [x]
  | y :: l' => if cmp x y <=? 0 then x :: l else y :: insert x l'
  end.

Fixpoint sort (l : list A) : list A :=
  match l with
  | [] => []
  | x :: l' => insert x (sort l')
  end.
End Sort.

(** [arr.map((v, i) => (i, v))], indices counted from [i] *)
Fixpoint indexed {A : Type} (i : Z) (l : list A) : list (Z * A) :=
  match l with
  | [] => []
  | x :: l' => (i, x) :: indexed (i + 1) l'
  end.

End JSArray.

(** ** JavaScript dates over a zone with a fixed offset *)

Module JSDate.

Definition Date := Z.

Definition msPerMinute : Z := 60000.
Definition msPerHour : Z := 3600000.
Definition msPerDay : Z := 86400000.

Section Zone.
(** offset of local time from UTC, in minutes (east positive) *)
Variable tz : Z.

Definition localTime (t : Date) : Z := t + tz * msPerMinute.
Definition ofLocal (l : Z) : Date := l - tz * msPerMinute.

(** number of the local calendar day, and the time within it *)
Definition localDay (t : Date) : Z := localTime t / msPerDay.
Definition timeInDay (t : Date) : Z := localTime t mod msPerDay.

Definition getHours (t : Date) : Z := timeInDay t / msPerHour.
Definition getMinutes (t : Date) : Z := (localTime t mod msPerHour) / msPerMinute.

(** [d.setHours(h, m, s, ms)] *)
Definition setHours (t : Date) (h m s ms : Z) : Date :=
  ofLocal (localDay t * msPerDay + h * msPerHour + m * msPerMinute + s * 1000 + ms).

(** [d.setMinutes(m)]: seconds and milliseconds are kept, the minute
    field is replaced and overflow carries into hours and days. *)
Definition setMinutes (t : Date) (m : Z) : Date :=
  t - getMinutes t * msPerMinute + m * msPerMinute.

(** [d.setDate(d.getDate() + k)]: the same local time, [k] days later
    (month ends carry). *)
Definition addDays (t : Date) (k : Z) : Date := t + k * msPerDay.
End Zone.

(** [new Date("YYYY-MM-DD")]: a date-only string denotes midnight UTC of
    that day; [day] is the day's number since the epoch. *)
Definition ofISODate (day : Z) : Date := day * msPerDay.

(** 10 minutes: [600000] in the source *)
Definition leadTime : Z := 600000.

End JSDate.

Import JSDate.

(** ** What both pages share *)

Record FBPage := mkPage {
  page_id : string;
  page_name : string;
  access_token : string
}.

Inductive LogStatus := success | error | info.

(** a parsed Graph API reply: [data.error?.message] and [data.id] *)
Record GraphResponse := mkResp {
  resp_error : option string;
  resp_id : option string
}.

(** what the user can do while the runner is suspended *)
Inductive UIAction :=
| PressToggle                (* the start/stop button: handleSchedulingProcess *)
| SetPaused (b : bool).      (* the pause button: setIsPaused(b) *)

(** calls to collaborators and callbacks; the index is the queue position
    of the item the call is made for *)
Inductive Effect :=
| SetScheduling (b : bool)   (* setIsScheduling(b) *)
| Sleep                      (* await sleep(1000) *)
| Enhance (i : nat)          (* caption generation / image restyling *)
| PublishMedia (i : nat)     (* POST /{page}/photos|videos *)
| CreatePost (i : nat)       (* POST /{page}/feed *)
| Logout.                    (* handleLogout() *)

(** the three ways the async runner can go *)
Inductive Outcome (S : Type) :=
| Returned (s : S)           (* the function returned *)
| Waiting (s : S)            (* it polls the pause flag for ever *)
| Crashed (s : S).           (* an uncaught TypeError rejected its promise *)
Arguments Returned {S} s.
Arguments Waiting {S} s.
Arguments Crashed {S} s.

Definition finalState {S : Type} (o : Outcome S) : S :=
  match o with Returned s | Waiting s | Crashed s => s end.

(** The failure test the pages apply to [e.message]. *)
Definition isAuthFailure (msg : string) : bool :=
  let message := JSString.toLowerCase msg in
  JSString.includes "session" message
  || JSString.includes "token" message
  || JSString.includes "oauth" message.


(** ** State and errors threaded through the async functions *)

(** A computation over the page state [S] that returns an [A] or throws. *)
Definition M (S A : Type) : Type := S -> S * Exc A.

Definition ret {S A : Type} (a : A) : M S A := fun s => (s, ok a).
Definition raise {S A : Type} (msg : string) : M S A := fun s => (s, throw msg).
Definition bind {S A B : Type} (m : M S A) (k : A -> M S B) : M S B :=
  fun s => match m s with
           | (s', inl a) => k a s'
           | (s', inr msg) => (s', inr msg)
           end.
(** a state update (a setter call, [addLog], ...) *)
Definition update {S : Type} (f : S -> S) : M S unit := fun s => (f s, ok tt).
(** [await] on a collaborator whose answer is [r] *)
Definition await {S A : Type} (r : Exc A) : M S A := fun s => (s, r).

Declare Scope m_scope.
Delimit Scope m_scope with M.
Notation "x <- m ;; k" := (bind m (fun x => k))
  (at level 61, m at next level, right associativity) : m_scope.
Notation "m ;; k" := (bind m (fun _ => k))
  (at level 61, right associativity) : m_scope.

(* ------------------------------------------------------------------ *)
(** ** UploaderPage: the single-destination scheduler *)
(* ------------------------------------------------------------------ *)

Module Uploader.

Inductive PostType := Image | Video.
Inductive CaptionMode := demo | filename.

(** a [File]: only its name is looked at *)
Record File := mkFile { file_name : string }.

Record SchedulerSettings := mkSettings {
  files : list File;
  postType : PostType;
  startDate : Z;               (* the day named by the "YYYY-MM-DD" string *)
  interval : Z;                (* in minutes *)
  startTime : Z * Z;           (* "HH:MM".split(':').map(Number) *)
  endTime : Z * Z;
  demoCaption : string;
  captionMode : CaptionMode;
  checkInPlaceId : string;
  smartScheduleEnabled : bool
}.

Record SchedulingLogEntry := mkEntry {
  file : string;
  status : LogStatus;
  message : string
}.

Record State := mkState {
  accessToken : string;
  pages : list FBPage;
  activePage : option FBPage;
  isScheduling : bool;
  isPaused : bool;                            (* isPausedRef.current *)
  cancelled : bool;                           (* schedulerCancelToken.current.cancelled *)
  schedulingProgress : nat * nat;             (* (current, total) *)
  schedulingLog : list SchedulingLogEntry;    (* newest first *)
  notifications : list (string * LogStatus);  (* newest first *)
  effects : list Effect                       (* newest first *)
}.

(** everything the run gets from outside *)
Record World := mkWorld {
  tz : Z;
  toLocaleString : Date -> string;
  (* the answers of the collaborators for queue position [i] *)
  generateCaptionForScheduling : nat -> Exc string;
  postMedia : nat -> Exc GraphResponse;
  postFeed : nat -> Exc GraphResponse;
  (* [Date.now()] when item [i] is dispatched *)
  dispatchClock : nat -> Date;
  (* presses during each [sleep(1000)] of the pause wait before item [i],
     and while item [i] is in flight *)
  pausePresses : nat -> list (list UIAction);
  flightPresses : nat -> list UIAction;
  (* [new Date()], [Date.now()] and [Math.floor(Math.random() * 60)] in
     the i-th round of getSmartSchedule *)
  smartNow : Date;
  smartClock : nat -> Date;
  randomMinute : nat -> Z
}.

(** *** Setters *)

Definition setIsScheduling (b : bool) (s : State) : State :=
  mkState (accessToken s) (pages s) (activePage s) b (isPaused s) (cancelled s)
          (schedulingProgress s) (schedulingLog s) (notifications s)
          (SetScheduling b :: effects s).
Definition setIsPaused (b : bool) (s : State) : State :=
  mkState (accessToken s) (pages s) (activePage s) (isScheduling s) b (cancelled s)
          (schedulingProgress s) (schedulingLog s) (notifications s) (effects s).
Definition setCancelled (b : bool) (s : State) : State :=
  mkState (accessToken s) (pages s) (activePage s) (isScheduling s) (isPaused s) b
          (schedulingProgress s) (schedulingLog s) (notifications s) (effects s).
Definition setSchedulingProgress (p : nat * nat) (s : State) : State :=
  mkState (accessToken s) (pages s) (activePage s) (isScheduling s) (isPaused s)
          (cancelled s) p (schedulingLog s) (notifications s) (effects s).
Definition setSchedulingLog (l : list SchedulingLogEntry) (s : State) : State :=
  mkState (accessToken s) (pages s) (activePage s) (isScheduling s) (isPaused s)
          (cancelled s) (schedulingProgress s) l (notifications s) (effects s).
Definition addNotification (msg : string) (kind : LogStatus) (s : State) : State :=
  mkState (accessToken s) (pages s) (activePage s) (isScheduling s) (isPaused s)
          (cancelled s) (schedulingProgress s) (schedulingLog s)
          ((msg, kind) :: notifications s) (effects s).
Definition perform (e : Effect) (s : State) : State :=
  mkState (accessToken s) (pages s) (activePage s) (isScheduling s) (isPaused s)
          (cancelled s) (schedulingProgress s) (schedulingLog s) (notifications s)
          (e :: effects s).

(** [setSchedulingLog(prev => [entry, ...prev])] *)
Definition addLog (f : string) (st : LogStatus) (msg : string) (s : State) : State :=
  setSchedulingLog (mkEntry f st msg :: schedulingLog s) s.

(** the stored token and pages are dropped, nothing is selected any more *)
Definition handleLogout (s : State) : State :=
  addNotification "You have been logged out." info
    (mkState EmptyString [] None (isScheduling s) (isPaused s) (cancelled s)
             (schedulingProgress s) (schedulingLog s) (notifications s)
             (Logout :: effects s)).

(** *** The start/stop button pressed while a run is in progress

    [handleSchedulingProcess] then takes its first branch: it sets the
    cancel token, logs and returns. *)
Definition requestStop (s : State) : State :=
  addLog EmptyString info "Stopping scheduling process..." (setCancelled true s).

Definition uiAction (s : State) (a : UIAction) : State :=
  match a with
  | PressToggle => requestStop s
  | SetPaused b => setIsPaused b s
  end.

Definition uiActions (acts : list UIAction) (s : State) : State :=
  fold_left uiAction acts s.


Section Run.
Variable w : World.
(** [schedulerSettings], as the callback closed over it *)
Variable cfg : SchedulerSettings.

Local Open Scope m_scope.

Definition log (f : string) (st : LogStatus) (msg : string) : M State unit :=
  update (addLog f st msg).

(** an awaited request, recorded before its answer is looked at *)
Definition request {A : Type} (e : Effect) (answer : Exc A) : M State A :=
  update (perform e) ;; await answer.

Definition nonEmpty (s : string) : bool :=
  match s with EmptyString => false | String _ _ => true end.

Definition dquote : string := String (ascii_of_nat 34) EmptyString.

(** *** uploadPost *)

Definition uploadPost (i : nat) (file : File) (scheduleTime : option Date)
  (page : option FBPage) : M State unit :=
  match page with
  | None => raise "No active page selected."
  | Some _ =>
    log (file_name file) info "Generating AI caption..." ;;
    caption <- request (Enhance i) (generateCaptionForScheduling w i) ;;
    log (file_name file) info
        ("Caption ready: " ++ dquote ++ substring 0 50 caption ++ "..." ++ dquote) ;;
    (* Step 1: upload the media without publishing *)
    log (file_name file) info "Uploading media file to Facebook..." ;;
    mediaUploadData <- request (PublishMedia i) (postMedia w i) ;;
    match resp_error mediaUploadData with
    | Some m => raise ("Media upload failed: " ++ m)
    | None =>
      match resp_id mediaUploadData with
      | None | Some EmptyString =>
        raise "Media uploaded, but did not receive a media ID from Facebook."
      | Some mediaId =>
        log (file_name file) info
            ("Media uploaded successfully. ID: " ++ mediaId ++ ". Now creating post...") ;;
        (* Step 2: create the feed post with the media and the place *)
        (if nonEmpty (checkInPlaceId cfg)
         then log (file_name file) info
                  ("Attaching place with ID: " ++ checkInPlaceId cfg ++ ".")
         else ret tt) ;;
        match scheduleTime with
        | Some t => log (file_name file) info ("Scheduling post for " ++ toLocaleString w t)
        | None => log (file_name file) info "Publishing post immediately..."
        end ;;
        postResponseData <- request (CreatePost i) (postFeed w i) ;;
        match resp_error postResponseData with
        | Some m => raise ("Post creation failed: " ++ m)
        | None =>
          let successMessage :=
            match scheduleTime with
            | Some _ => "Scheduled successfully! Post ID: "
                          ++ JSString.ofOption (resp_id postResponseData)
            | None => "Posted successfully! Post ID: "
                          ++ JSString.ofOption (resp_id postResponseData)
            end in
          log (file_name file) success successMessage
        end
      end
    end
  end.

(** *** The manual allocator *)

(** one turn of the allocation loop after the push: the running clock is
    advanced and, past [endTime], rolled to the next day at [startTime] *)
Definition manualAdvance (scheduleTime : Date) : Date :=
  let '(startH, startM) := startTime cfg in
  let '(endH, endM) := endTime cfg in
  let scheduleTime :=
    setMinutes (tz w) scheduleTime (getMinutes (tz w) scheduleTime + interval cfg) in
  if (getHours (tz w) scheduleTime >? endH)
     || ((getHours (tz w) scheduleTime =? endH) && (getMinutes (tz w) scheduleTime >? endM))
  then setHours (tz w) (addDays scheduleTime 1) startH startM 0 0
  else scheduleTime.

Fixpoint manualLoop (n : nat) (scheduleTime : Date) : list Date :=
  match n with
  | O => []
  | S n' => scheduleTime :: manualLoop n' (manualAdvance scheduleTime)
  end.

Definition manualSchedule (n : nat) : list Date :=
  let '(startH, startM) := startTime cfg in
  manualLoop n (setHours (tz w) (ofISODate (startDate cfg)) startH startM 0 0).

(** *** The smart allocator *)

Section Smart.
(** what the analytics call returns for a page *)
Variable insightsData : FBPage -> Exc (list Z).

Definition fetchPageInsightsWith (page : FBPage) : M State (list Z) :=
  log EmptyString info
      "Analyzing page engagement... (mock data). This requires 'read_insights' permission." ;;
  await (insightsData page).

(** [insights.map((followers, hour) => ({hour, followers}))], sorted by
    followers, largest first; a pair is [(hour, followers)] *)
Definition rankHours (insights : list Z) : list (Z * Z) :=
  JSArray.sort (fun a b => snd b - snd a) (JSArray.indexed 0 insights).

(** [hoursWithFollowers[i % 5].hour]; reading [hour] of [undefined] throws *)
Definition candidateHour (hoursWithFollowers : list (Z * Z)) (i : nat) : option Z :=
  option_map fst (nth_error hoursWithFollowers (i mod 5)).

(** rounds [i], [i+1], ... of the generation loop, [k] of them *)
Fixpoint smartLoop (hoursWithFollowers : list (Z * Z)) (k i : nat)
  (currentDate : Date) : Exc (list Date) :=
  match k with
  | O => ok []
  | S k' =>
    let currentDate :=
      if ((0 <? i) && (i mod 3 =? 0))%nat then addDays currentDate 1 else currentDate in
    match candidateHour hoursWithFollowers i with
    | None => throw "Cannot read properties of undefined (reading 'hour')"
    | Some hour =>
      let postDate := setHours (tz w) currentDate hour (randomMinute w i) 0 0 in
      let postDate :=
        if postDate <? smartClock w i + 600000 then addDays postDate 1 else postDate in
      match smartLoop hoursWithFollowers k' (S i) currentDate with
      | inl scheduleDates => ok (postDate :: scheduleDates)
      | inr msg => throw msg
      end
    end
  end.

Definition getSmartScheduleWith (page : FBPage) (numberOfPosts : nat)
  : M State (list Date) :=
  insights <- fetchPageInsightsWith page ;;
  scheduleDates <- await (smartLoop (rankHours insights) numberOfPosts 0
                            (addDays (smartNow w) 1)) ;;
  ret (JSArray.sort (fun a b => a - b) scheduleDates).

(** *** handleSchedulingProcess *)

(** the [try] block: the slots of the queue *)
Definition generateSchedule (page : FBPage) : M State (list Date) :=
  let n := List.length (files cfg) in
  if smartScheduleEnabled cfg then
    log EmptyString info "Using Smart Schedule. Generating optimal post times..." ;;
    scheduleTimes <- getSmartScheduleWith page n ;;
    log EmptyString info
        ("Smart Schedule generated " ++ JSString.ofNat (List.length scheduleTimes)
           ++ " post times.") ;;
    ret scheduleTimes
  else
    log EmptyString info
        ("Using Manual Schedule for " ++ JSString.ofNat n ++ " files...") ;;
    ret (manualSchedule n).

(** [while (isPausedRef.current) { if (cancelled) break; await sleep(1000); }]
    The result is [inl] when the loop is left and [inr] when the
    presses have run out with the flag still set: nothing will clear it. *)
Fixpoint pauseLoop (presses : list (list UIAction)) (s : State) : State + State :=
  if isPaused s then
    if cancelled s then inl s
    else match presses with
         | [] => inr s
         | acts :: presses' => pauseLoop presses' (uiActions acts (perform Sleep s))
         end
  else inl s.

(** lead-time correction at dispatch: a slot closer than 10 minutes is
    moved to the same time on the next day *)
Definition adjustSlot (i : nat) (currentFile : File) (scheduleTime : Date) (s : State)
  : Date * State :=
  if scheduleTime <? dispatchClock w i + 600000 then
    let originalTime := scheduleTime in
    let scheduleTime := addDays scheduleTime 1 in
    (scheduleTime,
     addLog (file_name currentFile) info
       ("Time " ++ toLocaleString w originalTime ++ " is in the past. Auto-adjusted to "
          ++ toLocaleString w scheduleTime) s)
  else (scheduleTime, s).

(** one turn of the [for] loop *)
Inductive Step :=
| Next (s : State)              (* on to the next index *)
| Stop (o : Outcome State).     (* [break], or the function does not get further *)

(** the body of the loop for index [i]; [slot] is [scheduleTimes[i]].
    Presses made while the item is in flight have taken effect when the
    runner resumes after [uploadPost]. *)
Definition processItem (page : FBPage) (i : nat) (currentFile : File)
  (slot : option Date) (s : State) : Step :=
  if cancelled s then
    Stop (Returned (addNotification "Scheduling process cancelled." info
                      (addLog EmptyString info "Scheduling cancelled by user." s)))
  else
    match pauseLoop (pausePresses w i) s with
    | inr s => Stop (Waiting s)
    | inl s =>
      let s := setSchedulingProgress (S i, List.length (files cfg)) s in
      match slot with
      | None => Stop (Crashed s)
      | Some scheduleTime =>
        let '(scheduleTime, s) := adjustSlot i currentFile scheduleTime s in
        let '(s, result) := uploadPost i currentFile (Some scheduleTime) (Some page) s in
        let s := uiActions (flightPresses w i) s in
        match result with
        | inl _ => Next s
        | inr msg =>
          let s := addLog (file_name currentFile) error ("Failed: " ++ msg) s in
          if isAuthFailure msg then
            Stop (Returned
                    (handleLogout
                       (addNotification
                          "Facebook token expired during operation. Please log in again."
                          error s)))
          else Next s
        end
      end
    end.

(** the [for] loop from index [i]: [queue] holds files [i], [i+1], ...
    and [scheduleTimes] the slots from index [i] on *)
Fixpoint schedulingLoop (page : FBPage) (i : nat) (queue : list File)
  (scheduleTimes : list Date) (s : State) : Outcome State :=
  match queue with
  | [] => Returned s
  | currentFile :: queue' =>
    match processItem page i currentFile (hd_error scheduleTimes) s with
    | Next s => schedulingLoop page (S i) queue' (tl scheduleTimes) s
    | Stop o => o
    end
  end.

(** what follows the loop *)
Definition finishRun (s : State) : State :=
  setIsPaused false
    (setIsScheduling false
       (addNotification "Bulk scheduling process has finished." success
          (addLog EmptyString info "Scheduling complete." s))).

(** the loop over the whole queue and what follows it *)
Definition runQueue (page : FBPage) (scheduleTimes : list Date) (s : State)
  : Outcome State :=
  match schedulingLoop page O (files cfg) scheduleTimes s with
  | Returned s => Returned (finishRun s)
  | o => o
  end.

(** the setter calls that open a run *)
Definition beginRun (s : State) : State :=
  let s := setIsScheduling true s in
  let s := setIsPaused false s in
  let s := setCancelled false s in
  let s := setSchedulingLog [] s in
  setSchedulingProgress (O, List.length (files cfg)) s.

Definition handleSchedulingProcessWith (s : State) : Outcome State :=
  if isScheduling s then Returned (requestStop s)
  else
    match files cfg with
    | [] =>
      Returned (addNotification "No files selected to schedule." error
                  (addLog EmptyString error "No files selected to schedule." s))
    | _ :: _ =>
      match activePage s with
      | None =>
        Returned (addNotification "No Facebook Page selected." error
                    (addLog EmptyString error "No Facebook Page selected." s))
      | Some page =>
        match generateSchedule page (beginRun s) with
        | (s, inr msg) =>
          Returned
            (setIsScheduling false
               (addNotification ("Could not generate schedule: " ++ msg) error
                  (addLog EmptyString error ("Schedule generation failed: " ++ msg) s)))
        | (s, inl scheduleTimes) => runQueue page scheduleTimes s
        end
      end
    end.

End Smart.

(** the analytics call as the page has it: the same mock data for every page *)
Definition mockInsights : list Z :=
  [100; 80; 70; 60; 50; 60; 80; 120; 150; 200; 250; 300; 320; 310; 280; 260;
   300; 350; 450; 500; 520; 480; 400; 250].

Definition fetchPageInsights : FBPage -> M State (list Z) :=
  fetchPageInsightsWith (fun _ => ok mockInsights).


Definition handleSchedulingProcess : State -> Outcome State :=
  handleSchedulingProcessWith (fun _ => ok mockInsights).

End Run.

End Uploader.

(* ------------------------------------------------------------------ *)
(** ** CrossPostPage: reposting from a source page to a destination *)
(* ------------------------------------------------------------------ *)

Module CrossPost.

Record ManagedPost := mkPost {
  post_id : string;
  post_message : option string;
  full_picture : option string
}.

Record CrossPostSchedulerSettings := mkSettings {
  startDate : Z;               (* the day named by the "YYYY-MM-DD" string *)
  interval : Z;                (* in minutes *)
  startTime : Z * Z;           (* "HH:MM".split(':').map(Number) *)
  endTime : Z * Z;
  checkInPlaceId : string;
  smartScheduleEnabled : bool
}.

Record SchedulingLogEntry := mkEntry {
  post : string;
  status : LogStatus;
  message : string
}.

(** a restyled image *)
Definition Blob : Type := string.

(** *** A JavaScript [Set] of strings: its elements in insertion order *)

Definition setHas (k : string) (set : list string) : bool :=
  existsb (String.eqb k) set.

Definition setAdd (k : string) (set : list string) : list string :=
  if setHas k set then set else (set ++ [k])%list.

Record State := mkState {
  accessToken : string;
  pages : list FBPage;
  sourcePage : option FBPage;
  destinationPage : option FBPage;
  sourcePosts : list ManagedPost;
  selectedPostIds : list string;
  crossPostHistory : list string;             (* the React state, a Set *)
  storedHistory : option (list string);       (* localStorage.crosspost_history_v1 *)
  isScheduling : bool;
  isPaused : bool;                            (* isPausedRef.current *)
  cancelled : bool;                           (* schedulerCancelToken.current.cancelled *)
  schedulingProgress : nat * nat;
  schedulingLog : list SchedulingLogEntry;    (* newest first *)
  notifications : list (string * LogStatus);  (* newest first *)
  effects : list Effect                       (* newest first *)
}.

Record World := mkWorld {
  tz : Z;
  toLocaleString : Date -> string;
  (* the answers of the collaborators for queue position [i] *)
  restyleImage : nat -> option Blob;
  generateCrossPostCaption : nat -> Exc string;
  postPhoto : nat -> Exc GraphResponse;
  postFeed : nat -> Exc GraphResponse;
  (* does [localStorage.setItem] go through for item [i] (it throws when
     the quota is exceeded) *)
  setItemSucceeds : nat -> bool;
  dispatchClock : nat -> Date;
  pausePresses : nat -> list (list UIAction);
  flightPresses : nat -> list UIAction
}.

(** *** Setters *)

Definition setIsScheduling (b : bool) (s : State) : State :=
  mkState (accessToken s) (pages s) (sourcePage s) (destinationPage s) (sourcePosts s)
          (selectedPostIds s) (crossPostHistory s) (storedHistory s) b (isPaused s)
          (cancelled s) (schedulingProgress s) (schedulingLog s) (notifications s)
          (SetScheduling b :: effects s).
Definition setIsPaused (b : bool) (s : State) : State :=
  mkState (accessToken s) (pages s) (sourcePage s) (destinationPage s) (sourcePosts s)
          (selectedPostIds s) (crossPostHistory s) (storedHistory s) (isScheduling s) b
          (cancelled s) (schedulingProgress s) (schedulingLog s) (notifications s)
          (effects s).
Definition setCancelled (b : bool) (s : State) : State :=
  mkState (accessToken s) (pages s) (sourcePage s) (destinationPage s) (sourcePosts s)
          (selectedPostIds s) (crossPostHistory s) (storedHistory s) (isScheduling s)
          (isPaused s) b (schedulingProgress s) (schedulingLog s) (notifications s)
          (effects s).
Definition setSchedulingProgress (p : nat * nat) (s : State) : State :=
  mkState (accessToken s) (pages s) (sourcePage s) (destinationPage s) (sourcePosts s)
          (selectedPostIds s) (crossPostHistory s) (storedHistory s) (isScheduling s)
          (isPaused s) (cancelled s) p (schedulingLog s) (notifications s) (effects s).
Definition setSchedulingLog (l : list SchedulingLogEntry) (s : State) : State :=
  mkState (accessToken s) (pages s) (sourcePage s) (destinationPage s) (sourcePosts s)
          (selectedPostIds s) (crossPostHistory s) (storedHistory s) (isScheduling s)
          (isPaused s) (cancelled s) (schedulingProgress s) l (notifications s)
          (effects s).
Definition addNotification (msg : string) (kind : LogStatus) (s : State) : State :=
  mkState (accessToken s) (pages s) (sourcePage s) (destinationPage s) (sourcePosts s)
          (selectedPostIds s) (crossPostHistory s) (storedHistory s) (isScheduling s)
          (isPaused s) (cancelled s) (schedulingProgress s) (schedulingLog s)
          ((msg, kind) :: notifications s) (effects s).
Definition perform (e : Effect) (s : State) : State :=
  mkState (accessToken s) (pages s) (sourcePage s) (destinationPage s) (sourcePosts s)
          (selectedPostIds s) (crossPostHistory s) (storedHistory s) (isScheduling s)
          (isPaused s) (cancelled s) (schedulingProgress s) (schedulingLog s)
          (notifications s) (e :: effects s).
Definition setHistory (h : list string) (stored : option (list string)) (s : State) : State :=
  mkState (accessToken s) (pages s) (sourcePage s) (destinationPage s) (sourcePosts s)
          (selectedPostIds s) h stored (isScheduling s)
          (isPaused s) (cancelled s) (schedulingProgress s) (schedulingLog s)
          (notifications s) (effects s).

Definition addLog (p : string) (st : LogStatus) (msg : string) (s : State) : State :=
  setSchedulingLog (mkEntry p st msg :: schedulingLog s) s.

Definition handleLogout (s : State) : State :=
  addNotification "You have been logged out." info
    (mkState EmptyString [] None None (sourcePosts s) (selectedPostIds s)
             (crossPostHistory s) (storedHistory s) (isScheduling s) (isPaused s)
             (cancelled s) (schedulingProgress s) (schedulingLog s) (notifications s)
             (Logout :: effects s)).

(** the start/stop button pressed while a run is in progress *)
Definition requestStop (s : State) : State :=
  addLog EmptyString info "Stopping process..." (setCancelled true s).

Definition uiAction (s : State) (a : UIAction) : State :=
  match a with
  | PressToggle => requestStop s
  | SetPaused b => setIsPaused b s
  end.

Definition uiActions (acts : list UIAction) (s : State) : State :=
  fold_left uiAction acts s.

Definition historyKey (p : ManagedPost) (destination : FBPage) : string :=
  post_id p ++ "|" ++ page_id destination.

Section Run.
Variable w : World.
Variable schedulerSettings : CrossPostSchedulerSettings.

Local Open Scope m_scope.

Definition log (p : string) (st : LogStatus) (msg : string) : M State unit :=
  update (addLog p st msg).

Definition request {A : Type} (e : Effect) (answer : Exc A) : M State A :=
  update (perform e) ;; await answer.

Definition dquote : string := String (ascii_of_nat 34) EmptyString.

(** [manipulateImage]: [null] without a picture or when restyling fails;
    it never throws *)
Definition manipulateImage (i : nat) (p : ManagedPost) : option Blob :=
  match full_picture p with
  | None | Some EmptyString => None
  | Some _ => restyleImage w i
  end.

(** [setCrossPostHistory(prev => ...)]: the key joins a copy of the set,
    and the copy is written to localStorage unless [setItem] throws *)
Definition recordHistory (i : nat) (key : string) (s : State) : State :=
  let newHistorySet := setAdd key (crossPostHistory s) in
  setHistory newHistorySet
    (if setItemSucceeds w i then Some newHistorySet else storedHistory s) s.

(** *** uploadCrossPost *)

Definition uploadCrossPost (i : nat) (p : ManagedPost) (scheduleTime : option Date)
  (destinationPage : option FBPage) : M State unit :=
  match destinationPage with
  | None => raise "No destination page selected."
  | Some destination =>
    log (post_id p) info "Enhancing post..." ;;
    (* Promise.all of the restyled image and the new caption *)
    newCaption <- request (Enhance i) (generateCrossPostCaption w i) ;;
    let imageBlob := manipulateImage i p in
    log (post_id p) info
        ("Caption ready: " ++ dquote ++ substring 0 50 newCaption ++ "..." ++ dquote) ;;
    match imageBlob with
    | Some _ => log (post_id p) info "Uploading new styled image..."
    | None => log (post_id p) info "Image manipulation failed. Using original image URL."
    end ;;
    mediaUploadData <- request (PublishMedia i) (postPhoto w i) ;;
    match resp_error mediaUploadData with
    | Some m => raise ("Media upload failed: " ++ m)
    | None =>
      let mediaId := resp_id mediaUploadData in
      log (post_id p) info
          ("Media uploaded (ID: " ++ JSString.ofOption mediaId ++ "). Creating post...") ;;
      match scheduleTime with
      | Some t => log (post_id p) info ("Scheduling for " ++ toLocaleString w t)
      | None => ret tt
      end ;;
      postResponseData <- request (CreatePost i) (postFeed w i) ;;
      match resp_error postResponseData with
      | Some m => raise ("Post creation failed: " ++ m)
      | None =>
        (* Add to history on success *)
        update (recordHistory i (historyKey p destination)) ;;
        let successMessage :=
          match scheduleTime with
          | Some _ => "Scheduled successfully! ID: "
                        ++ JSString.ofOption (resp_id postResponseData)
          | None => "Posted successfully!"
          end in
        log (post_id p) success successMessage
      end
    end
  end.

(** *** handleSchedulingProcess *)

(** the running clock after an item: advanced by the interval and, past
    [endTime], rolled to the next day at [startTime] *)
Definition advanceClock (scheduleTime : Date) : Date :=
  let '(startH, startM) := startTime schedulerSettings in
  let '(endH, endM) := endTime schedulerSettings in
  let scheduleTime :=
    setMinutes (tz w) scheduleTime
      (getMinutes (tz w) scheduleTime + interval schedulerSettings) in
  if (getHours (tz w) scheduleTime >? endH)
     || ((getHours (tz w) scheduleTime =? endH) && (getMinutes (tz w) scheduleTime >? endM))
  then setHours (tz w) (addDays scheduleTime 1) startH startM 0 0
  else scheduleTime.

(** [while (isPausedRef.current) await sleep(1000);] *)
Fixpoint pauseLoop (presses : list (list UIAction)) (s : State) : State + State :=
  if isPaused s then
    match presses with
    | [] => inr s
    | acts :: presses' => pauseLoop presses' (uiActions acts (perform Sleep s))
    end
  else inl s.

Section Loop.
(** what the callback closed over when the run started *)
Variable destination : FBPage.
Variable history : list string.       (* crossPostHistory *)
Variable total : nat.                 (* postsToSchedule.length *)

(** one turn of the [for] loop *)
Inductive Step :=
| Next (scheduleTime : Date) (s : State)   (* on to the next index *)
| Stop (o : Outcome State).                (* [break], or no further *)

(** the body of the loop for index [i]; [continue] leaves the running
    clock as it is *)
Definition processItem (i : nat) (currentPost : ManagedPost) (scheduleTime : Date)
  (s : State) : Step :=
  if cancelled s then
    Stop (Returned (addLog EmptyString info "Scheduling cancelled by user." s))
  else
    match pauseLoop (pausePresses w i) s with
    | inr s => Stop (Waiting s)
    | inl s =>
      let key := historyKey currentPost destination in
      let s := setSchedulingProgress (S i, total) s in
      if setHas key history then
        Next scheduleTime
          (addLog (post_id currentPost) info
             "Skipped: This post has already been cross-posted to the destination page."
             s)
      else
        let finalScheduleTime :=
          if scheduleTime <? dispatchClock w i + 600000
          then addDays scheduleTime 1 else scheduleTime in
        let '(s, result) :=
          uploadCrossPost i currentPost (Some finalScheduleTime) (Some destination) s in
        let s := uiActions (flightPresses w i) s in
        match result with
        | inl _ => Next (advanceClock scheduleTime) s
        | inr msg =>
          let s := addLog (post_id currentPost) error ("Failed: " ++ msg) s in
          if isAuthFailure msg then
            Stop (Returned
                    (handleLogout
                       (addNotification
                          "Facebook token expired during operation. Please log in again."
                          error s)))
          else Next (advanceClock scheduleTime) s
        end
    end.

Fixpoint schedulingLoop (i : nat) (queue : list ManagedPost) (scheduleTime : Date)
  (s : State) : Outcome State :=
  match queue with
  | [] => Returned s
  | currentPost :: queue' =>
    match processItem i currentPost scheduleTime s with
    | Next scheduleTime s => schedulingLoop (S i) queue' scheduleTime s
    | Stop o => o
    end
  end.
End Loop.

Definition postsToSchedule (s : State) : list ManagedPost :=
  filter (fun p => setHas (post_id p) (selectedPostIds s)) (sourcePosts s).

(** the setter calls that open a run over [n] posts *)
Definition beginRun (n : nat) (s : State) : State :=
  let s := setIsScheduling true s in
  let s := setIsPaused false s in
  let s := setCancelled false s in
  let s := setSchedulingLog [] s in
  setSchedulingProgress (O, n) s.

(** the running clock at the start: [startDate] at [startTime] *)
Definition firstSlot : Date :=
  let '(startH, startM) := startTime schedulerSettings in
  setHours (tz w) (ofISODate (startDate schedulerSettings)) startH startM 0 0.

Definition finishRun (s : State) : State :=
  setIsScheduling false
    (addNotification "Cross-posting process has finished." success s).

(** The loop reads [crossPostHistory] as the callback has closed over it:
    the set of the render in which the run was started.  The updates that
    [uploadCrossPost] makes during the run install new sets in the state
    and leave that one untouched. *)
Definition handleSchedulingProcess (s : State) : Outcome State :=
  if isScheduling s then Returned (requestStop s)
  else
    let invalid :=
      Returned
        (addNotification
           "Please select posts, a valid source, and a different destination page."
           error s) in
    match postsToSchedule s, destinationPage s, sourcePage s with
    | _ :: _, Some destination, Some source =>
      if (page_id destination =? page_id source)%string then invalid
      else
        let queue := postsToSchedule s in
        match schedulingLoop destination (crossPostHistory s) (List.length queue)
                O queue firstSlot (beginRun (List.length queue) s) with
        | Returned s => Returned (finishRun s)
        | o => o
        end
    | _, _, _ => invalid
    end.

End Run.

End CrossPost.

(* ------------------------------------------------------------------ *)
(** ** The specification's wording of the allocators, and sample inputs *)
(* ------------------------------------------------------------------ *)

Module Spec.
Import Uploader.

(** *** The manual allocator in the specification's words

    A running clock is a local calendar day and a minute of that day. *)

(** the minute of the day of a time given as (hour, minute) *)
Definition minuteOfDay (hm : Z * Z) : Z := fst hm * 60 + snd hm.

(** does the minute of the day [m] exceed [endTime], compared as
    (hour, minute) pairs, lexicographically *)
Definition exceeds (m : Z) (endTime : Z * Z) : bool :=
  (m / 60 >? fst endTime) || ((m / 60 =? fst endTime) && (m mod 60 >? snd endTime)).

(** after an emission: advance by the interval; past [endTime], roll to
    the next calendar day at [startTime] *)
Definition manualNext (cfg : SchedulerSettings) (clock : Z * Z) : Z * Z :=
  let '(day, minute) := clock in
  let advanced := minute + interval cfg in
  let day' := day + advanced / 1440 in
  let minute' := advanced mod 1440 in
  if exceeds minute' (endTime cfg)
  then (day' + 1, minuteOfDay (startTime cfg))
  else (day', minute').

Fixpoint manualSlots (cfg : SchedulerSettings) (n : nat) (clock : Z * Z) : list (Z * Z) :=
  match n with
  | O => []
  | S n' => clock :: manualSlots cfg n' (manualNext cfg clock)
  end.

(** the timestamp of minute [m] of local day [d] in the zone [tz] *)
Definition atLocal (tz : Z) (clock : Z * Z) : Date :=
  ofLocal tz (fst clock * msPerDay + snd clock * msPerMinute).

(** the local calendar day on which midnight UTC of day [d] falls *)
Definition localDayOfUTCMidnight (tz : Z) (d : Z) : Z := (d * 1440 + tz) / 1440.

(** the five best hours of the ranking, best first *)
Definition topFive : list Z := map fst (firstn 5 (rankHours mockInsights)).

(** the running date of round [i], in days from today: it starts at
    tomorrow and moves on by a day at every [i > 0] with [i mod 3 = 0] *)
Fixpoint runningDay (i : nat) : Z :=
  match i with
  | O => 1
  | S j => if (S j mod 3 =? 0)%nat then runningDay j + 1 else runningDay j
  end.



End Spec.

(** ** Observations on a run *)

Module Observe.

(** is [e] a call to the enhancement or publishing collaborator for item [i] *)
Definition touches (i : nat) (e : Effect) : bool :=
  match e with
  | Enhance j | PublishMedia j | CreatePost j => (j =? i)%nat
  | _ => false
  end.

(** was a collaborator called for item [i] *)
Definition attempted (i : nat) (effs : list Effect) : bool := existsb (touches i) effs.

Definition isLogout (e : Effect) : bool :=
  match e with Logout => true | _ => false end.

(** how often the auth-failure callback ([handleLogout]) was invoked *)
Definition logouts (effs : list Effect) : nat := List.length (filter isLogout effs).

(** a record without any call to a collaborator or to [handleLogout] *)
Definition noCalls (effs : list Effect) : Prop :=
  forall e, In e effs -> exists b, e = SetScheduling b.

End Observe.

Module UploaderObserve.
Import Uploader Observe.

(** what [uploadPost] comes to for item [i]: the first failure among the
    caption, the media upload and the post creation, if any *)
Definition uploadAnswer (w : World) (i : nat) : Exc unit :=
  match generateCaptionForScheduling w i with
  | inr msg => inr msg
  | inl _ =>
    match postMedia w i with
    | inr msg => inr msg
    | inl mediaUploadData =>
      match resp_error mediaUploadData with
      | Some m => inr ("Media upload failed: " ++ m)
      | None =>
        match resp_id mediaUploadData with
        | None | Some EmptyString =>
          inr "Media uploaded, but did not receive a media ID from Facebook."
        | Some _ =>
          match postFeed w i with
          | inr msg => inr msg
          | inl postResponseData =>
            match resp_error postResponseData with
            | Some m => inr ("Post creation failed: " ++ m)
            | None => inl tt
            end
          end
        end
      end
    end
  end.

(** nobody touches the buttons during the run *)
Definition quiet (w : World) : Prop :=
  forall j, pausePresses w j = [] /\ flightPresses w j = [].

Definition stoppingEntry : SchedulingLogEntry :=
  mkEntry EmptyString info "Stopping scheduling process...".
Definition cancelledEntry : SchedulingLogEntry :=
  mkEntry EmptyString info "Scheduling cancelled by user.".
Definition completeEntry : SchedulingLogEntry :=
  mkEntry EmptyString info "Scheduling complete.".
Definition failedEntry (f : File) (msg : string) : SchedulingLogEntry :=
  mkEntry (file_name f) error ("Failed: " ++ msg).

(** the state the loop breaks with on cancellation, and on a failed login *)
Definition cancelledStop (s : State) : State :=
  addNotification "Scheduling process cancelled." info
    (addLog EmptyString info "Scheduling cancelled by user." s).

Definition authStop (f : File) (msg : string) (s : State) : State :=
  handleLogout
    (addNotification "Facebook token expired during operation. Please log in again."
       error (addLog (file_name f) error ("Failed: " ++ msg) s)).

(** [s'] comes from [s] by work on item [i], whose file is named [f]:
    [de] and [dl] are what the effects and the log have gained *)
Definition grows (i : nat) (f : string) (de : list Effect)
  (dl : list SchedulingLogEntry) (s s' : State) : Prop :=
  effects s' = (de ++ effects s)%list /\
  schedulingLog s' = (dl ++ schedulingLog s)%list /\
  Forall (fun e => e = Sleep \/ touches i e = true) de /\
  Forall (fun e => status e <> error /\ (file e = EmptyString \/ file e = f)) dl /\
  isScheduling s' = isScheduling s /\
  (cancelled s = true -> cancelled s' = true).

End UploaderObserve.

Module CrossPostObserve.
Import CrossPost Observe.

(** what [uploadCrossPost] comes to for item [i]: the first failure among
    the caption, the photo upload and the post creation, if any *)
Definition publishAnswer (w : World) (i : nat) : Exc unit :=
  match generateCrossPostCaption w i with
  | inr msg => inr msg
  | inl _ =>
    match postPhoto w i with
    | inr msg => inr msg
    | inl mediaUploadData =>
      match resp_error mediaUploadData with
      | Some m => inr ("Media upload failed: " ++ m)
      | None =>
        match postFeed w i with
        | inr msg => inr msg
        | inl postResponseData =>
          match resp_error postResponseData with
          | Some m => inr ("Post creation failed: " ++ m)
          | None => inl tt
          end
        end
      end
    end
  end.

(** the feed post for item [i] was created *)
Definition postCreated (w : World) (i : nat) : Prop :=
  exists postResponseData,
    postFeed w i = inl postResponseData /\ resp_error postResponseData = None.

Definition cancelledEntry : SchedulingLogEntry :=
  mkEntry EmptyString info "Scheduling cancelled by user.".
Definition failedEntry (p : ManagedPost) (msg : string) : SchedulingLogEntry :=
  mkEntry (post_id p) error ("Failed: " ++ msg).

Definition authStop (p : ManagedPost) (msg : string) (s : State) : State :=
  handleLogout
    (addNotification "Facebook token expired during operation. Please log in again."
       error (addLog (post_id p) error ("Failed: " ++ msg) s)).




(** [s'] comes from [s] by work on item [i]: [de] and [dl] are what the
    effects and the log have gained, the entries gained satisfy [P] *)
Definition grows (i : nat) (P : SchedulingLogEntry -> Prop) (de : list Effect)
  (dl : list SchedulingLogEntry) (s s' : State) : Prop :=
  effects s' = (de ++ effects s)%list /\
  schedulingLog s' = (dl ++ schedulingLog s)%list /\
  Forall (fun e => e = Sleep \/ touches i e = true) de /\
  Forall P dl /\
  schedulingProgress s' = schedulingProgress s.

End CrossPostObserve.

(** sample inputs *)
Module Samples.

Definition page : FBPage := mkPage "1001" "Bakery" "page-token".
Definition otherPage : FBPage := mkPage "2002" "Bakery fans" "fans-token".

Definition answered (id : string) : Exc GraphResponse := ok (mkResp None (Some id)).
Definition refused (msg : string) : Exc GraphResponse := ok (mkResp (Some msg) None).

(** 2024-01-15 is day 19737 of the epoch *)
Definition jan15 : Z := 19737.

Module U.
Import Uploader.

(** a world in which every call succeeds and nobody touches the buttons;
    the clock stands at noon UTC of 2024-01-14 *)
Definition calm (zone : Z) : World :=
  mkWorld zone (fun t => NilZero.string_of_int (Z.to_int t))
    (fun _ => ok "A fresh caption") (fun _ => answered "m1") (fun _ => answered "p1")
    (fun _ => (jan15 - 1) * msPerDay + 12 * msPerHour)
    (fun _ => []) (fun _ => [])
    ((jan15 - 1) * msPerDay + 12 * msPerHour)
    (fun _ => (jan15 - 1) * msPerDay + 12 * msPerHour)
    (fun i => Z.of_nat i mod 60).

Definition fiveFiles : list File :=
  [mkFile "a.jpg"; mkFile "b.jpg"; mkFile "c.jpg"; mkFile "d.jpg"; mkFile "e.jpg"].

(** count = 5, interval = 60, start = 09:00, end = 22:00 *)
Definition hourly (smart : bool) : SchedulerSettings :=
  mkSettings fiveFiles Image jan15 60 (9, 0) (22, 0)
    "Check out this amazing picture!" demo EmptyString smart.

Definition idle : State :=
  mkState "user-token" [page] (Some page) false false false (O, O) [] [] [].

(** [calm], but with other answers and presses where [i] is as given *)
Definition withFeed (i : nat) (r : Exc GraphResponse) (w : World) : World :=
  mkWorld (tz w) (toLocaleString w) (generateCaptionForScheduling w) (postMedia w)
    (fun j => if (j =? i)%nat then r else postFeed w j)
    (dispatchClock w) (pausePresses w) (flightPresses w)
    (smartNow w) (smartClock w) (randomMinute w).
Definition withFlight (i : nat) (acts : list UIAction) (w : World) : World :=
  mkWorld (tz w) (toLocaleString w) (generateCaptionForScheduling w) (postMedia w)
    (postFeed w) (dispatchClock w) (pausePresses w)
    (fun j => if (j =? i)%nat then acts else flightPresses w j)
    (smartNow w) (smartClock w) (randomMinute w).
Definition withPause (i : nat) (presses : list (list UIAction)) (w : World) : World :=
  mkWorld (tz w) (toLocaleString w) (generateCaptionForScheduling w) (postMedia w)
    (postFeed w) (dispatchClock w)
    (fun j => if (j =? i)%nat then presses else pausePresses w j)
    (flightPresses w) (smartNow w) (smartClock w) (randomMinute w).

(** the session expires when the post for item 1 is created *)
Definition expired : World :=
  withFeed 1 (refused "Error validating access token: Session has expired") (calm 0).



(** the stop button is pressed while item 1 is in flight *)
Definition stopped : World := withFlight 1 [PressToggle] (calm 0).

(** the stop button is pressed while the last item is in flight *)
Definition stoppedLate : World := withFlight 4 [PressToggle] (calm 0).

(** the run is paused while item 0 is in flight; during the first second
    of the wait before item 1 the stop button is pressed *)
Definition stoppedInPause : World :=
  withPause 1 [[PressToggle]] (withFlight 0 [SetPaused true] (calm 0)).

End U.

Module X.
Import CrossPost.

Definition calm : World :=
  mkWorld 0 (fun t => NilZero.string_of_int (Z.to_int t))
    (fun _ => Some "restyled") (fun _ => ok "A new caption")
    (fun _ => answered "m1") (fun _ => answered "p1") (fun _ => true)
    (fun _ => (jan15 - 1) * msPerDay + 12 * msPerHour)
    (fun _ => []) (fun _ => []).

Definition withFlight (i : nat) (acts : list UIAction) (w : World) : World :=
  mkWorld (tz w) (toLocaleString w) (restyleImage w) (generateCrossPostCaption w)
    (postPhoto w) (postFeed w) (setItemSucceeds w) (dispatchClock w) (pausePresses w)
    (fun j => if (j =? i)%nat then acts else flightPresses w j).
Definition withPause (i : nat) (presses : list (list UIAction)) (w : World) : World :=
  mkWorld (tz w) (toLocaleString w) (restyleImage w) (generateCrossPostCaption w)
    (postPhoto w) (postFeed w) (setItemSucceeds w) (dispatchClock w)
    (fun j => if (j =? i)%nat then presses else pausePresses w j)
    (flightPresses w).
Definition withFeed (i : nat) (r : Exc GraphResponse) (w : World) : World :=
  mkWorld (tz w) (toLocaleString w) (restyleImage w) (generateCrossPostCaption w)
    (postPhoto w) (fun j => if (j =? i)%nat then r else postFeed w j)
    (setItemSucceeds w) (dispatchClock w) (pausePresses w) (flightPresses w).

(** the run is paused while item 0 is in flight; during the first second
    of the wait before item 1 the stop button is pressed, during the next
    the pause is lifted *)
Definition stoppedInPause : World :=
  withPause 1 [[PressToggle]; [SetPaused false]] (withFlight 0 [SetPaused true] calm).

Definition hourly : CrossPostSchedulerSettings :=
  mkSettings jan15 60 (9, 0) (22, 0) EmptyString false.

Definition post1 : ManagedPost := mkPost "77_1" (Some "Fresh bread") (Some "https://img/1.jpg").
Definition post2 : ManagedPost := mkPost "77_2" (Some "New opening hours") None.
Definition post3 : ManagedPost := mkPost "77_3" None (Some "https://img/3.jpg").

(** three posts of the source page, all selected, nothing reposted yet *)
Definition idle : State :=
  mkState "user-token" [page; otherPage] (Some page) (Some otherPage)
    [post1; post2; post3] ["77_1"; "77_2"; "77_3"] [] None
    false false false (O, O) [] [] [].



End X.

End Samples.

(* ------------------------------------------------------------------ *)
(** ** Colour utilities (types.ts) *)
(* ------------------------------------------------------------------ *)

(** JavaScript numbers are IEEE 754 doubles: the primitive floats. *)
Module JSNumber.
Import PrimFloat SpecFloat FloatOps.

Definition Number := float.

(** the double of an integer below 2^63 in magnitude (exact below 2^53) *)
Definition ofZ (n : Z) : Number :=
  if n <? 0 then PrimFloat.opp (PrimFloat.of_uint63 (Uint63.of_Z (- n)))
  else PrimFloat.of_uint63 (Uint63.of_Z n).

(** [Math.min(x, y)] and [Math.max(x, y)]: NaN if an argument is NaN; of
    the two zeros, -0 is the smaller *)
Definition mathMin (x y : Number) : Number :=
  if PrimFloat.is_nan x || PrimFloat.is_nan y then PrimFloat.nan
  else if PrimFloat.ltb x y then x
  else if PrimFloat.ltb y x then y
  else if PrimFloat.get_sign x then x else y.

Definition mathMax (x y : Number) : Number :=
  if PrimFloat.is_nan x || PrimFloat.is_nan y then PrimFloat.nan
  else if PrimFloat.ltb x y then y
  else if PrimFloat.ltb y x then x
  else if PrimFloat.get_sign x then y else x.

(** what [Math.max(0, Math.floor(x))] can be *)
Inductive Floored :=
| FNaN
| FInfinity
| FInt (n : Z).

(** [Math.max(0, Math.floor(x))]: the floor of a negative number is
    negative, and [Math.max] then gives 0 *)
Definition floorMax0 (x : Number) : Floored :=
  match Prim2SF x with
  | S754_nan => FNaN
  | S754_infinity false => FInfinity
  | S754_infinity true => FInt 0
  | S754_zero _ => FInt 0
  | S754_finite true _ _ => FInt 0
  | S754_finite false m e =>
    FInt (if 0 <=? e then Z.pos m * 2 ^ e else Z.pos m / 2 ^ (- e))
  end.

End JSNumber.

Module Color.
Import JSNumber.

Definition isHexDigit (c : ascii) : bool :=
  let n := nat_of_ascii c in
  (((48 <=? n) && (n <=? 57)) || ((65 <=? n) && (n <=? 70))
   || ((97 <=? n) && (n <=? 102)))%nat.

(** the value of a hexadecimal digit *)
Definition hexValue (c : ascii) : Z :=
  let n := Z.of_nat (nat_of_ascii c) in
  if n <=? 57 then n - 48 else if n <=? 70 then n - 55 else n - 87.

(** the digit of a value below 16, as [toString(16)] writes it *)
Definition hexChar (v : Z) : ascii :=
  ascii_of_nat (Z.to_nat (if v <? 10 then v + 48 else v + 87)).

Fixpoint allChars (p : ascii -> bool) (s : string) : bool :=
  match s with
  | EmptyString => true
  | String c s' => p c && allChars p s'
  end.

(** [hex.replace(/^#/, '')] *)
Definition stripHash (hex : string) : string :=
  match hex with
  | String "#" s => s
  | _ => hex
  end.

(** [/^([0-9A-Fa-f]{3}|[0-9A-Fa-f]{6})$/.test(strippedHex)] behind the
    guard [!hex] *)
Definition isValidHexColor (hex : string) : bool :=
  match hex with
  | EmptyString => false
  | _ =>
    let strippedHex := stripHash hex in
    allChars isHexDigit strippedHex
    && ((String.length strippedHex =? 3) || (String.length strippedHex =? 6))%nat
  end.

(** [s.split('').map(char => char + char).join('')] *)
Fixpoint doubled (s : string) : string :=
  match s with
  | EmptyString => EmptyString
  | String c s' => String c (String c (doubled s'))
  end.

Definition fullHexOf (hex : string) : string :=
  let strippedHex := stripHash hex in
  if (String.length strippedHex =? 3)%nat then doubled strippedHex else strippedHex.

(** [parseInt(s, 16)] on a string that has neither blanks, sign nor the
    prefix 0x in front: the value of the leading run of hexadecimal
    digits, [None] (NaN) when there is none *)
Fixpoint hexRun (acc : option Z) (s : string) : option Z :=
  match s with
  | EmptyString => acc
  | String c s' =>
    if isHexDigit c
    then hexRun (Some (16 * match acc with Some a => a | None => 0 end + hexValue c)) s'
    else acc
  end.

Definition parseInt16 (s : string) : option Z := hexRun None s.

(** the three channels [r], [g], [b] read from [fullHex] *)
Definition channels (fullHex : string) : option Z * option Z * option Z :=
  (parseInt16 (substring 0 2 fullHex),
   parseInt16 (substring 2 2 fullHex),
   parseInt16 (substring 4 2 fullHex)).

(** [`${r}`] for a channel *)
Definition showChannel (r : option Z) : string :=
  match r with
  | Some n => JSString.ofNat (Z.to_nat n)
  | None => "NaN"
  end.

(** *** darkenColor *)

(** [n.toString(16)] for a non-negative integer: [fuel] digits suffice *)
Fixpoint hexDigitsOf (fuel : nat) (n : Z) (acc : string) : string :=
  match fuel with
  | O => acc
  | S fuel' =>
    let acc := String (hexChar (n mod 16)) acc in
    if n / 16 =? 0 then acc else hexDigitsOf fuel' (n / 16) acc
  end.

Definition toString16 (x : Floored) : string :=
  match x with
  | FNaN => "NaN"
  | FInfinity => "Infinity"
  | FInt n => hexDigitsOf (S (Z.to_nat (Z.log2 n))) n EmptyString
  end.

(** [s.padStart(2, '0')] *)
Definition padStart2 (s : string) : string :=
  match s with
  | EmptyString => "00"
  | String c EmptyString => String "0" s
  | _ => s
  end.

(** [Math.max(0, Math.floor(r * (1 - percent / 100)))] *)
Definition darkenChannel (r : option Z) (percent : Number) : Floored :=
  let r := match r with Some n => ofZ n | None => PrimFloat.nan end in
  floorMax0 (PrimFloat.mul r (PrimFloat.sub (ofZ 1) (PrimFloat.div percent (ofZ 100)))).

Definition darkenColor (hex : string) (percent : Number) : string :=
  if negb (isValidHexColor hex) then hex
  else
    let '(r, g, b) := channels (fullHexOf hex) in
    "#" ++ padStart2 (toString16 (darkenChannel r percent))
        ++ padStart2 (toString16 (darkenChannel g percent))
        ++ padStart2 (toString16 (darkenChannel b percent)).

(** *** hexToRgba *)

Section Rendering.
(** [`${x}`] for a number: the engine's Number::toString *)
Variable numberToString : Number -> string.

Definition hexToRgba (hex : string) (alpha : Number) : string :=
  let a := numberToString (mathMax (ofZ 0) (mathMin (ofZ 1) alpha)) in
  if negb (isValidHexColor hex) then "rgba(0, 0, 0, " ++ a ++ ")"
  else
    let '(r, g, b) := channels (fullHexOf hex) in
    "rgba(" ++ showChannel r ++ ", " ++ showChannel g ++ ", " ++ showChannel b
            ++ ", " ++ a ++ ")".
End Rendering.

End Color.

(** observations on colours: the channels of the six-digit form, a byte,
    and a byte written with two hexadecimal digits *)
Module ColorObserve.
Import JSNumber Color.

Definition channelValues (fullHex : string) : Z * Z * Z :=
  match fullHex with
  | String a (String b (String c (String d (String e (String f _))))) =>
    (16 * hexValue a + hexValue b, 16 * hexValue c + hexValue d,
     16 * hexValue e + hexValue f)
  | _ => (0, 0, 0)
  end.

Definition inByte (n : Z) : Prop := 0 <= n <= 255.

Definition hexPair (n : Z) : string :=
  String (hexChar (n / 16)) (String (hexChar (n mod 16)) EmptyString).

(** [Math.max(0, Math.min(1, alpha))] *)
Definition clamp (alpha : Number) : Number := mathMax (ofZ 0) (mathMin (ofZ 1) alpha).

(** the bytes 0 .. 255 *)
Definition bytes : list Z := map Z.of_nat (seq 0 256).

End ColorObserve.

(* ------------------------------------------------------------------ *)
(** ** The caption service (services/geminiService.ts) *)
(* ------------------------------------------------------------------ *)

Module Gemini.

(** white space and line terminators, as far as ASCII has them *)
Definition isSpace (c : ascii) : bool :=
  let n := nat_of_ascii c in
  (((9 <=? n) && (n <=? 13)) || (n =? 32))%nat.

Fixpoint trimStart (s : string) : string :=
  match s with
  | EmptyString => EmptyString
  | String c s' => if isSpace c then trimStart s' else s
  end.

Fixpoint trimEnd (s : string) : string :=
  match s with
  | EmptyString => EmptyString
  | String c s' =>
    match trimEnd s' with
    | EmptyString => if isSpace c then EmptyString else String c EmptyString
    | t => String c t
    end
  end.

(** [s.trim()] *)
Definition trim (s : string) : string := trimEnd (trimStart s).

(** [s.replace(/[-_]/g, ' ')] *)
Fixpoint spaced (s : string) : string :=
  match s with
  | EmptyString => EmptyString
  | String c s' =>
    String (if Ascii.eqb c "-" || Ascii.eqb c "_" then " "%char else c) (spaced s')
  end.

Definition newline : string := String (ascii_of_nat 10) EmptyString.

(** what the [try] block of a caption function gets from the model:
    [generateContent] rejects, or it resolves and [response.text] is a
    string or [undefined] *)
Definition Reply : Type := Exc (option string).

(** the prompt is built from [sourceText] and [mode]; the reply to it
    comes from outside.  Reading [trim] of [undefined] throws inside the
    [try], so that case ends in the [catch] as well. *)
Definition generateCaptionForScheduling (reply : Reply) (sourceText : string)
  (mode : Uploader.CaptionMode) : string :=
  match reply with
  | inl (Some text) => trim text
  | _ => spaced sourceText ++ newline ++ newline ++ "#general #post" ++ newline
           ++ "What do you think?"
  end.

Definition generateCrossPostCaption (reply : Reply) (originalCaption : string) : string :=
  match reply with
  | inl (Some text) => trim text
  | _ => originalCaption ++ newline ++ newline ++ "#crosspost #repost #post"
  end.

End Gemini.

(* ------------------------------------------------------------------ *)
(** ** UploaderPage: connecting, choosing a page, the test upload *)
(* ------------------------------------------------------------------ *)

Module UploaderPage.
Import Uploader.

(** the parsed reply of [GET /me/accounts]: [data.error?.message] and
    [data.data] *)
Record AccountsResponse := mkAccounts {
  acc_error : option string;
  acc_data : option (list FBPage)
}.

(** the component's state: what the scheduler works on ([run]) and the
    rest, with the two entries the page keeps in localStorage *)
Record Page := mkPageState {
  run : State;
  isLoading : bool;
  loginError : option string;
  isTesting : bool;
  storedToken : option string;            (* localStorage.fbUploader_accessToken_v2 *)
  storedPages : option (list FBPage)      (* localStorage.fbUploader_pages_v2, parsed *)
}.

(** what connecting gets from outside: the reply to the request (a thrown
    [fetch] or [json()] is an error here) and whether the two
    [localStorage.setItem] calls go through *)
Record Network := mkNetwork {
  fetchAccounts : Exc AccountsResponse;
  setItemToken : Exc unit;
  setItemPages : Exc unit
}.

(** *** Setters *)

Definition setAccessToken (t : string) (s : State) : State :=
  mkState t (pages s) (activePage s) (isScheduling s) (isPaused s) (cancelled s)
          (schedulingProgress s) (schedulingLog s) (notifications s) (effects s).
Definition setPages (l : list FBPage) (s : State) : State :=
  mkState (accessToken s) l (activePage s) (isScheduling s) (isPaused s) (cancelled s)
          (schedulingProgress s) (schedulingLog s) (notifications s) (effects s).
Definition setActivePage (a : option FBPage) (s : State) : State :=
  mkState (accessToken s) (pages s) a (isScheduling s) (isPaused s) (cancelled s)
          (schedulingProgress s) (schedulingLog s) (notifications s) (effects s).

Definition onRun (f : State -> State) (p : Page) : Page :=
  mkPageState (f (run p)) (isLoading p) (loginError p) (isTesting p)
              (storedToken p) (storedPages p).
Definition setIsLoading (b : bool) (p : Page) : Page :=
  mkPageState (run p) b (loginError p) (isTesting p) (storedToken p) (storedPages p).
Definition setLoginError (e : option string) (p : Page) : Page :=
  mkPageState (run p) (isLoading p) e (isTesting p) (storedToken p) (storedPages p).
Definition setIsTesting (b : bool) (p : Page) : Page :=
  mkPageState (run p) (isLoading p) (loginError p) b (storedToken p) (storedPages p).
Definition setStoredToken (t : option string) (p : Page) : Page :=
  mkPageState (run p) (isLoading p) (loginError p) (isTesting p) t (storedPages p).
Definition setStoredPages (l : option (list FBPage)) (p : Page) : Page :=
  mkPageState (run p) (isLoading p) (loginError p) (isTesting p) (storedToken p) l.

(** [handleLogout] with the parts of it outside the scheduler's state:
    both localStorage entries are removed and the login error is cleared *)
Definition handleLogout (p : Page) : Page :=
  mkPageState (Uploader.handleLogout (run p)) (isLoading p) None (isTesting p) None None.

(** the state the component starts with: [useState] reads the two
    localStorage entries *)
Definition mount (token : option string) (saved : option (list FBPage)) : Page :=
  mkPageState
    (mkState (match token with Some t => t | None => EmptyString end)
             (match saved with Some l => l | None => [] end)
             None false false false (O, O) [] [] [])
    false None false token saved.

(** *** handleFetchPages *)

Local Open Scope m_scope.

Definition noPagesFound : string := "No pages found for this access token.".

(** the [try] block; [token] is [accessToken] as the callback closed
    over it *)
Definition tryFetchPages (net : Network) (token : string) : M Page unit :=
  data <- await (fetchAccounts net) ;;
  match acc_error data with
  | Some m => raise m
  | None =>
    let fetchedPages := match acc_data data with Some l => l | None => [] end in
    update (onRun (setPages fetchedPages)) ;;
    await (setItemToken net) ;;
    update (setStoredToken (Some token)) ;;
    await (setItemPages net) ;;
    update (setStoredPages (Some fetchedPages)) ;;
    match fetchedPages with
    | first :: _ =>
      update (onRun (setActivePage (Some first))) ;;
      update (onRun (addNotification "Successfully connected to Facebook!" success))
    | [] =>
      update (setLoginError (Some noPagesFound)) ;;
      update (onRun (addNotification noPagesFound error))
    end
  end.

(** the [catch] block *)
Definition fetchPagesFailed (msg : string) (p : Page) : Page :=
  if isAuthFailure msg then
    handleLogout
      (setLoginError
         (Some ("Facebook connection failed: " ++ msg
                  ++ ". The token might be invalid or expired. Please provide a new one."))
         p)
  else
    let errorMessage :=
      "Failed to fetch pages: " ++ msg ++ ". Please check your token and permissions." in
    handleLogout
      (onRun (addNotification errorMessage error) (setLoginError (Some errorMessage) p)).

Definition handleFetchPages (net : Network) (p : Page) : Page :=
  let token := accessToken (run p) in
  if negb (nonEmpty token) then
    onRun (addNotification "Please enter a User Access Token." error) p
  else
    let p := setLoginError None (setIsLoading true p) in
    let '(p, result) := tryFetchPages net token p in
    let p := match result with
             | inl _ => p
             | inr msg => fetchPagesFailed msg p
             end in
    setIsLoading false p.

(** the effect that depends on the token and the pages: without pages a
    stored token is used to fetch them, with pages and no active page
    the first one becomes active *)
Definition pagesEffect (net : Network) (p : Page) : Page :=
  match pages (run p) with
  | [] => if nonEmpty (accessToken (run p)) then handleFetchPages net p else p
  | first :: _ =>
    match activePage (run p) with
    | None => onRun (setActivePage (Some first)) p
    | Some _ => p
    end
  end.

(** *** handlePageChange *)


(** *** handleTestUpload *)

Section TestUpload.
Variable w : World.
Variable cfg : SchedulerSettings.

(** the first file is uploaded with the answers the world has for queue
    position 0, and published at once ([scheduleTime] is [null]) *)
Definition handleTestUpload (p : Page) : Page :=
  if isScheduling (run p) || isTesting p then p
  else
    match files cfg with
    | [] =>
      onRun (fun s => addNotification "No file selected to test." error
                        (addLog EmptyString error "No file selected to test." s)) p
    | first :: _ =>
      let p := setIsTesting true p in
      let p := onRun (addLog EmptyString info
                        ("Starting test upload of " ++ file_name first ++ "...")) p in
      let '(s, result) := uploadPost w cfg O first None (activePage (run p)) (run p) in
      let p := onRun (fun _ => s) p in
      let p :=
        match result with
        | inl _ =>
          onRun (addNotification
                   ("Test post " ++ dquote ++ file_name first ++ dquote
                      ++ " uploaded successfully.") success) p
        | inr msg =>
          if isAuthFailure msg then
            handleLogout
              (onRun (addNotification "Facebook token expired. Please log in again." error) p)
          else
            onRun (fun s => addNotification ("Test upload failed: " ++ msg) error
                              (addLog (file_name first) error ("Test failed: " ++ msg) s)) p
        end in
      setIsTesting false p
    end.
End TestUpload.

End UploaderPage.

Module UploaderPageObserve.
Import Uploader UploaderPage.

(** what connecting comes to: the pages fetched and stored, or the first
    failure among the request, the error it reports and the two writes *)
Definition fetchAnswer (net : Network) : Exc (list FBPage) :=
  match fetchAccounts net with
  | inr msg => inr msg
  | inl data =>
    match acc_error data with
    | Some m => inr m
    | None =>
      match setItemToken net with
      | inr msg => inr msg
      | inl _ =>
        match setItemPages net with
        | inr msg => inr msg
        | inl _ => inl (match acc_data data with Some l => l | None => [] end)
        end
      end
    end
  end.

(** nothing of a session is left, in the state or in localStorage, and
    no login error is shown *)
Definition loggedOut (p : Page) : Prop :=
  accessToken (run p) = EmptyString /\ pages (run p) = [] /\ activePage (run p) = None /\
  storedToken p = None /\ storedPages p = None /\ loginError p = None.

(** the session of [q] is that of [p] *)
Definition sameSession (p q : Page) : Prop :=
  accessToken (run q) = accessToken (run p) /\ pages (run q) = pages (run p) /\
  activePage (run q) = activePage (run p).

(** the text [uploadPost] sends to the caption service for a file *)
Definition sourceTextOf (cfg : SchedulerSettings) (f : File) : string :=
  match captionMode cfg with
  | demo => demoCaption cfg
  | filename => file_name f
  end.

(** the message of the failure of item [i] as the collaborator gave it,
    before [uploadPost] wraps it; a missing media ID is a failure that
    has no such message *)
Definition rawFailure (w : World) (i : nat) : option string :=
  match generateCaptionForScheduling w i with
  | inr msg => Some msg
  | inl _ =>
    match postMedia w i with
    | inr msg => Some msg
    | inl mediaUploadData =>
      match resp_error mediaUploadData with
      | Some m => Some m
      | None =>
        match resp_id mediaUploadData with
        | None | Some EmptyString => None
        | Some _ =>
          match postFeed w i with
          | inr msg => Some msg
          | inl postResponseData => resp_error postResponseData
          end
        end
      end
    end
  end.

(** entries with the status [error] *)
Definition errorEntries (l : list SchedulingLogEntry) : list SchedulingLogEntry :=
  filter (fun e => match status e with error => true | _ => false end) l.

End UploaderPageObserve.

(* ------------------------------------------------------------------ *)
(** ** CrossPostPage: connecting, the source posts, the selection *)
(* ------------------------------------------------------------------ *)

Module CrossPostPage.
Import CrossPost.

Record AccountsResponse := mkAccounts {
  acc_error : option string;
  acc_data : option (list FBPage)
}.

(** the parsed reply of [GET /{page}/posts]: [data.error?.message],
    [data.data] and [data.paging?.next] *)
Record PostsResponse := mkPosts {
  posts_error : option string;
  posts_data : option (list ManagedPost);
  paging_next : option string
}.

Record Page := mkPageState {
  run : State;
  isLoading : bool;
  loginError : option string;
  isFetchingPosts : bool;
  isFetchingMore : bool;
  nextPageUrl : option string;
  minLikes : string;
  minComments : string;
  storedToken : option string;            (* localStorage.fbUploader_accessToken_v2 *)
  storedPages : option (list FBPage)      (* localStorage.fbUploader_pages_v2, parsed *)
}.

Record Network := mkNetwork {
  fetchAccounts : Exc AccountsResponse;
  setItemToken : Exc unit;
  setItemPages : Exc unit;
  (* the reply to [fetch(url)] *)
  fetchPosts : string -> Exc PostsResponse
}.

(** *** Setters *)

Definition setPages (l : list FBPage) (s : State) : State :=
  mkState (accessToken s) l (sourcePage s) (destinationPage s) (sourcePosts s)
          (selectedPostIds s) (crossPostHistory s) (storedHistory s) (isScheduling s)
          (isPaused s) (cancelled s) (schedulingProgress s) (schedulingLog s)
          (notifications s) (effects s).
Definition setSourcePage (a : option FBPage) (s : State) : State :=
  mkState (accessToken s) (pages s) a (destinationPage s) (sourcePosts s)
          (selectedPostIds s) (crossPostHistory s) (storedHistory s) (isScheduling s)
          (isPaused s) (cancelled s) (schedulingProgress s) (schedulingLog s)
          (notifications s) (effects s).
Definition setDestinationPage (a : option FBPage) (s : State) : State :=
  mkState (accessToken s) (pages s) (sourcePage s) a (sourcePosts s)
          (selectedPostIds s) (crossPostHistory s) (storedHistory s) (isScheduling s)
          (isPaused s) (cancelled s) (schedulingProgress s) (schedulingLog s)
          (notifications s) (effects s).
Definition setSourcePosts (l : list ManagedPost) (s : State) : State :=
  mkState (accessToken s) (pages s) (sourcePage s) (destinationPage s) l
          (selectedPostIds s) (crossPostHistory s) (storedHistory s) (isScheduling s)
          (isPaused s) (cancelled s) (schedulingProgress s) (schedulingLog s)
          (notifications s) (effects s).
Definition setSelectedPostIds (l : list string) (s : State) : State :=
  mkState (accessToken s) (pages s) (sourcePage s) (destinationPage s) (sourcePosts s)
          l (crossPostHistory s) (storedHistory s) (isScheduling s)
          (isPaused s) (cancelled s) (schedulingProgress s) (schedulingLog s)
          (notifications s) (effects s).

Definition onRun (f : State -> State) (p : Page) : Page :=
  mkPageState (f (run p)) (isLoading p) (loginError p) (isFetchingPosts p)
              (isFetchingMore p) (nextPageUrl p) (minLikes p) (minComments p)
              (storedToken p) (storedPages p).
Definition setIsLoading (b : bool) (p : Page) : Page :=
  mkPageState (run p) b (loginError p) (isFetchingPosts p) (isFetchingMore p)
              (nextPageUrl p) (minLikes p) (minComments p) (storedToken p) (storedPages p).
Definition setLoginError (e : option string) (p : Page) : Page :=
  mkPageState (run p) (isLoading p) e (isFetchingPosts p) (isFetchingMore p)
              (nextPageUrl p) (minLikes p) (minComments p) (storedToken p) (storedPages p).
Definition setIsFetchingPosts (b : bool) (p : Page) : Page :=
  mkPageState (run p) (isLoading p) (loginError p) b (isFetchingMore p)
              (nextPageUrl p) (minLikes p) (minComments p) (storedToken p) (storedPages p).
Definition setIsFetchingMore (b : bool) (p : Page) : Page :=
  mkPageState (run p) (isLoading p) (loginError p) (isFetchingPosts p) b
              (nextPageUrl p) (minLikes p) (minComments p) (storedToken p) (storedPages p).
Definition setNextPageUrl (u : option string) (p : Page) : Page :=
  mkPageState (run p) (isLoading p) (loginError p) (isFetchingPosts p) (isFetchingMore p)
              u (minLikes p) (minComments p) (storedToken p) (storedPages p).
Definition setStoredToken (t : option string) (p : Page) : Page :=
  mkPageState (run p) (isLoading p) (loginError p) (isFetchingPosts p) (isFetchingMore p)
              (nextPageUrl p) (minLikes p) (minComments p) t (storedPages p).
Definition setStoredPages (l : option (list FBPage)) (p : Page) : Page :=
  mkPageState (run p) (isLoading p) (loginError p) (isFetchingPosts p) (isFetchingMore p)
              (nextPageUrl p) (minLikes p) (minComments p) (storedToken p) l.

Definition handleLogout (p : Page) : Page :=
  mkPageState (CrossPost.handleLogout (run p)) (isLoading p) None (isFetchingPosts p)
              (isFetchingMore p) (nextPageUrl p) (minLikes p) (minComments p) None None.

(** *** handleFetchPages *)

Local Open Scope m_scope.

Definition noPagesFound : string := "No pages found for this access token.".

(** [fetchedPages.length > 1 ? fetchedPages[1] : fetchedPages[0]] *)
Definition secondOrFirst (l : list FBPage) : option FBPage :=
  match l with
  | _ :: second :: _ => Some second
  | first :: [] => Some first
  | [] => None
  end.

Definition tryFetchPages (net : Network) (token : string) : M Page unit :=
  data <- await (fetchAccounts net) ;;
  match acc_error data with
  | Some m => raise m
  | None =>
    let fetchedPages := match acc_data data with Some l => l | None => [] end in
    update (onRun (setPages fetchedPages)) ;;
    await (setItemToken net) ;;
    update (setStoredToken (Some token)) ;;
    await (setItemPages net) ;;
    update (setStoredPages (Some fetchedPages)) ;;
    match fetchedPages with
    | first :: _ =>
      update (onRun (setSourcePage (Some first))) ;;
      update (onRun (setDestinationPage (secondOrFirst fetchedPages))) ;;
      update (onRun (addNotification "Successfully connected to Facebook!" success))
    | [] =>
      update (setLoginError (Some noPagesFound)) ;;
      update (onRun (addNotification noPagesFound error))
    end
  end.

Definition fetchPagesFailed (msg : string) (p : Page) : Page :=
  if isAuthFailure msg then
    handleLogout
      (setLoginError
         (Some ("Facebook connection failed: " ++ msg
                  ++ ". The token might be invalid or expired. Please provide a new one."))
         p)
  else
    onRun (addNotification ("Failed to fetch pages: " ++ msg ++ ".") error)
      (setLoginError (Some ("Failed to fetch pages: " ++ msg ++ ".")) p).

Definition handleFetchPages (net : Network) (p : Page) : Page :=
  let token := accessToken (run p) in
  match token with
  | EmptyString => onRun (addNotification "Please enter a User Access Token." error) p
  | _ =>
    let p := setLoginError None (setIsLoading true p) in
    let '(p, result) := tryFetchPages net token p in
    let p := match result with
             | inl _ => p
             | inr msg => fetchPagesFailed msg p
             end in
    setIsLoading false p
  end.

(** *** The posts of the source page *)

Definition fetchPostsFromUrl (net : Network) (url : string)
  : Exc (list ManagedPost * option string) :=
  match fetchPosts net url with
  | inr msg => throw msg
  | inl data =>
    match posts_error data with
    | Some m => throw m
    | None =>
      ok (match posts_data data with Some l => l | None => [] end,
          match paging_next data with
          | Some EmptyString => None
          | next => next
          end)
    end
  end.

Definition postsUrl (source : FBPage) : string :=
  "https://graph.facebook.com/v19.0/" ++ page_id source
    ++ "/posts?fields=id,message,full_picture,created_time,likes.summary(true),comments.summary(true)"
    ++ "&limit=25&access_token=" ++ access_token source.

Definition handleFetchSourcePosts (net : Network) (p : Page) : Page :=
  match sourcePage (run p) with
  | None => p
  | Some source =>
    let p := setIsFetchingPosts true p in
    let p := onRun (setSourcePosts []) p in
    let p := onRun (setSelectedPostIds []) p in
    let p := setNextPageUrl None p in
    let p :=
      match fetchPostsFromUrl net (postsUrl source) with
      | inl (posts, nextUrl) => setNextPageUrl nextUrl (onRun (setSourcePosts posts) p)
      | inr msg =>
        if isAuthFailure msg then
          handleLogout
            (onRun (addNotification "Facebook token has expired. Please log in again." error) p)
        else onRun (addNotification ("Failed to fetch posts: " ++ msg) error) p
      end in
    setIsFetchingPosts false p
  end.

Definition handleLoadMorePosts (net : Network) (p : Page) : Page :=
  match nextPageUrl p with
  | None | Some EmptyString => p
  | Some url =>
    if isFetchingMore p then p
    else
      let p := setIsFetchingMore true p in
      let p :=
        match fetchPostsFromUrl net url with
        | inl (posts, nextUrl) =>
          setNextPageUrl nextUrl
            (onRun (fun s => setSourcePosts (sourcePosts s ++ posts) s) p)
        | inr msg => onRun (addNotification ("Failed to load more posts: " ++ msg) error) p
        end in
      setIsFetchingMore false p
  end.

(** *** The selection *)

(** [set.delete(k)] *)
Definition setDelete (k : string) (set : list string) : list string :=
  filter (fun x => negb (String.eqb k x)) set.

Definition handleSelectPost (postId : string) (p : Page) : Page :=
  onRun (fun s =>
           setSelectedPostIds
             (if setHas postId (selectedPostIds s)
              then setDelete postId (selectedPostIds s)
              else setAdd postId (selectedPostIds s)) s) p.

(** *** The history kept in localStorage *)

(** [new Set(array)]: the elements in the order of their first occurrence *)
Definition setOf (l : list string) : list string :=
  fold_left (fun set k => setAdd k set) l [].

(** the effect run when the component is mounted: the saved history, if
    there is one, becomes the state *)
Definition loadHistory (s : State) : State :=
  match storedHistory s with
  | Some l => setHistory (setOf l) (storedHistory s) s
  | None => s
  end.

(** *** filteredPosts *)

Section Filter.
(** [parseInt(s, 10)]: the integer it gives when that is finite, [None]
    for NaN and the infinities *)
Variable parseInt : string -> option Z.
(** [post.likes?.summary?.total_count] and the same of [comments]; the
    scheduler does not look at them and [ManagedPost] leaves them out *)
Variable likesCount commentsCount : ManagedPost -> option Z.

(** [s ? parseInt(s, 10) : -1] *)
Definition threshold (s : string) : option Z :=
  match s with
  | EmptyString => Some (-1)
  | _ => parseInt s
  end.

(** [x ?? 0] *)
Definition orZero (x : option Z) : Z :=
  match x with Some n => n | None => 0 end.

Definition passes (likesNum commentsNum : option Z) (post : ManagedPost) : bool :=
  let postLikes := orZero (likesCount post) in
  let postComments := orZero (commentsCount post) in
  let passesLikes := match likesNum with Some n => postLikes >? n | None => true end in
  let passesComments :=
    match commentsNum with Some n => postComments >? n | None => true end in
  passesLikes && passesComments.

Definition filteredPosts (p : Page) : list ManagedPost :=
  let likesNum := threshold (minLikes p) in
  let commentsNum := threshold (minComments p) in
  match likesNum, commentsNum with
  | None, None => sourcePosts (run p)
  | _, _ => filter (passes likesNum commentsNum) (sourcePosts (run p))
  end.
End Filter.

End CrossPostPage.

Module CrossPostPageObserve.
Import CrossPost CrossPostPage.

Definition fetchAnswer (net : Network) : Exc (list FBPage) :=
  match fetchAccounts net with
  | inr msg => inr msg
  | inl data =>
    match acc_error data with
    | Some m => inr m
    | None =>
      match setItemToken net with
      | inr msg => inr msg
      | inl _ =>
        match setItemPages net with
        | inr msg => inr msg
        | inl _ => inl (match acc_data data with Some l => l | None => [] end)
        end
      end
    end
  end.

Definition loggedOut (p : Page) : Prop :=
  accessToken (run p) = EmptyString /\ pages (run p) = [] /\
  sourcePage (run p) = None /\ destinationPage (run p) = None /\
  storedToken p = None /\ storedPages p = None /\ loginError p = None.

(** [post.message || ''] *)
Definition messageOf (q : ManagedPost) : string :=
  match post_message q with
  | Some m => m
  | None => EmptyString
  end.

(** the notification with which [handleSchedulingProcess] refuses to
    start a run *)
Definition refused (s : State) : State :=
  addNotification
    "Please select posts, a valid source, and a different destination page." error s.

(** the state after a page reload in which the history has not been
    read yet: the set is empty, localStorage is as it was *)
Definition reloaded (s : State) : State := setHistory [] (storedHistory s) s.

(** two sets with the same elements *)
Definition sameElements (a b : list string) : Prop :=
  forall k, setHas k a = setHas k b.

(** the state a turn of the loop ends in *)
Definition stepState (st : Step) : State :=
  match st with
  | Next _ s => s
  | Stop o => finalState o
  end.

(** the history of [s'] is that of [s], or that of [s] with [key] *)
Definition historyStep (key : string) (added : Prop) (s s' : State) : Prop :=
  crossPostHistory s' = crossPostHistory s
  \/ (added /\ crossPostHistory s' = setAdd key (crossPostHistory s)).

End CrossPostPageObserve.

(** observations on whole runs *)
Module RunObserve.
Import Uploader.

(** the calls made for item [i] when everything goes through, oldest
    first, and those for the [n] items from [i0] on *)
Definition callsFor (i : nat) : list Effect := [Enhance i; PublishMedia i; CreatePost i].
Definition callsOf (i0 n : nat) : list Effect := flat_map callsFor (seq i0 n).

(** the queue positions for which a feed post was requested, newest first *)
Definition created (effs : list Effect) : list nat :=
  flat_map (fun e => match e with CreatePost i => [i] | _ => [] end) effs.

(** the state a turn of the loop ends in *)
Definition stepState (st : Step) : State :=
  match st with
  | Next s => s
  | Stop o => finalState o
  end.

(** the calls of a record without the seconds slept *)
Definition withoutSleeps (effs : list Effect) : list Effect :=
  filter (fun e => match e with Sleep => false | _ => true end) effs.

(** the start/stop button is not pressed during a run *)
Definition noToggle (w : World) : Prop :=
  forall i,
    ~ In PressToggle (flightPresses w i) /\
    forall acts, In acts (pausePresses w i) -> ~ In PressToggle acts.

(** the time of day of a date, and the order on (hour, minute) pairs the
    allocator tests with *)
Definition timeOfDay (tz : Z) (t : Date) : Z * Z := (getHours tz t, getMinutes tz t).

Definition after (a b : Z * Z) : bool :=
  (fst a >? fst b) || ((fst a =? fst b) && (snd a >? snd b)).

(** a minute of the day that is not past [endTime] *)
Definition inDay (cfg : SchedulerSettings) (m : Z) : Prop :=
  0 <= m < 1440 /\ Spec.exceeds m (endTime cfg) = false.

End RunObserve.

(** sample inputs for the pages *)
Module PageSamples.
Import Samples.

Module U.
Import Uploader UploaderPage.

(** a stored token and no stored pages *)
Definition returning : Page := mount (Some "user-token") None.

(** the request is answered with two pages and both writes go through *)
Definition online : Network :=
  mkNetwork (ok (mkAccounts None (Some [page; otherPage]))) (ok tt) (ok tt).

(** the request does not get through *)
Definition offline : Network :=
  mkNetwork (throw "Failed to fetch") (ok tt) (ok tt).

(** the caption model is out of order: the captions are the fallback of
    the service for the demo caption *)
Definition mute : World :=
  mkWorld 0 (toLocaleString (Samples.U.calm 0))
    (fun _ => ok (Gemini.generateCaptionForScheduling (throw "503 Service Unavailable")
                    "Check out this amazing picture!" demo))
    (postMedia (Samples.U.calm 0)) (postFeed (Samples.U.calm 0))
    (dispatchClock (Samples.U.calm 0)) (fun _ => []) (fun _ => [])
    (smartNow (Samples.U.calm 0)) (smartClock (Samples.U.calm 0))
    (randomMinute (Samples.U.calm 0)).

(** the run is paused while item 0 is in flight and resumed in the second
    second of the wait before item 1 *)
Definition pausedAndResumed : World :=
  Samples.U.withPause 1 [[]; [SetPaused false]]
    (Samples.U.withFlight 0 [SetPaused true] (Samples.U.calm 0)).

(** a page in which the first of five files can be tested *)
Definition ready : Page :=
  mkPageState Samples.U.idle false None false (Some "user-token") (Some [page]).

End U.

Module X.
Import CrossPost CrossPostPage.

Definition connected : Page :=
  mkPageState Samples.X.idle false None false false (Some "https://graph/next")
              EmptyString EmptyString (Some "user-token") (Some [page; otherPage]).

(** the caption model is out of order *)
Definition mute : World :=
  mkWorld 0 (toLocaleString Samples.X.calm) (restyleImage Samples.X.calm)
    (fun _ => ok (Gemini.generateCrossPostCaption (throw "503 Service Unavailable")
                    EmptyString))
    (postPhoto Samples.X.calm) (postFeed Samples.X.calm) (fun _ => true)
    (dispatchClock Samples.X.calm) (fun _ => []) (fun _ => []).

(** the user has one page only *)
Definition onePage : Network :=
  mkNetwork (ok (mkAccounts None (Some [page]))) (ok tt) (ok tt)
            (fun _ => throw "Failed to fetch").

(** the server is down *)
Definition down : Network :=
  mkNetwork (throw "Failed to fetch") (ok tt) (ok tt) (fun _ => throw "Failed to fetch").

(** the next page of posts holds one more post *)
Definition morePosts : Network :=
  mkNetwork (throw "Failed to fetch") (ok tt) (ok tt)
            (fun _ => ok (mkPosts None (Some [mkPost "77_4" None None]) None)).

(** [parseInt] on a string of decimal digits *)
Fixpoint digitsValue (acc : Z) (s : string) : option Z :=
  match s with
  | EmptyString => Some acc
  | String c s' =>
    let n := Z.of_nat (nat_of_ascii c) in
    if (48 <=? n) && (n <=? 57) then digitsValue (10 * acc + (n - 48)) s' else None
  end.

Definition parseDigits (s : string) : option Z :=
  match s with
  | EmptyString => None
  | _ => digitsValue 0 s
  end.

(** the posts of [connected] have 120, 40 and 7 likes and a comment each *)
Definition likes (q : ManagedPost) : option Z :=
  if (post_id q =? "77_1")%string then Some 120
  else if (post_id q =? "77_2")%string then Some 40 else Some 7.
Definition comments (q : ManagedPost) : option Z := Some 1.

(** the user asks for more than 50 likes, then for more than 100 *)
Definition filtered (minLikes : string) : Page :=
  mkPageState Samples.X.idle false None false false None minLikes EmptyString
              (Some "user-token") (Some [page; otherPage]).

End X.

End PageSamples.

(* ================================================================== *)
(** * Part II: properties *)
(* ================================================================== *)

(** ** Dates *)

Module DateFacts.

Ltac unfold_dates :=
  unfold setMinutes, setHours, addDays, getHours, getMinutes, localDay, timeInDay,
         localTime, ofLocal, ofISODate, leadTime, msPerDay, msPerHour, msPerMinute in *.

Ltac date_arith := unfold_dates; Z.to_euclidean_division_equations; lia.



Lemma getHours_setHours tz t h m :
  0 <= h <= 23 -> 0 <= m <= 59 -> getHours tz (setHours tz t h m 0 0) = h.
Proof. intros. date_arith. Qed.


(** a date set to hour [h] of its day is less than a day minus [h] hours
    before the date itself *)
Lemma setHours_lower tz t h m :
  0 <= m -> t - msPerDay + h * msPerHour < setHours tz t h m 0 0.
Proof. intros. date_arith. Qed.

End DateFacts.

(** ** Sorting with [(a, b) => a - b] *)

Module SortFacts.
Import JSArray.

Lemma insert_perm {A : Type} (cmp : A -> A -> Z) x l :
  Permutation (insert cmp x l) (x :: l).
Proof.
  induction l as [|y l IH]; simpl; [reflexivity|].
  destruct (cmp x y <=? 0); [reflexivity|].
  rewrite IH. apply perm_swap.
Qed.

Lemma sort_perm {A : Type} (cmp : A -> A -> Z) l : Permutation (sort cmp l) l.
Proof.
  induction l as [|x l IH]; simpl; [constructor|].
  rewrite insert_perm. now constructor.
Qed.

Lemma sort_length {A : Type} (cmp : A -> A -> Z) l :
  List.length (sort cmp l) = List.length l.
Proof. apply Permutation_length, sort_perm. Qed.



End SortFacts.

(** ** The smart allocator *)

Module SmartFacts.
Import Uploader Spec DateFacts.

Lemma rankHours_mock :
  rankHours mockInsights =
  [(20, 520); (19, 500); (21, 480); (18, 450); (22, 400); (17, 350); (12, 320);
   (13, 310); (11, 300); (16, 300); (14, 280); (15, 260); (10, 250); (23, 250);
   (9, 200); (8, 150); (7, 120); (0, 100); (1, 80); (6, 80); (2, 70); (3, 60);
   (5, 60); (4, 50)].
Proof. reflexivity. Qed.

Lemma topFive_hours : topFive = [20; 19; 21; 18; 22].
Proof. reflexivity. Qed.

Lemma candidateHour_mock i :
  candidateHour (rankHours mockInsights) i = Some (nth (i mod 5) topFive 0).
Proof.
  unfold candidateHour. rewrite rankHours_mock, topFive_hours.
  pose proof (Nat.mod_upper_bound i 5 ltac:(discriminate)) as Hlt.
  destruct (i mod 5)%nat as [|[|[|[|[|j]]]]]; try reflexivity; lia.
Qed.

Lemma topFive_range i : 18 <= nth (i mod 5) topFive 0 <= 22.
Proof.
  rewrite topFive_hours.
  pose proof (Nat.mod_upper_bound i 5 ltac:(discriminate)) as Hlt.
  destruct (i mod 5)%nat as [|[|[|[|[|j]]]]]; simpl; lia.
Qed.


(** the running date is tomorrow plus one day for every full group of three *)
Lemma runningDay_div i : runningDay i = 1 + Z.of_nat (i / 3).
Proof.
  induction i as [|i IH]; [reflexivity|].
  change (runningDay (S i)) with
    (if (S i mod 3 =? 0)%nat then runningDay i + 1 else runningDay i).
  rewrite IH. destruct (Nat.eqb_spec (S i mod 3) 0) as [E|E].
  - assert (S i / 3 = S (i / 3))%nat by
      (pose proof (Nat.div_mod_eq (S i) 3); pose proof (Nat.div_mod_eq i 3);
       pose proof (Nat.mod_upper_bound i 3 ltac:(discriminate)); lia).
    lia.
  - assert (S i / 3 = i / 3)%nat by
      (pose proof (Nat.div_mod_eq (S i) 3); pose proof (Nat.div_mod_eq i 3);
       pose proof (Nat.mod_upper_bound i 3 ltac:(discriminate));
       pose proof (Nat.mod_upper_bound (S i) 3 ltac:(discriminate)); lia).
    lia.
Qed.

Section Rounds.
Variable w : World.
Hypothesis minute_range : forall i, 0 <= randomMinute w i <= 59.
Hypothesis clock_near : forall i, smartClock w i <= smartNow w + 17 * msPerHour.



End Rounds.

(** the analytics data do not depend on the page *)
Lemma fetchPageInsights_constant page s :
  fetchPageInsights page s
  = (addLog EmptyString info
       "Analyzing page engagement... (mock data). This requires 'read_insights' permission."
       s, inl mockInsights).
Proof. reflexivity. Qed.



(** C10. The hourly weights the smart allocator works from are a fixed
    array of 24 numbers, the same for every page, so the hour of every
    candidate slot, whatever the page and the position [i] in the queue,
    is one of 18, 19, 20, 21, 22: the five best hours of that array. *)
Theorem smart_hours_fixed (w : World) (page : FBPage) (s : State) (i : nat) :
  snd (fetchPageInsights page s) = inl mockInsights /\
  List.length mockInsights = 24%nat /\
  exists hour,
    candidateHour (rankHours mockInsights) i = Some hour /\
    In hour [18; 19; 20; 21; 22] /\
    forall currentDate minute, 0 <= minute <= 59 ->
      getHours (tz w) (setHours (tz w) currentDate hour minute 0 0) = hour.
Proof.
  split; [reflexivity|]. split; [reflexivity|].
  exists (nth (i mod 5) topFive 0). split; [apply candidateHour_mock|].
  pose proof (topFive_range i) as Hr. split.
  - rewrite topFive_hours in *.
    pose proof (Nat.mod_upper_bound i 5 ltac:(discriminate)) as Hlt.
    destruct (i mod 5)%nat as [|[|[|[|[|j]]]]]; simpl; auto 6; lia.
  - intros. apply getHours_setHours; lia.
Qed.

End SmartFacts.

(** ** The runner of UploaderPage *)

Module UploaderFacts.
Import Uploader Observe UploaderObserve.

Lemma ext_nil {A : Type} (l : list A) : l = ([] ++ l)%list.
Proof. reflexivity. Qed.

Lemma ext_cons {A : Type} (x : A) (l l' d : list A) :
  l' = (d ++ l)%list -> x :: l' = ((x :: d) ++ l)%list.
Proof. intros ->. reflexivity. Qed.

Ltac ext :=
  lazymatch goal with
  | |- _ :: _ = _ => eapply ext_cons; ext
  | |- _ => apply ext_nil
  end.

Lemma grows_refl i f s : grows i f [] [] s s.
Proof. unfold grows; repeat split; auto. Qed.

Lemma grows_trans i f de1 dl1 de2 dl2 s1 s2 s3 :
  grows i f de1 dl1 s1 s2 -> grows i f de2 dl2 s2 s3 ->
  grows i f (de2 ++ de1) (dl2 ++ dl1) s1 s3.
Proof.
  intros (E1 & L1 & F1 & G1 & S1 & C1) (E2 & L2 & F2 & G2 & S2 & C2).
  unfold grows. rewrite E2, E1, L2, L1, !app_assoc.
  repeat split; auto using Forall_app; try congruence.
  all: apply Forall_app; auto.
Qed.

(** *** The buttons *)

Lemma uiActions_grows i f acts : forall s,
  exists dl, grows i f [] dl s (uiActions acts s).
Proof.
  induction acts as [|a acts IH]; intros s.
  - exists []. apply grows_refl.
  - destruct (IH (uiAction s a)) as (dl & H).
    assert (Ha : exists dl0, grows i f [] dl0 s (uiAction s a)).
    { destruct a; simpl.
      - exists [stoppingEntry]. unfold grows; simpl; repeat split; auto.
        repeat constructor; simpl; auto. discriminate.
      - exists []. unfold grows; simpl; repeat split; auto. }
    destruct Ha as (dl0 & H0).
    exists (dl ++ dl0)%list.
    apply (grows_trans _ _ _ _ _ _ _ _ _ H0 H).
Qed.

Lemma uiActions_toggle acts : forall s,
  In PressToggle acts -> cancelled (uiActions acts s) = true.
Proof.
  induction acts as [|a acts IH]; intros s Hin; [contradiction|].
  destruct Hin as [->|Hin].
  - simpl. destruct (uiActions_grows O EmptyString acts (requestStop s))
      as (dl & _ & _ & _ & _ & _ & Hc). now apply Hc.
  - simpl. now apply IH.
Qed.

(** *** The pause wait *)

Lemma pauseLoop_grows i f presses : forall s s',
  pauseLoop presses s = inl s' \/ pauseLoop presses s = inr s' ->
  exists de dl, grows i f de dl s s' /\ Forall (eq Sleep) de.
Proof.
  induction presses as [|acts presses IH]; intros s s' H; simpl in H.
  - exists [], []. split; [|constructor].
    destruct (isPaused s), (cancelled s), H as [H|H];
      inversion H; subst; apply grows_refl.
  - destruct (isPaused s) eqn:Ep.
    + destruct (cancelled s) eqn:Ec.
      * exists [], []. split; [|constructor].
        destruct H as [H|H]; inversion H; subst; apply grows_refl.
      * apply IH in H as (de & dl & Hg & Hs).
        destruct (uiActions_grows i f acts (perform Sleep s)) as (dl0 & H0).
        exists (de ++ [Sleep])%list, (dl ++ dl0 ++ [])%list. split.
        -- refine (grows_trans _ _ _ _ _ _ _ _ _ _ Hg).
           refine (grows_trans i f [Sleep] [] _ _ _ _ _ _ H0).
           unfold grows; simpl; repeat split; auto.
        -- apply Forall_app; split; auto.
    + exists [], []. split; [|constructor].
      destruct H as [H|H]; inversion H; subst; apply grows_refl.
Qed.

(** when the wait is left the pause flag is clear or the run is cancelled;
    when it is never left the flag is set and the run is not cancelled *)
Lemma pauseLoop_exit presses : forall s s',
  pauseLoop presses s = inl s' -> isPaused s' = false \/ cancelled s' = true.
Proof.
  induction presses as [|acts presses IH]; intros s s' H; simpl in H;
    destruct (isPaused s) eqn:Ep; try destruct (cancelled s) eqn:Ec;
    try (inversion H; subst; auto; fail).
  eauto.
Qed.

Lemma pauseLoop_stuck presses : forall s s',
  pauseLoop presses s = inr s' -> isPaused s' = true /\ cancelled s' = false.
Proof.
  induction presses as [|acts presses IH]; intros s s' H; simpl in H;
    destruct (isPaused s) eqn:Ep; try destruct (cancelled s) eqn:Ec;
    try (inversion H; subst; auto; fail).
  eauto.
Qed.

(** *** uploadPost *)

Ltac grows_now :=
  unfold grows;
  cbn [fst snd effects schedulingLog isScheduling cancelled addLog perform
       setSchedulingLog];
  split; [ext|]; split; [ext|];
  repeat match goal with
         | |- Forall _ [] => constructor
         | |- Forall _ (_ :: _) => constructor
         | |- _ = Sleep \/ _ => first [left; reflexivity | right; apply Nat.eqb_refl]
         | |- _ = EmptyString \/ _ => first [left; reflexivity | right; reflexivity]
         | |- status _ <> error => cbn; discriminate
         | |- _ /\ _ => split
         | |- _ => solve [auto]
         end.

Lemma uploadPost_spec w cfg i f t page s :
  exists de dl,
    grows i (file_name f) de dl s (fst (uploadPost w cfg i f t (Some page) s)) /\
    snd (uploadPost w cfg i f t (Some page) s) = uploadAnswer w i /\
    In (Enhance i) de /\
    (uploadAnswer w i = inl tt -> exists m, In (mkEntry (file_name f) success m) dl).
Proof.
  unfold uploadPost, uploadAnswer, request, log.
  unfold bind, update, await, ret, raise, ok, throw.
  cbv beta iota.
  destruct (generateCaptionForScheduling w i) as [caption|msg]; cbv beta iota.
  2: { do 2 eexists. split; [grows_now|]. cbn. split; [reflexivity|].
       split; [left; reflexivity|discriminate]. }
  destruct (postMedia w i) as [[[m|] rid]|msg]; cbv beta iota; cbn [resp_error resp_id].
  1,3: do 2 eexists; (split; [grows_now|]); cbn; (split; [reflexivity|]);
       (split; [right; left; reflexivity|discriminate]).
  destruct rid as [[|c mediaId]|]; cbv beta iota.
  1,3: do 2 eexists; (split; [grows_now|]); cbn; (split; [reflexivity|]);
       (split; [right; left; reflexivity|discriminate]).
  destruct (nonEmpty (checkInPlaceId cfg)); cbv beta iota;
    destruct t as [t|]; cbv beta iota;
    destruct (postFeed w i) as [[[m|] pid]|msg]; cbv beta iota; cbn [resp_error resp_id];
    do 2 eexists; (split; [grows_now|]); cbn; (split; [reflexivity|]);
    (split; [right; right; left; reflexivity|]);
    try discriminate; intros _; eexists; left; reflexivity.
Qed.

(** *** One turn of the loop *)

Lemma adjustSlot_grows w i f t s :
  exists dl, grows i (file_name f) [] dl s (snd (adjustSlot w i f t s)).
Proof.
  unfold adjustSlot. destruct (t <? dispatchClock w i + 600000); eexists; grows_now.
Qed.

Lemma processItem_spec w cfg page i f slot s :
  match processItem w cfg page i f slot s with
  | Next s' =>
    cancelled s = false /\
    exists s3 de dl,
      grows i (file_name f) de dl s s3 /\ In (Enhance i) de /\
      (In PressToggle (flightPresses w i) -> cancelled s3 = true) /\
      ((uploadAnswer w i = inl tt /\ s' = s3 /\
        exists m, In (mkEntry (file_name f) success m) dl)
       \/ (exists msg, uploadAnswer w i = inr msg /\ isAuthFailure msg = false /\
                       s' = addLog (file_name f) error ("Failed: " ++ msg) s3))
  | Stop (Returned sf) =>
    (cancelled s = true /\ sf = cancelledStop s)
    \/ (cancelled s = false /\
        exists s3 de dl msg,
          grows i (file_name f) de dl s s3 /\ In (Enhance i) de /\
          uploadAnswer w i = inr msg /\ isAuthFailure msg = true /\
          sf = authStop f msg s3)
  | Stop (Waiting sf) =>
    cancelled s = false /\
    exists de dl, grows i EmptyString de dl s sf /\ Forall (eq Sleep) de /\
                  isPaused sf = true /\ cancelled sf = false
  | Stop (Crashed sf) =>
    slot = None /\
    exists de dl, grows i EmptyString de dl s sf /\ Forall (eq Sleep) de
  end.
Proof.
  unfold processItem.
  destruct (cancelled s) eqn:Ec; [left; auto|].
  destruct (pauseLoop (pausePresses w i) s) as [s1|s1] eqn:Ep.
  2: { split; [reflexivity|].
       destruct (pauseLoop_grows i EmptyString _ _ _ (or_intror Ep)) as (de & dl & Hg & Hs).
       destruct (pauseLoop_stuck _ _ _ Ep). eauto 6. }
  destruct (pauseLoop_grows i (file_name f) _ _ _ (or_introl Ep)) as (de1 & dl1 & Hg1 & Hs1).
  assert (Hg2 : grows i (file_name f) [] []
                  s1 (setSchedulingProgress (S i, List.length (files cfg)) s1))
    by grows_now.
  pose proof (grows_trans _ _ _ _ _ _ _ _ _ Hg1 Hg2) as Hg12.
  destruct slot as [t|].
  2: { split; [reflexivity|].
       destruct (pauseLoop_grows i EmptyString _ _ _ (or_introl Ep)) as (de & dl & Hg & Hs).
       exists ([] ++ de)%list, ([] ++ dl)%list. split; [|exact Hs].
       refine (grows_trans _ _ _ _ _ _ _ _ _ Hg _). grows_now. }
  destruct (adjustSlot_grows w i f t
              (setSchedulingProgress (S i, List.length (files cfg)) s1)) as (dl3 & Hg3).
  destruct (adjustSlot w i f t _) as [t' s2]. cbn [snd] in Hg3.
  pose proof (grows_trans _ _ _ _ _ _ _ _ _ Hg12 Hg3) as Hg123.
  destruct (uploadPost_spec w cfg i f (Some t') page s2) as (de4 & dl4 & Hg4 & Hr & Hin & Hok).
  destruct (uploadPost w cfg i f (Some t') (Some page) s2) as [s3 r]. cbn [fst snd] in *.
  pose proof (grows_trans _ _ _ _ _ _ _ _ _ Hg123 Hg4) as Hg1234.
  destruct (uiActions_grows i (file_name f) (flightPresses w i) s3) as (dl5 & Hg5).
  pose proof (grows_trans _ _ _ _ _ _ _ _ _ Hg1234 Hg5) as Hg.
  pose proof (uiActions_toggle (flightPresses w i) s3) as Htog.
  assert (Hin' : In (Enhance i) ([] ++ de4 ++ [] ++ [] ++ de1)) by
    (cbn [app]; apply in_or_app; auto).
  destruct r as [[]|msg].
  - split; [reflexivity|]. do 3 eexists. split; [exact Hg|]. split; [exact Hin'|].
    split; [exact Htog|]. left. split; [auto|]. split; [reflexivity|].
    destruct (Hok (eq_sym Hr)) as (m & Hm). exists m.
    apply in_or_app; right. apply in_or_app; left. exact Hm.
  - destruct (isAuthFailure msg) eqn:Ea.
    + right. split; [reflexivity|]. do 4 eexists. split; [exact Hg|].
      split; [exact Hin'|]. split; [symmetry; exact Hr|]. split; [exact Ea|reflexivity].
    + split; [reflexivity|]. do 3 eexists. split; [exact Hg|]. split; [exact Hin'|].
      split; [exact Htog|]. right. exists msg. auto.
Qed.

(** *** Counting calls *)

Lemma attempted_app j (l1 l2 : list Effect) :
  attempted j (l1 ++ l2) = attempted j l1 || attempted j l2.
Proof. apply existsb_app. Qed.

Lemma logouts_app (l1 l2 : list Effect) :
  logouts (l1 ++ l2) = (logouts l1 + logouts l2)%nat.
Proof. unfold logouts. now rewrite filter_app, length_app. Qed.

Lemma attempted_other i j de :
  Forall (fun e => e = Sleep \/ touches i e = true) de -> j <> i ->
  attempted j de = false.
Proof.
  intros H Hne. induction H as [|e de [->|He] _ IH]; simpl; auto.
  rewrite IH, orb_false_r.
  destruct e; simpl in *; try discriminate;
    apply Nat.eqb_eq in He; subst; now apply Nat.eqb_neq.
Qed.

Lemma logouts_none i de :
  Forall (fun e => e = Sleep \/ touches i e = true) de -> logouts de = O.
Proof.
  intros H. induction H as [|e de [->|He] _ IH]; simpl; auto.
  destruct e; simpl in *; try discriminate; exact IH.
Qed.

Lemma attempted_sleep j de : Forall (eq Sleep) de -> attempted j de = false.
Proof. intros H. induction H as [|e de <- _ IH]; simpl; auto. Qed.

Lemma attempted_enhance i de : In (Enhance i) de -> attempted i de = true.
Proof.
  intros H. apply existsb_exists. exists (Enhance i). split; [exact H|].
  apply Nat.eqb_refl.
Qed.

Lemma noCalls_attempted effs j : noCalls effs -> attempted j effs = false.
Proof.
  intros H. destruct (attempted j effs) eqn:E; [|reflexivity].
  apply existsb_exists in E as (e & Hin & Ht).
  destruct (H e Hin) as (b & ->). discriminate.
Qed.

Lemma noCalls_logouts effs : noCalls effs -> logouts effs = O.
Proof.
  intros H. unfold logouts.
  induction effs as [|e effs IH]; [reflexivity|].
  destruct (H e (or_introl eq_refl)) as (b & ->). simpl.
  apply IH. intros e' He'. apply H. now right.
Qed.

Lemma effects_authStop f msg s : effects (authStop f msg s) = Logout :: effects s.
Proof. reflexivity. Qed.

Lemma log_authStop f msg s :
  schedulingLog (authStop f msg s) = failedEntry f msg :: schedulingLog s.
Proof. reflexivity. Qed.

Lemma attempted_cons_logout j effs : attempted j (Logout :: effs) = attempted j effs.
Proof. reflexivity. Qed.

(** *** The loop: a failed login stops it *)

Section Loop.
Variable w : World.
Variable cfg : SchedulerSettings.
Variable page : FBPage.

Lemma loop_auth queue : forall i0 times s,
  (forall j, (i0 <= j)%nat -> attempted j (effects s) = false) ->
  logouts (effects s) = O ->
  forall i msg,
    (i0 <= i)%nat ->
    attempted i (effects (finalState (schedulingLoop w cfg page i0 queue times s))) = true ->
    uploadAnswer w i = inr msg -> isAuthFailure msg = true ->
    exists s3 f,
      schedulingLoop w cfg page i0 queue times s = Returned (authStop f msg s3) /\
      nth_error queue (i - i0) = Some f /\
      logouts (effects s3) = O /\
      attempted i (effects s3) = true /\
      forall j, (i < j)%nat -> attempted j (effects s3) = false.
Proof.
  induction queue as [|f q IH]; intros i0 times s Hfresh Hlog i msg Hle Hatt Hans Hauth.
  { simpl in Hatt. rewrite Hfresh in Hatt by exact Hle. discriminate. }
  cbn [schedulingLoop] in *.
  pose proof (processItem_spec w cfg page i0 f (hd_error times) s) as Hspec.
  destruct (processItem w cfg page i0 f (hd_error times) s) as [s'|[sf|sf|sf]].
  - (* on to the next index *)
    destruct Hspec as (_ & s3 & de & dl & Hg & Hin & _ & Hcase).
    destruct Hg as (He & _ & Hde & _).
    assert (Heff : effects s' = (de ++ effects s)%list).
    { destruct Hcase as [(_ & -> & _)|(m & _ & _ & ->)]; exact He. }
    assert (Hfresh' : forall j, (S i0 <= j)%nat -> attempted j (effects s') = false).
    { intros j Hj. rewrite Heff, attempted_app, (attempted_other i0 j de Hde) by lia.
      apply Hfresh. lia. }
    assert (Hlog' : logouts (effects s') = O).
    { rewrite Heff, logouts_app, (logouts_none i0 de Hde). exact Hlog. }
    destruct (Nat.eq_dec i i0) as [->|Hne].
    + exfalso. destruct Hcase as [(Hok & _)|(m & Hm & Hna & _)]; [congruence|].
      rewrite Hans in Hm. inversion Hm; subst. congruence.
    + destruct (IH (S i0) (tl times) s' Hfresh' Hlog' i msg ltac:(lia) Hatt Hans Hauth)
        as (s4 & f' & Hrun & Hnth & Hrest).
      exists s4, f'. split; [exact Hrun|]. split; [|exact Hrest].
      replace (i - i0)%nat with (S (i - S i0)) by lia. exact Hnth.
  - (* the loop breaks *)
    destruct Hspec as [(_ & ->)|(_ & s3 & de & dl & m & Hg & Hin & Hm & Ha & ->)].
    + simpl in Hatt. rewrite Hfresh in Hatt by exact Hle. discriminate.
    + destruct Hg as (He & _ & Hde & _).
      assert (i = i0) as ->.
      { destruct (Nat.eq_dec i i0) as [|Hne]; [assumption|exfalso].
        cbn [finalState] in Hatt.
        rewrite effects_authStop, attempted_cons_logout in Hatt.
        rewrite He, attempted_app, (attempted_other i0 i de Hde Hne), Hfresh in Hatt by lia.
        discriminate. }
      rewrite Hans in Hm. inversion Hm; subst m.
      exists s3, f. split; [reflexivity|]. rewrite Nat.sub_diag.
      split; [reflexivity|].
      split; [rewrite He, logouts_app, (logouts_none i0 de Hde); exact Hlog|].
      split; [rewrite He, attempted_app, (attempted_enhance i0 de Hin); reflexivity|].
      intros j Hj. rewrite He, attempted_app, (attempted_other i0 j de Hde) by lia.
      apply Hfresh. lia.
  - (* waiting for ever *)
    destruct Hspec as (_ & de & dl & (He & _) & Hs & _).
    cbn [finalState] in Hatt.
    rewrite He, attempted_app, (attempted_sleep i de Hs), Hfresh in Hatt by exact Hle.
    discriminate.
  - destruct Hspec as (_ & de & dl & (He & _) & Hs).
    cbn [finalState] in Hatt.
    rewrite He, attempted_app, (attempted_sleep i de Hs), Hfresh in Hatt by exact Hle.
    discriminate.
Qed.

(** *** The loop: what a run adds to the record and to the log *)

(** an entry names no file, or the file of an item a collaborator was
    called for *)
Lemma loop_extends queue : forall i0 times s,
  exists de dl,
    effects (finalState (schedulingLoop w cfg page i0 queue times s)) = (de ++ effects s)%list /\
    schedulingLog (finalState (schedulingLoop w cfg page i0 queue times s)) = (dl ++ schedulingLog s)%list /\
    Forall (fun e => file e = EmptyString \/
                     exists j f, nth_error queue j = Some f /\
                                 attempted (i0 + j) de = true /\
                                 file e = file_name f) dl.
Proof.
  induction queue as [|f q IH]; intros i0 times s.
  { exists [], []. repeat split; constructor. }
  cbn [schedulingLoop].
  pose proof (processItem_spec w cfg page i0 f (hd_error times) s) as Hspec.
  destruct (processItem w cfg page i0 f (hd_error times) s) as [s'|[sf|sf|sf]].
  - destruct Hspec as (_ & s3 & de & dl & (He & Hl & _ & Hdl & _) & Hin & _ & Hcase).
    destruct (IH (S i0) (tl times) s') as (de2 & dl2 & He2 & Hl2 & Hdl2).
    assert (Hmine : forall e, file e = EmptyString \/ file e = file_name f ->
              file e = EmptyString \/
              exists j f0, nth_error (f :: q) j = Some f0 /\
                           attempted (i0 + j) (de2 ++ de) = true /\
                           file e = file_name f0).
    { intros e Hf.
      destruct Hf as [Hf|Hf]; [now left|right]. exists O, f.
      split; [reflexivity|]. rewrite Nat.add_0_r, attempted_app,
        (attempted_enhance i0 de Hin), orb_true_r. auto. }
    assert (Hrest : Forall (fun e => file e = EmptyString \/
              exists j f0, nth_error (f :: q) j = Some f0 /\
                           attempted (i0 + j) (de2 ++ de) = true /\
                           file e = file_name f0) dl2).
    { eapply Forall_impl; [|exact Hdl2]. intros e [He0|(j & f0 & Hn & Ha & Hf)]; [now left|].
      right. exists (S j), f0. split; [exact Hn|].
      rewrite attempted_app, Nat.add_succ_r. cbn [Nat.add] in Ha. rewrite Ha. auto. }
    destruct Hcase as [(_ & -> & _)|(m & _ & _ & ->)].
    + exists (de2 ++ de)%list, (dl2 ++ dl)%list.
      rewrite He2, Hl2, He, Hl, !app_assoc. repeat split.
      apply Forall_app; split; [exact Hrest|].
      eapply Forall_impl; [|exact Hdl]. intros e (_ & Hf). now apply Hmine.
    + exists (de2 ++ de)%list, (dl2 ++ failedEntry f m :: dl)%list.
      rewrite He2, Hl2. cbn [addLog setSchedulingLog effects schedulingLog].
      rewrite He, Hl, <- !app_assoc. repeat split.
      apply Forall_app; split; [exact Hrest|].
      constructor; [apply Hmine; right; reflexivity|].
      eapply Forall_impl; [|exact Hdl]. intros e (_ & Hf). now apply Hmine.
  - destruct Hspec as [(_ & ->)|(_ & s3 & de & dl & m & (He & Hl & _ & Hdl & _) & Hin & _ & _ & ->)].
    + exists [], [cancelledEntry]. repeat split. repeat constructor.
    + exists (Logout :: de), (failedEntry f m :: dl).
      cbn [finalState]. rewrite effects_authStop, log_authStop, He, Hl.
      repeat split.
      assert (Hmine : forall e, file e = EmptyString \/ file e = file_name f ->
                file e = EmptyString \/
                exists j f0, nth_error (f :: q) j = Some f0 /\
                             attempted (i0 + j) (Logout :: de) = true /\
                             file e = file_name f0).
      { intros e [Hf|Hf]; [now left|right]. exists O, f. split; [reflexivity|].
        rewrite Nat.add_0_r, attempted_cons_logout, (attempted_enhance i0 de Hin). auto. }
      constructor; [apply Hmine; now right|].
      eapply Forall_impl; [|exact Hdl]. intros e (_ & Hf). now apply Hmine.
  - destruct Hspec as (_ & de & dl & (He & Hl & _ & Hdl & _) & _).
    exists de, dl. cbn [finalState]. repeat split; auto.
    eapply Forall_impl; [|exact Hdl]. intros e (_ & [Hf|Hf]); now left.
  - destruct Hspec as (_ & de & dl & (He & Hl & _ & Hdl & _) & _).
    exists de, dl. cbn [finalState]. repeat split; auto.
    eapply Forall_impl; [|exact Hdl]. intros e (_ & [Hf|Hf]); now left.
Qed.

(** with a slot for every item the loop returns or waits, paused *)
Lemma loop_outcome queue : forall i0 times s,
  (List.length queue <= List.length times)%nat ->
  match schedulingLoop w cfg page i0 queue times s with
  | Returned _ => True
  | Waiting sw => isPaused sw = true /\ cancelled sw = false
  | Crashed _ => False
  end.
Proof.
  induction queue as [|f q IH]; intros i0 times s Hlen; [exact I|].
  cbn [schedulingLoop].
  pose proof (processItem_spec w cfg page i0 f (hd_error times) s) as Hspec.
  destruct (processItem w cfg page i0 f (hd_error times) s) as [s'|[sf|sf|sf]].
  - apply IH. destruct times; simpl in *; lia.
  - exact I.
  - destruct Hspec as (_ & de & dl & _ & _ & Hp & Hc). auto.
  - destruct Hspec as (Hs & _). destruct times; [simpl in Hlen; lia|discriminate].
Qed.


(** *** The loop: any other failure is logged and the loop goes on *)


(** *** The loop: the stop button pressed while an item is in flight *)

Lemma loop_toggle queue : forall i0 times s,
  (forall j, (i0 <= j)%nat -> attempted j (effects s) = false) ->
  forall i,
    (i0 <= i)%nat ->
    attempted i (effects (finalState (schedulingLoop w cfg page i0 queue times s))) = true ->
    In PressToggle (flightPresses w i) ->
    (forall msg, uploadAnswer w i = inr msg -> isAuthFailure msg = false) ->
    (S i < i0 + List.length queue)%nat ->
    exists s' f,
      schedulingLoop w cfg page i0 queue times s = Returned (cancelledStop s') /\
      nth_error queue (i - i0) = Some f /\
      (forall j, (i < j)%nat -> attempted j (effects s') = false) /\
      ((uploadAnswer w i = inl tt /\
        exists m, In (mkEntry (file_name f) success m) (schedulingLog s'))
       \/ (exists msg, uploadAnswer w i = inr msg /\
                       In (failedEntry f msg) (schedulingLog s'))).
Proof.
  induction queue as [|f q IH]; intros i0 times s Hfresh i Hle Hatt Htog Hna Hmore.
  { simpl in Hmore. lia. }
  cbn [schedulingLoop] in *.
  pose proof (processItem_spec w cfg page i0 f (hd_error times) s) as Hspec.
  destruct (processItem w cfg page i0 f (hd_error times) s) as [s'|[sf|sf|sf]].
  - destruct Hspec as (_ & s3 & de & dl & Hg & Hin & Hcan & Hcase).
    destruct Hg as (He & Hl & Hde & _).
    assert (Heff : effects s' = (de ++ effects s)%list).
    { destruct Hcase as [(_ & -> & _)|(m & _ & _ & ->)]; exact He. }
    assert (Hfresh' : forall j, (S i0 <= j)%nat -> attempted j (effects s') = false).
    { intros j Hj. rewrite Heff, attempted_app, (attempted_other i0 j de Hde) by lia.
      apply Hfresh. lia. }
    destruct (Nat.eq_dec i i0) as [->|Hne].
    + assert (Hc : cancelled s' = true).
      { destruct Hcase as [(_ & -> & _)|(m & _ & _ & ->)]; now apply Hcan. }
      destruct q as [|f1 q1]; [simpl in Hmore; lia|].
      cbn [schedulingLoop]. unfold processItem at 1. rewrite Hc.
      exists s', f. split; [reflexivity|]. rewrite Nat.sub_diag.
      split; [reflexivity|]. split; [intros j Hj; apply Hfresh'; lia|].
      destruct Hcase as [(Hok & -> & m & Hm)|(m & Hm & _ & ->)].
      * left. split; [exact Hok|]. exists m. rewrite Hl. apply in_or_app. now left.
      * right. exists m. split; [exact Hm|]. left. reflexivity.
    + destruct (IH (S i0) (tl times) s' Hfresh' i ltac:(lia) Hatt Htog Hna
                  ltac:(simpl in Hmore; lia))
        as (s4 & f' & Hrun & Hnth & Hrest).
      exists s4, f'. split; [exact Hrun|].
      replace (i - i0)%nat with (S (i - S i0)) by lia. split; [exact Hnth|exact Hrest].
  - exfalso.
    destruct Hspec as [(_ & ->)|(_ & s3 & de & dl & m & Hg & Hin & Hm & Ha & ->)].
    + simpl in Hatt. rewrite Hfresh in Hatt by exact Hle. discriminate.
    + destruct Hg as (He & _ & Hde & _).
      destruct (Nat.eq_dec i i0) as [->|Hne].
      * rewrite (Hna m Hm) in Ha. discriminate.
      * cbn [finalState] in Hatt.
        rewrite effects_authStop, attempted_cons_logout in Hatt.
        rewrite He, attempted_app, (attempted_other i0 i de Hde Hne), Hfresh in Hatt by lia.
        discriminate.
  - destruct Hspec as (_ & de & dl & (He & _) & Hs & _).
    cbn [finalState] in Hatt.
    rewrite He, attempted_app, (attempted_sleep i de Hs), Hfresh in Hatt by exact Hle.
    discriminate.
  - destruct Hspec as (_ & de & dl & (He & _) & Hs).
    cbn [finalState] in Hatt.
    rewrite He, attempted_app, (attempted_sleep i de Hs), Hfresh in Hatt by exact Hle.
    discriminate.
Qed.

(** *** The loop when nobody touches the buttons *)

Lemma uploadPost_flags i f t s :
  cancelled (fst (uploadPost w cfg i f t (Some page) s)) = cancelled s /\
  isPaused (fst (uploadPost w cfg i f t (Some page) s)) = isPaused s.
Proof.
  unfold uploadPost, request, log.
  unfold bind, update, await, ret, raise, ok, throw.
  cbv beta iota.
  destruct (generateCaptionForScheduling w i) as [caption|msg]; cbv beta iota;
    [|split; reflexivity].
  destruct (postMedia w i) as [[[m|] rid]|msg]; cbv beta iota; cbn [resp_error resp_id];
    [split; reflexivity| |split; reflexivity].
  destruct rid as [[|c mediaId]|]; cbv beta iota; [split; reflexivity| |split; reflexivity].
  destruct (nonEmpty (checkInPlaceId cfg)); cbv beta iota;
    destruct t as [t|]; cbv beta iota;
    destruct (postFeed w i) as [[[m|] pid]|msg]; cbv beta iota; cbn [resp_error resp_id];
    split; reflexivity.
Qed.

Lemma processItem_quiet i f t s :
  quiet w -> cancelled s = false -> isPaused s = false ->
  match processItem w cfg page i f (Some t) s with
  | Next s' => cancelled s' = false /\ isPaused s' = false
  | Stop (Returned _) => True
  | Stop _ => False
  end.
Proof.
  intros Hq Hc Hp. destruct (Hq i) as (Hpp & Hfp).
  unfold processItem. rewrite Hc, Hpp, Hfp. cbn [pauseLoop]. rewrite Hp.
  unfold adjustSlot.
  set (s1 := setSchedulingProgress (S i, List.length (files cfg)) s).
  assert (Hflags : forall t' s2, cancelled s2 = false -> isPaused s2 = false ->
            match
              (let '(s3, result) := uploadPost w cfg i f (Some t') (Some page) s2 in
               let s4 := uiActions [] s3 in
               match result with
               | inl _ => Next s4
               | inr msg =>
                 let s5 := addLog (file_name f) error ("Failed: " ++ msg) s4 in
                 if isAuthFailure msg
                 then Stop (Returned
                        (handleLogout
                           (addNotification
                              "Facebook token expired during operation. Please log in again."
                              error s5)))
                 else Next s5
               end)
            with
            | Next s' => cancelled s' = false /\ isPaused s' = false
            | Stop (Returned _) => True
            | Stop _ => False
            end).
  { intros t' s2 Hc2 Hp2.
    destruct (uploadPost_flags i f (Some t') s2) as (H1 & H2).
    destruct (uploadPost w cfg i f (Some t') (Some page) s2) as [s3 [[]|msg]];
      cbn [fst uiActions fold_left] in *.
    - split; congruence.
    - destruct (isAuthFailure msg); [exact I|]. split; [exact (eq_trans H1 Hc2)|].
      exact (eq_trans H2 Hp2). }
  destruct (t <? dispatchClock w i + 600000); apply Hflags; assumption.
Qed.



End Loop.

(** *** Before the loop *)

Lemma noCalls_cons b effs : noCalls effs -> noCalls (SetScheduling b :: effs).
Proof. intros H e [<-|Hin]; eauto. Qed.

(** generating the slots calls no collaborator and logs remarks only *)
Lemma generateSchedule_grows w cfg insightsData page s :
  exists dl, grows O EmptyString [] dl s (fst (generateSchedule w cfg insightsData page s)).
Proof.
  unfold generateSchedule, getSmartScheduleWith, fetchPageInsightsWith, log.
  unfold bind, update, await, ret, ok, throw.
  destruct (smartScheduleEnabled cfg); cbv beta iota; [|eexists; grows_now].
  destruct (insightsData page) as [insights|msg]; cbv beta iota; [|eexists; grows_now].
  destruct (smartLoop w (rankHours insights) _ _ _); cbv beta iota; eexists; grows_now.
Qed.

Lemma generateSchedule_flags w cfg insightsData page s :
  cancelled (fst (generateSchedule w cfg insightsData page s)) = cancelled s /\
  isPaused (fst (generateSchedule w cfg insightsData page s)) = isPaused s.
Proof.
  unfold generateSchedule, getSmartScheduleWith, fetchPageInsightsWith, log.
  unfold bind, update, await, ret, ok, throw.
  destruct (smartScheduleEnabled cfg); cbv beta iota; [|split; reflexivity].
  destruct (insightsData page) as [insights|msg]; cbv beta iota; [|split; reflexivity].
  destruct (smartLoop w (rankHours insights) _ _ _); cbv beta iota; split; reflexivity.
Qed.

(** the state in which the slots are generated *)
Lemma prepared_effects cfg (s : State) :
  effects (beginRun cfg s) = SetScheduling true :: effects s.
Proof. reflexivity. Qed.

Lemma manualLoop_length w cfg n : forall t, List.length (manualLoop w cfg n t) = n.
Proof. induction n as [|n IH]; intros t; simpl; auto. Qed.

Lemma smartLoop_length w ranked k : forall i d l,
  smartLoop w ranked k i d = inl l -> List.length l = k.
Proof.
  induction k as [|k IH]; intros i d l H; cbn [smartLoop] in H.
  - inversion H. reflexivity.
  - destruct (candidateHour ranked i); [|discriminate].
    destruct (smartLoop w ranked k (S i) _) eqn:E; [|discriminate].
    inversion H. simpl. f_equal. eapply IH. exact E.
Qed.

(** a generated schedule has a slot for every file *)
Lemma generateSchedule_length w cfg data page s times :
  snd (generateSchedule w cfg data page s) = inl times ->
  List.length times = List.length (files cfg).
Proof.
  unfold generateSchedule, getSmartScheduleWith, fetchPageInsightsWith, log.
  unfold bind, update, await, ret, ok, throw, manualSchedule.
  destruct (smartScheduleEnabled cfg); cbv beta iota.
  - destruct (data page) as [insights|msg]; cbv beta iota; [|discriminate].
    destruct (smartLoop w (rankHours insights) _ _ _) as [l|m] eqn:E; cbv beta iota;
      [|discriminate].
    cbn [snd]. intros H. inversion H.
    rewrite SortFacts.sort_length. eapply smartLoop_length. exact E.
  - cbn [snd]. intros H. inversion H. destruct (startTime cfg).
    apply manualLoop_length.
Qed.

(** a press of the toggle on an idle page either finds nothing to do
    (validation or slot generation fails: no call is made), or runs the
    queue over a slot per file from a state without calls whose log holds
    remarks only *)
Lemma handle_cases w cfg data s :
  noCalls (effects s) -> isScheduling s = false ->
  noCalls (effects (finalState (handleSchedulingProcessWith w cfg data s)))
  \/ exists page s1 times,
       handleSchedulingProcessWith w cfg data s = runQueue w cfg page times s1 /\
       files cfg <> [] /\ activePage s = Some page /\
       noCalls (effects s1) /\
       List.length times = List.length (files cfg) /\
       Forall (fun e => file e = EmptyString) (schedulingLog s1) /\
       cancelled s1 = false /\ isPaused s1 = false.
Proof.
  intros Hfresh Hidle. unfold handleSchedulingProcessWith. rewrite Hidle.
  destruct (files cfg) as [|f0 q] eqn:Eq; [left; exact Hfresh|].
  destruct (activePage s) as [page|]; [|left; exact Hfresh].
  rewrite <- Eq in *.
  set (s0 := beginRun cfg s).
  destruct (generateSchedule_grows w cfg data page s0) as (dl & He & Hl & _ & Hdl & _).
  pose proof (generateSchedule_length w cfg data page s0) as Hlen.
  pose proof (generateSchedule_flags w cfg data page s0) as (Hfc & Hfp).
  destruct (generateSchedule w cfg data page s0) as [s1 [times|m]];
    cbn [fst snd app] in *.
  - right. exists page, s1, times. split; [reflexivity|].
    split; [rewrite Eq; discriminate|]. split; [reflexivity|].
    split; [rewrite He; subst s0; rewrite prepared_effects; now apply noCalls_cons|].
    split; [now apply Hlen|].
    split; [|split; [exact Hfc|exact Hfp]].
    rewrite Hl. subst s0. change (schedulingLog (beginRun cfg s)) with (@nil SchedulingLogEntry).
    rewrite app_nil_r. eapply Forall_impl; [|exact Hdl].
    intros e (_ & [H|H]); exact H.
  - left. change (noCalls (SetScheduling false :: effects s1)).
    rewrite He. subst s0. rewrite prepared_effects. now do 2 apply noCalls_cons.
Qed.

Lemma runQueue_effects w cfg page times s j :
  attempted j (effects (finalState (runQueue w cfg page times s)))
  = attempted j (effects (finalState (schedulingLoop w cfg page 0 (files cfg) times s))).
Proof. unfold runQueue. destruct (schedulingLoop _ _ _ _ _ _ _); reflexivity. Qed.


(** C4. Whenever the call for item [i] was made and fails with a message
    containing "token", "session" or "oauth" (in any case), the run ends
    right after logging that item's error: the newest log entries are the
    closing entry and the error of item [i], no collaborator is called
    for any later item however long the queue, and the auth-failure
    callback [handleLogout] has been invoked exactly once. *)
Theorem auth_failure_aborts_run (w : World) (cfg : SchedulerSettings) (s : State)
  (i : nat) (msg : string) :
  noCalls (effects s) ->
  attempted i (effects (finalState (handleSchedulingProcess w cfg s))) = true ->
  uploadAnswer w i = inr msg ->
  isAuthFailure msg = true ->
  exists sf f older,
    handleSchedulingProcess w cfg s = Returned sf /\
    nth_error (files cfg) i = Some f /\
    schedulingLog sf = completeEntry :: failedEntry f msg :: older /\
    logouts (effects sf) = 1%nat /\
    isScheduling sf = false /\
    forall j, (i < j)%nat -> attempted j (effects sf) = false.
Proof.
  intros Hfresh Hatt Hans Hauth.
  unfold handleSchedulingProcess, handleSchedulingProcessWith in *.
  destruct (isScheduling s).
  { exfalso. assert (Hx : attempted i (effects s) = true) by exact Hatt.
    rewrite noCalls_attempted in Hx by exact Hfresh. discriminate. }
  destruct (files cfg) as [|f0 q] eqn:Eq.
  { exfalso. assert (Hx : attempted i (effects s) = true) by exact Hatt.
    rewrite noCalls_attempted in Hx by exact Hfresh. discriminate. }
  destruct (activePage s) as [page|].
  2: { exfalso. assert (Hx : attempted i (effects s) = true) by exact Hatt.
    rewrite noCalls_attempted in Hx by exact Hfresh. discriminate. }
  rewrite <- Eq in *.
  set (s0 := beginRun cfg s) in *.
  destruct (generateSchedule_grows w cfg (fun _ => ok mockInsights) page s0)
    as (dl & He & _).
  destruct (generateSchedule w cfg (fun _ => ok mockInsights) page s0) as [s1 [times|m]].
  2: { exfalso. cbn [fst app] in He.
       assert (Hx : attempted i (effects s1) = true) by exact Hatt.
       rewrite He in Hx. subst s0. rewrite prepared_effects in Hx.
       change (attempted i (effects s) = true) in Hx.
       rewrite noCalls_attempted in Hx by exact Hfresh. discriminate. }
  cbn [fst app] in He.
  assert (Hfresh1 : noCalls (effects s1)).
  { rewrite He. subst s0. rewrite prepared_effects. now apply noCalls_cons. }
  unfold runQueue in *.
  assert (Hatt' : attempted i (effects (finalState
                     (schedulingLoop w cfg page 0 (files cfg) times s1))) = true).
  { destruct (schedulingLoop w cfg page 0 (files cfg) times s1); exact Hatt. }
  destruct (loop_auth w cfg page (files cfg) O times s1
              (fun j _ => noCalls_attempted _ j Hfresh1) (noCalls_logouts _ Hfresh1)
              i msg (Nat.le_0_l i) Hatt' Hans Hauth)
    as (s3 & f & Hrun & Hnth & Hlog & _ & Hlater).
  rewrite Hrun. exists (finishRun (authStop f msg s3)), f, (schedulingLog s3).
  split; [reflexivity|]. rewrite Nat.sub_0_r in Hnth. split; [exact Hnth|].
  split; [reflexivity|].
  split.
  { change (effects (finishRun (authStop f msg s3)))
      with (SetScheduling false :: Logout :: effects s3).
    unfold logouts in *. cbn [filter isLogout List.length]. now rewrite Hlog. }
  split; [reflexivity|].
  intros j Hj.
  change (effects (finishRun (authStop f msg s3)))
    with (SetScheduling false :: Logout :: effects s3).
  cbn [attempted existsb touches orb]. now apply Hlater.
Qed.

(** C4, at a sample input: the session expires at item 1 of five *)
Lemma auth_failure_aborts_run_witness :
  exists sf f older,
    handleSchedulingProcess Samples.U.expired (Samples.U.hourly false) Samples.U.idle
    = Returned sf /\
    nth_error (files (Samples.U.hourly false)) 1 = Some f /\
    schedulingLog sf
    = completeEntry
        :: failedEntry f "Post creation failed: Error validating access token: Session has expired"
        :: older /\
    logouts (effects sf) = 1%nat /\
    isScheduling sf = false /\
    forall j, (1 < j)%nat -> attempted j (effects sf) = false.
Proof.
  apply (auth_failure_aborts_run Samples.U.expired (Samples.U.hourly false)
           Samples.U.idle 1).
  - intros e [].
  - vm_compute. reflexivity.
  - reflexivity.
  - vm_compute. reflexivity.
Defined.

(** a run that got as far as calling a collaborator has passed validation
    and slot generation *)
Lemma run_started w cfg s i :
  noCalls (effects s) ->
  attempted i (effects (finalState (handleSchedulingProcess w cfg s))) = true ->
  exists page s1 times,
    handleSchedulingProcess w cfg s = runQueue w cfg page times s1 /\
    isScheduling s = false /\
    noCalls (effects s1) /\
    List.length times = List.length (files cfg) /\
    Forall (fun e => file e = EmptyString) (schedulingLog s1) /\
    cancelled s1 = false /\ isPaused s1 = false.
Proof.
  intros Hfresh Hatt. unfold handleSchedulingProcess in *.
  destruct (isScheduling s) eqn:Ei.
  { exfalso. unfold handleSchedulingProcessWith in Hatt. rewrite Ei in Hatt.
    assert (Hx : attempted i (effects s) = true) by exact Hatt.
    rewrite noCalls_attempted in Hx by exact Hfresh. discriminate. }
  destruct (handle_cases w cfg (fun _ => ok mockInsights) s Hfresh Ei)
    as [Hno|(page & s1 & times & Hrun & _ & _ & Hrest)].
  - rewrite noCalls_attempted in Hatt by exact Hno. discriminate.
  - exists page, s1, times. auto.
Qed.



(** *** The start/stop toggle *)

(** C6 (amended). Pressed while a run is in progress, the toggle sets the
    cancel token, logs that the process is stopping and returns: no new
    run is started and no collaborator is called.  When it is pressed
    while item [i] is in flight, [i] is not the last item and item [i] does
    not end the run by a failed login, item [i] runs to its result (which
    is logged), no later item is taken up, the run returns and its log
    holds the entry "Scheduling cancelled by user.".  And the log of a run
    names no item that was never taken up. *)
Theorem toggle_cancels_between_items (w : World) (cfg : SchedulerSettings) (s : State) :
  noCalls (effects s) ->
  isScheduling s = false ->
  (forall busy, isScheduling busy = true ->
     handleSchedulingProcess w cfg busy = Returned (requestStop busy) /\
     cancelled (requestStop busy) = true /\
     isScheduling (requestStop busy) = true /\
     effects (requestStop busy) = effects busy /\
     schedulingLog (requestStop busy) = stoppingEntry :: schedulingLog busy) /\
  (forall i,
     attempted i (effects (finalState (handleSchedulingProcess w cfg s))) = true ->
     In PressToggle (flightPresses w i) ->
     (forall msg, uploadAnswer w i = inr msg -> isAuthFailure msg = false) ->
     (S i < List.length (files cfg))%nat ->
     exists sf f,
       handleSchedulingProcess w cfg s = Returned sf /\
       nth_error (files cfg) i = Some f /\
       In cancelledEntry (schedulingLog sf) /\
       (forall j, (i < j)%nat -> attempted j (effects sf) = false) /\
       ((uploadAnswer w i = inl tt /\
         exists m, In (mkEntry (file_name f) success m) (schedulingLog sf))
        \/ (exists msg, uploadAnswer w i = inr msg /\
                        In (failedEntry f msg) (schedulingLog sf)))) /\
  (files cfg <> [] -> activePage s <> None ->
   forall e,
     In e (schedulingLog (finalState (handleSchedulingProcess w cfg s))) ->
     file e = EmptyString
     \/ exists j f,
          nth_error (files cfg) j = Some f /\
          attempted j (effects (finalState (handleSchedulingProcess w cfg s))) = true /\
          file e = file_name f).
Proof.
  intros Hfresh Hidle. split; [|split].
  - intros busy Hb. unfold handleSchedulingProcess, handleSchedulingProcessWith.
    rewrite Hb. repeat split; try reflexivity. exact Hb.
  - intros i Hatt Htog Hna Hmore.
    destruct (run_started w cfg s i Hfresh Hatt)
      as (page & s1 & times & Hrun & _ & Hfresh1 & Hlen & _).
    rewrite Hrun in *. rewrite runQueue_effects in Hatt.
    destruct (loop_toggle w cfg page (files cfg) O times s1
                (fun j _ => noCalls_attempted _ j Hfresh1) i (Nat.le_0_l i)
                Hatt Htog Hna Hmore) as (s' & f & Hloop & Hnth & Hlater & Hres).
    unfold runQueue. rewrite Hloop.
    exists (finishRun (cancelledStop s')), f. split; [reflexivity|].
    rewrite Nat.sub_0_r in Hnth. split; [exact Hnth|].
    split; [right; left; reflexivity|].
    split; [intros j Hj; apply (Hlater j Hj)|].
    destruct Hres as [(Hok & m & Hm)|(m & Hm & Hin)].
    + left. split; [exact Hok|]. exists m. right; right. exact Hm.
    + right. exists m. split; [exact Hm|]. right; right. exact Hin.
  - intros Hfiles Hpage e Hin.
    unfold handleSchedulingProcess, handleSchedulingProcessWith in *.
    rewrite Hidle in *.
    destruct (files cfg) as [|f0 q] eqn:Eq; [congruence|].
    destruct (activePage s) as [page|]; [|congruence].
    rewrite <- Eq in *.
    destruct (generateSchedule_grows w cfg (fun _ => ok mockInsights) page (beginRun cfg s))
      as (dl & _ & Hl & _ & Hdl & _).
    destruct (generateSchedule w cfg (fun _ => ok mockInsights) page (beginRun cfg s))
      as [s1 [times|m]]; cbn [fst] in *.
    2: { left. destruct Hin as [<-|Hin]; [reflexivity|].
         change (In e (schedulingLog s1)) in Hin. rewrite Hl in Hin.
         change (schedulingLog (beginRun cfg s)) with (@nil SchedulingLogEntry) in Hin.
         rewrite app_nil_r in Hin. rewrite Forall_forall in Hdl.
         destruct (Hdl e Hin) as (_ & [H|H]); exact H. }
    change (schedulingLog (beginRun cfg s)) with (@nil SchedulingLogEntry) in Hl.
    rewrite app_nil_r in Hl.
    destruct (loop_extends w cfg page (files cfg) O times s1)
      as (de & dl2 & He2 & Hl2 & Hdl2).
    assert (Hin' : e = completeEntry \/
                   In e (schedulingLog (finalState
                           (schedulingLoop w cfg page 0 (files cfg) times s1)))).
    { unfold runQueue in Hin.
      destruct (schedulingLoop w cfg page 0 (files cfg) times s1); auto.
      destruct Hin as [<-|Hin]; auto. }
    destruct Hin' as [->|Hin']; [now left|].
    rewrite Hl2 in Hin'. apply in_app_or in Hin' as [Hin'|Hin'].
    + rewrite Forall_forall in Hdl2.
      destruct (Hdl2 e Hin') as [H|(j & f & Hn & Ha & Hf)]; [now left|right].
      exists j, f. split; [exact Hn|]. split; [|exact Hf].
      rewrite runQueue_effects, He2, attempted_app. cbn [Nat.add] in Ha.
      now rewrite Ha.
    + left. rewrite Hl in Hin'. rewrite Forall_forall in Hdl.
      destruct (Hdl e Hin') as (_ & [H|H]); exact H.
Qed.

(** C6 (amended), at a sample input: five files, the stop button pressed
    while item 1 is in flight *)
Lemma toggle_cancels_between_items_witness :
  exists sf f,
    handleSchedulingProcess Samples.U.stopped (Samples.U.hourly false) Samples.U.idle
    = Returned sf /\
    nth_error (files (Samples.U.hourly false)) 1 = Some f /\
    In cancelledEntry (schedulingLog sf) /\
    (forall j, (1 < j)%nat -> attempted j (effects sf) = false) /\
    ((uploadAnswer Samples.U.stopped 1 = inl tt /\
      exists m, In (mkEntry (file_name f) success m) (schedulingLog sf))
     \/ (exists msg, uploadAnswer Samples.U.stopped 1 = inr msg /\
                     In (failedEntry f msg) (schedulingLog sf))).
Proof.
  refine (proj1 (proj2 (toggle_cancels_between_items Samples.U.stopped
                          (Samples.U.hourly false) Samples.U.idle _ _)) 1%nat _ _ _ _).
  - intros e [].
  - reflexivity.
  - vm_compute. reflexivity.
  - left. reflexivity.
  - intros msg H. vm_compute in H. discriminate.
  - simpl. lia.
Defined.

(** C6 as stated fails: with the stop button pressed while the last of
    five items is in flight, the cancel token is set and the run returns,
    but its log has no "Scheduling cancelled by user." entry *)
Lemma toggle_during_last_item_not_logged :
  In PressToggle (flightPresses Samples.U.stoppedLate 4) /\
  (exists sf,
     handleSchedulingProcess Samples.U.stoppedLate (Samples.U.hourly false)
       Samples.U.idle = Returned sf /\
     cancelled sf = true /\
     attempted 4 (effects sf) = true) /\
  ~ In cancelledEntry
      (schedulingLog (finalState
         (handleSchedulingProcess Samples.U.stoppedLate (Samples.U.hourly false)
            Samples.U.idle))).
Proof.
  split; [left; reflexivity|]. split.
  - exists (finalState (handleSchedulingProcess Samples.U.stoppedLate
                         (Samples.U.hourly false) Samples.U.idle)).
    split; [vm_compute; reflexivity|]. split; vm_compute; reflexivity.
  - vm_compute. intros H.
    repeat (destruct H as [H|H]; [discriminate H|]). exact H.
Qed.

(** *** Slot generation that throws *)




End UploaderFacts.

(** ** The runner of CrossPostPage *)

Module CrossPostFacts.
Import CrossPost Observe CrossPostObserve.
Import UploaderFacts.

(** *** uploadCrossPost and the history of reposted items *)

(** C9. The history of reposted items changes only with success: a call of
    [uploadCrossPost] that throws, whether the enhancement, the photo
    upload or the post creation failed, leaves the history set and its
    copy in localStorage as they were; the call returns normally exactly
    when all three went through, and then the key of the pair (post,
    destination page) has joined the set, the feed post having been
    created, and the set has been written to localStorage (unless
    [setItem] throws, which leaves the stored copy as it was). *)
Theorem history_updated_only_on_success (w : World) (i : nat) (p : ManagedPost)
  (scheduleTime : option Date) (destination : FBPage) (s : State) :
  let s' := fst (uploadCrossPost w i p scheduleTime (Some destination) s) in
  let result := snd (uploadCrossPost w i p scheduleTime (Some destination) s) in
  result = publishAnswer w i /\
  (forall msg, result = inr msg ->
     crossPostHistory s' = crossPostHistory s /\ storedHistory s' = storedHistory s) /\
  (result = inl tt ->
     postCreated w i /\
     In (CreatePost i) (effects s') /\
     crossPostHistory s' = setAdd (historyKey p destination) (crossPostHistory s) /\
     storedHistory s' = (if setItemSucceeds w i then Some (crossPostHistory s')
                         else storedHistory s)) /\
  (crossPostHistory s' <> crossPostHistory s \/ storedHistory s' <> storedHistory s ->
   postCreated w i).
Proof.
  cbv zeta.
  assert (H : snd (uploadCrossPost w i p scheduleTime (Some destination) s)
              = publishAnswer w i /\
          (forall msg, snd (uploadCrossPost w i p scheduleTime (Some destination) s)
                       = inr msg ->
             crossPostHistory (fst (uploadCrossPost w i p scheduleTime (Some destination) s))
             = crossPostHistory s /\
             storedHistory (fst (uploadCrossPost w i p scheduleTime (Some destination) s))
             = storedHistory s) /\
          (snd (uploadCrossPost w i p scheduleTime (Some destination) s) = inl tt ->
             postCreated w i /\
             In (CreatePost i)
                (effects (fst (uploadCrossPost w i p scheduleTime (Some destination) s))) /\
             crossPostHistory (fst (uploadCrossPost w i p scheduleTime (Some destination) s))
             = setAdd (historyKey p destination) (crossPostHistory s) /\
             storedHistory (fst (uploadCrossPost w i p scheduleTime (Some destination) s))
             = (if setItemSucceeds w i
                then Some (crossPostHistory
                             (fst (uploadCrossPost w i p scheduleTime (Some destination) s)))
                else storedHistory s))).
  { unfold uploadCrossPost, publishAnswer, postCreated, request, log.
    unfold bind, update, await, ret, raise, ok, throw.
    cbv beta iota.
    destruct (generateCrossPostCaption w i) as [caption|msg]; cbv beta iota.
    2: { cbn. repeat split; auto; discriminate. }
    destruct (manipulateImage w i p); cbv beta iota;
      (destruct (postPhoto w i) as [[[m|] rid]|msg]; cbv beta iota;
       cbn [resp_error resp_id];
       [cbn; repeat split; auto; discriminate
       | | cbn; repeat split; auto; discriminate]);
      (destruct scheduleTime as [t|]; cbv beta iota;
       (destruct (postFeed w i) as [[[m|] pid]|msg] eqn:Ef; cbv beta iota;
        cbn [resp_error resp_id];
        [cbn; repeat split; auto; discriminate
        | | cbn; repeat split; auto; discriminate]));
      (cbn [fst snd]; split; [reflexivity|]; split; [discriminate|]; intros _;
       split; [eexists; split; [reflexivity|reflexivity]|];
       split; [cbn; auto|];
       unfold recordHistory;
       cbn [crossPostHistory storedHistory setHistory addLog setSchedulingLog];
       split; reflexivity). }
  destruct H as (Hr & Hfail & Hok).
  split; [exact Hr|]. split; [exact Hfail|]. split; [exact Hok|].
  intros Hchanged.
  destruct (snd (uploadCrossPost w i p scheduleTime (Some destination) s))
    as [[]|msg] eqn:E.
  - apply Hok. reflexivity.
  - destruct (Hfail msg eq_refl) as (H1 & H2). destruct Hchanged; congruence.
Qed.

(** *** Growth of the record and of the log *)








(** *** One turn of the loop *)




(** *** The loop *)



Section XLoop.
Variable w : World.
Variable cfg : CrossPostSchedulerSettings.
Variable destination : FBPage.
Variable history : list string.
Variable total : nat.




End XLoop.

(** *** Items that were reposted before *)




End CrossPostFacts.

(** ** Cancellation during the pause wait *)

Module CancellationFacts.
Import Observe.

(** C3 fails on both pages.  The run is paused while item 0 is in flight
    and the stop button is pressed during the first second of the wait
    before item 1.  On UploaderPage the [break] leaves the pause wait only:
    the calls for item 1 follow the wait, and the run is cancelled at item
    2.  On CrossPostPage the wait does not look at the cancel token at all:
    it goes on, and once the pause is lifted the calls for item 1 are
    made. *)
Theorem cancel_during_pause_still_processes_item :
  (In PressToggle (List.concat (Uploader.pausePresses Samples.U.stoppedInPause 1)) /\
   Uploader.effects (finalState
     (Uploader.handleSchedulingProcess Samples.U.stoppedInPause
        (Samples.U.hourly false) Samples.U.idle))
   = [SetScheduling false;
      CreatePost 1; PublishMedia 1; Enhance 1;
      Sleep;
      CreatePost 0; PublishMedia 0; Enhance 0;
      SetScheduling true] /\
   In UploaderObserve.cancelledEntry
      (Uploader.schedulingLog (finalState
         (Uploader.handleSchedulingProcess Samples.U.stoppedInPause
            (Samples.U.hourly false) Samples.U.idle)))) /\
  (In PressToggle (List.concat (CrossPost.pausePresses Samples.X.stoppedInPause 1)) /\
   CrossPost.effects (finalState
     (CrossPost.handleSchedulingProcess Samples.X.stoppedInPause
        Samples.X.hourly Samples.X.idle))
   = [SetScheduling false;
      CreatePost 1; PublishMedia 1; Enhance 1;
      Sleep; Sleep;
      CreatePost 0; PublishMedia 0; Enhance 0;
      SetScheduling true] /\
   In CrossPostObserve.cancelledEntry
      (CrossPost.schedulingLog (finalState
         (CrossPost.handleSchedulingProcess Samples.X.stoppedInPause
            Samples.X.hourly Samples.X.idle)))).
Proof.
  split; (split; [left; reflexivity|]); (split; [vm_compute; reflexivity|]);
    vm_compute; tauto.
Qed.

End CancellationFacts.

(** ** The manual allocator *)

Module ManualFacts.
Import Uploader Spec DateFacts.

Section Manual.
Variable w : World.
Variable cfg : SchedulerSettings.

Lemma manualSchedule_length n : List.length (manualSchedule w cfg n) = n.
Proof.
  unfold manualSchedule. destruct (startTime cfg).
  apply UploaderFacts.manualLoop_length.
Qed.

(** the running clock only moves forward *)
Lemma manualAdvance_later t :
  0 < interval cfg -> 0 <= fst (startTime cfg) -> 0 <= snd (startTime cfg) ->
  t < manualAdvance w cfg t.
Proof.
  intros Hi Hh Hm. unfold manualAdvance.
  destruct (startTime cfg) as [startH startM], (endTime cfg) as [endH endM].
  cbn [fst snd] in *.
  set (t1 := setMinutes (tz w) t (getMinutes (tz w) t + interval cfg)).
  assert (Ht1 : t < t1) by (subst t1; unfold setMinutes, msPerMinute; lia).
  destruct (_ || _); [|exact Ht1].
  pose proof (setHours_lower (tz w) (addDays t1 1) startH startM Hm) as Hlow.
  unfold addDays, msPerDay, msPerHour in *. lia.
Qed.

Lemma manualLoop_increasing n : forall t,
  0 < interval cfg -> 0 <= fst (startTime cfg) -> 0 <= snd (startTime cfg) ->
  StronglySorted Z.lt (manualLoop w cfg n t).
Proof.
  induction n as [|n IH]; intros t Hi Hh Hm; cbn [manualLoop]; constructor.
  - now apply IH.
  - pose proof (manualAdvance_later t Hi Hh Hm) as Hlt.
    specialize (IH (manualAdvance w cfg t) Hi Hh Hm).
    revert Hlt IH. generalize (manualAdvance w cfg t). clear - n.
    intros u. revert u. induction n as [|n IHn]; intros u Hlt Hs; cbn [manualLoop] in *.
    + constructor.
    + inversion Hs as [|? ? Hs' Hall]; subst. constructor; [exact Hlt|].
      eapply Forall_impl; [|exact Hall]. intros a Ha. lia.
Qed.

(** for every count and every positive interval the manual allocator
    emits exactly [n] timestamps, strictly increasing in queue order *)
Lemma manualSchedule_increasing n :
  0 < interval cfg -> 0 <= fst (startTime cfg) -> 0 <= snd (startTime cfg) ->
  List.length (manualSchedule w cfg n) = n /\
  StronglySorted Z.lt (manualSchedule w cfg n).
Proof.
  intros. split; [apply manualSchedule_length|].
  unfold manualSchedule. destruct (startTime cfg) eqn:E.
  rewrite <- E in *. now apply manualLoop_increasing.
Qed.

(** the fields of the timestamp of minute [m] of local day [d] *)
Lemma getHours_atLocal d m :
  0 <= m < 1440 -> getHours (tz w) (atLocal (tz w) (d, m)) = m / 60.
Proof. intros. unfold atLocal. cbn [fst snd]. date_arith. Qed.

Lemma getMinutes_atLocal d m :
  0 <= m < 1440 -> getMinutes (tz w) (atLocal (tz w) (d, m)) = m mod 60.
Proof. intros. unfold atLocal. cbn [fst snd]. date_arith. Qed.

Lemma setMinutes_atLocal d m k :
  setMinutes (tz w) (atLocal (tz w) (d, m)) (getMinutes (tz w) (atLocal (tz w) (d, m)) + k)
  = atLocal (tz w) (d + (m + k) / 1440, (m + k) mod 1440).
Proof. unfold atLocal. cbn [fst snd]. date_arith. Qed.

Lemma rollover_atLocal d m h mi :
  0 <= m < 1440 ->
  setHours (tz w) (addDays (atLocal (tz w) (d, m)) 1) h mi 0 0
  = atLocal (tz w) (d + 1, h * 60 + mi).
Proof. intros. unfold atLocal. cbn [fst snd]. date_arith. Qed.

(** one turn of the code is one turn of the specification's rule *)
Lemma manualAdvance_next day minute :
  manualAdvance w cfg (atLocal (tz w) (day, minute))
  = atLocal (tz w) (manualNext cfg (day, minute)).
Proof.
  unfold manualAdvance, manualNext, exceeds, minuteOfDay.
  destruct (startTime cfg) as [startH startM], (endTime cfg) as [endH endM].
  cbn [fst snd].
  rewrite setMinutes_atLocal.
  pose proof (Z.mod_pos_bound (minute + interval cfg) 1440 ltac:(lia)) as Hr.
  rewrite getHours_atLocal, getMinutes_atLocal by exact Hr.
  destruct (_ || _); [|reflexivity].
  now apply rollover_atLocal.
Qed.

Lemma manualLoop_slots n : forall day minute,
  manualLoop w cfg n (atLocal (tz w) (day, minute))
  = map (atLocal (tz w)) (manualSlots cfg n (day, minute)).
Proof.
  induction n as [|n IH]; intros day minute; [reflexivity|].
  cbn [manualLoop manualSlots map]. f_equal.
  rewrite manualAdvance_next.
  destruct (manualNext cfg (day, minute)) as [d' m']. apply IH.
Qed.

(** The manual allocator follows the rule of the specification, from the
    local day on which midnight UTC of [startDate] falls: at or east of
    UTC that is [startDate] itself, west of UTC it is the day before. *)
Lemma manualSchedule_slots n :
  manualSchedule w cfg n
  = map (atLocal (tz w))
        (manualSlots cfg n
           (localDayOfUTCMidnight (tz w) (startDate cfg), minuteOfDay (startTime cfg))).
Proof.
  rewrite <- manualLoop_slots.
  unfold manualSchedule, minuteOfDay, atLocal, localDayOfUTCMidnight in *.
  destruct (startTime cfg) as [startH startM]. cbn [fst snd] in *.
  f_equal. date_arith.
Qed.

Lemma localDayOfUTCMidnight_east d :
  0 <= tz w < 1440 -> localDayOfUTCMidnight (tz w) d = d.
Proof. intros. unfold localDayOfUTCMidnight. Z.to_euclidean_division_equations; lia. Qed.

Lemma localDayOfUTCMidnight_west d :
  -1440 <= tz w < 0 -> localDayOfUTCMidnight (tz w) d = d - 1.
Proof. intros. unfold localDayOfUTCMidnight. Z.to_euclidean_division_equations; lia. Qed.

End Manual.

(** at or east of UTC, count = 5, interval = 60, start = 09:00 and
    end = 22:00 give 09:00, 10:00, 11:00, 12:00 and 13:00 of [startDate] *)
Lemma manual_schedule_east_of_utc (w : World) (files : list File) (day : Z) :
  0 <= tz w < 1440 ->
  manualSchedule w
    (mkSettings files Image day 60 (9, 0) (22, 0) EmptyString demo EmptyString false) 5
  = map (atLocal (tz w)) [(day, 540); (day, 600); (day, 660); (day, 720); (day, 780)].
Proof.
  intros Htz. rewrite manualSchedule_slots.
  cbn [tz startDate startTime]. rewrite localDayOfUTCMidnight_east by exact Htz.
  f_equal. cbn [manualSlots minuteOfDay fst snd].
  unfold manualNext, exceeds. cbn [interval endTime fst snd].
  repeat match goal with
         | |- context [(?a + 60) / 1440] =>
           change ((a + 60) / 1440) with 0; change ((a + 60) mod 1440) with (a + 60)
         end.
  cbn. rewrite !Z.add_0_r. reflexivity.
Qed.

(** C1 fails west of UTC.  In a zone five hours behind UTC, with
    startDate = 2024-01-15 (day 19737), count = 5, interval = 60,
    start = 09:00 and end = 22:00, the five timestamps are 09:00 to 13:00
    local time of day 19736, 2024-01-14: the day before [startDate], also
    when the days are counted in UTC. *)
Theorem manual_schedule_west_of_utc :
  map (fun t => (localDay (-300) t, getHours (-300) t, getMinutes (-300) t))
      (manualSchedule (Samples.U.calm (-300)) (Samples.U.hourly false) 5)
  = [(19736, 9, 0); (19736, 10, 0); (19736, 11, 0); (19736, 12, 0); (19736, 13, 0)] /\
  map (fun t => t / msPerDay)
      (manualSchedule (Samples.U.calm (-300)) (Samples.U.hourly false) 5)
  = [19736; 19736; 19736; 19736; 19736] /\
  startDate (Samples.U.hourly false) = 19737.
Proof. repeat split; vm_compute; reflexivity. Qed.

End ManualFacts.

(** ** Colours *)

Module ColorFacts.
Import JSNumber Color ColorObserve.

Lemma stripHash_cons c s :
  stripHash (String c s) = if Ascii.eqb c "#" then s else String c s.
Proof.
  destruct c as [[] [] [] [] [] [] [] []]; reflexivity.
Qed.

Lemma hexValue_range c : isHexDigit c = true -> 0 <= hexValue c <= 15.
Proof.
  destruct c as [[] [] [] [] [] [] [] []]; cbv; intros H;
    try discriminate H; split; discriminate.
Qed.

Lemma hexDigit_not_hash c : isHexDigit c = true -> Ascii.eqb c "#" = false.
Proof.
  destruct c as [[] [] [] [] [] [] [] []]; cbv; intros H;
    try discriminate H; reflexivity.
Qed.

(** a string of hexadecimal digits does not begin with a hash *)
Lemma stripHash_digits s : allChars isHexDigit s = true -> stripHash s = s.
Proof.
  destruct s as [|c s]; [reflexivity|]. cbn [allChars]. intros H.
  apply andb_true_iff in H as (Hc & _).
  now rewrite stripHash_cons, hexDigit_not_hash.
Qed.

Lemma isValidHexColor_spec (hex : string) :
  isValidHexColor hex = true <->
  exists body,
    (hex = body \/ hex = String "#" body) /\
    (String.length body = 3 \/ String.length body = 6)%nat /\
    allChars isHexDigit body = true.
Proof.
  split.
  - intros H. destruct hex as [|c s]; [discriminate|].
    unfold isValidHexColor in H. apply andb_true_iff in H as (Hd & Hl).
    exists (stripHash (String c s)). split; [|split].
    + rewrite stripHash_cons. destruct (Ascii.eqb_spec c "#") as [->|_]; auto.
    + apply orb_true_iff in Hl as [Hl|Hl]; apply Nat.eqb_eq in Hl; auto.
    + exact Hd.
  - intros (body & Hhex & Hlen & Hd).
    assert (Hs : stripHash hex = body).
    { destruct Hhex as [->| ->]; [now apply stripHash_digits|reflexivity]. }
    assert (Hne : hex <> EmptyString).
    { destruct Hhex as [->| ->]; [|discriminate].
      destruct body; [simpl in Hlen; lia|discriminate]. }
    destruct hex as [|c s]; [congruence|].
    unfold isValidHexColor. rewrite Hs, Hd.
    destruct Hlen as [-> | ->]; reflexivity.
Qed.

(** X1. [isValidHexColor] accepts exactly the strings that are three or
    six hexadecimal digits, with or without one hash in front: the empty
    string, a second hash, any other length and any other character are
    refused. *)
Theorem valid_hex_colors (hex : string) :
  isValidHexColor hex = true <->
  exists body,
    (hex = body \/ hex = String "#" body) /\
    (String.length body = 3 \/ String.length body = 6)%nat /\
    allChars isHexDigit body = true.
Proof. exact (isValidHexColor_spec hex). Qed.

(** strings of exactly three, and of exactly six, characters *)
Lemma length3 (s : string) :
  String.length s = 3%nat -> exists a b c, s = String a (String b (String c EmptyString)).
Proof.
  destruct s as [|a [|b [|c [|d s]]]]; simpl; intros H; try discriminate; eauto.
Qed.

Lemma length6 (s : string) :
  String.length s = 6%nat ->
  exists a b c d e f,
    s = String a (String b (String c (String d (String e (String f EmptyString))))).
Proof.
  destruct s as [|a [|b [|c [|d [|e [|f [|g s]]]]]]]; simpl; intros H;
    try discriminate; eauto 7.
Qed.

(** a pair of hexadecimal digits is read as a number below 256 *)
Lemma parseInt16_pair a b :
  isHexDigit a = true -> isHexDigit b = true ->
  parseInt16 (String a (String b EmptyString)) = Some (16 * hexValue a + hexValue b).
Proof.
  intros Ha Hb. unfold parseInt16. cbn [hexRun]. rewrite Ha, Hb.
  reflexivity.
Qed.

Lemma channels_valid hex :
  isValidHexColor hex = true ->
  match channelValues (fullHexOf hex) with
  | (r, g, b) =>
    channels (fullHexOf hex) = (Some r, Some g, Some b) /\
    inByte r /\ inByte g /\ inByte b
  end.
Proof.
  intros H. apply isValidHexColor_spec in H as (body & Hhex & Hlen & Hd).
  assert (Hs : stripHash hex = body).
  { destruct Hhex as [->| ->]; [now apply stripHash_digits|reflexivity]. }
  unfold fullHexOf. rewrite Hs.
  destruct Hlen as [Hlen|Hlen].
  - rewrite Hlen. cbn [Nat.eqb].
    destruct (length3 _ Hlen) as (a & b & c & ->).
    cbn [allChars] in Hd.
    repeat (apply andb_true_iff in Hd as (? & Hd)).
    cbn [doubled channelValues]. unfold channels. cbn [substring].
    rewrite !parseInt16_pair by assumption.
    pose proof (hexValue_range a ltac:(assumption)).
    pose proof (hexValue_range b ltac:(assumption)).
    pose proof (hexValue_range c ltac:(assumption)). unfold inByte. repeat split; lia.
  - rewrite Hlen. cbn [Nat.eqb].
    destruct (length6 _ Hlen) as (a & b & c & d & e & f & ->).
    cbn [allChars] in Hd.
    repeat (apply andb_true_iff in Hd as (? & Hd)).
    cbn [channelValues]. unfold channels. cbn [substring].
    rewrite !parseInt16_pair by assumption.
    pose proof (hexValue_range a ltac:(assumption)).
    pose proof (hexValue_range b ltac:(assumption)).
    pose proof (hexValue_range c ltac:(assumption)).
    pose proof (hexValue_range d ltac:(assumption)).
    pose proof (hexValue_range e ltac:(assumption)).
    pose proof (hexValue_range f ltac:(assumption)).
    unfold inByte. repeat split; lia.
Qed.

(** the doubled form of a valid three-digit colour is a valid colour,
    and it is its own full form *)
Lemma doubled_valid hex :
  isValidHexColor hex = true -> String.length (stripHash hex) = 3%nat ->
  isValidHexColor (doubled (stripHash hex)) = true /\
  fullHexOf (doubled (stripHash hex)) = fullHexOf hex.
Proof.
  intros H Hlen. apply isValidHexColor_spec in H as (body & Hhex & _ & Hd).
  assert (Hs : stripHash hex = body).
  { destruct Hhex as [->| ->]; [now apply stripHash_digits|reflexivity]. }
  unfold fullHexOf. rewrite Hs in *. rewrite Hlen. cbn [Nat.eqb].
  destruct (length3 _ Hlen) as (a & b & c & ->).
  cbn [allChars] in Hd.
  repeat (apply andb_true_iff in Hd as (? & Hd)).
  assert (Hdd : allChars isHexDigit
                  (doubled (String a (String b (String c EmptyString)))) = true).
  { cbn [doubled allChars]. now repeat (apply andb_true_iff; split). }
  rewrite (stripHash_digits _ Hdd). split; [|reflexivity].
  apply isValidHexColor_spec. eexists. split; [left; reflexivity|]. split; [|exact Hdd].
  right. reflexivity.
Qed.

(** X2. For a valid colour in the three-digit form, [hexToRgba] gives
    what it gives for the six-digit form in which every digit is
    doubled, with or without the hash, for every alpha. *)
Theorem hexToRgba_shorthand (numberToString : Number -> string)
  (hex : string) (alpha : Number) :
  isValidHexColor hex = true -> String.length (stripHash hex) = 3%nat ->
  hexToRgba numberToString hex alpha
  = hexToRgba numberToString (doubled (stripHash hex)) alpha.
Proof.
  intros H Hlen. destruct (doubled_valid hex H Hlen) as (Hv & Hf).
  unfold hexToRgba. now rewrite H, Hv, Hf.
Qed.

Lemma hexToRgba_shorthand_witness :
  hexToRgba (fun _ => "0.7") "#0fA" (ofZ 1) = hexToRgba (fun _ => "0.7") "00ffAA" (ofZ 1).
Proof.
  apply (hexToRgba_shorthand (fun _ => "0.7") "#0fA" (ofZ 1)); reflexivity.
Defined.

(** *** The alpha channel stays between 0 and 1 *)

Lemma SFcompare_antisym x y :
  SpecFloat.SFcompare y x = option_map CompOpp (SpecFloat.SFcompare x y).
Proof.
  destruct x as [s1|s1| |s1 m1 e1], y as [s2|s2| |s2 m2 e2]; cbn;
    try reflexivity;
    try (destruct s1; reflexivity); try (destruct s2; reflexivity);
    try (destruct s1, s2; reflexivity).
  destruct s1, s2; try reflexivity; f_equal;
    rewrite (Z.compare_antisym e1 e2); destruct (e1 ?= e2); cbn; try reflexivity.
  - f_equal. rewrite Pos.compare_cont_antisym. reflexivity.
  - rewrite Pos.compare_cont_antisym. reflexivity.
Qed.

Lemma ltb_leb x y : PrimFloat.ltb x y = true -> PrimFloat.leb x y = true.
Proof.
  rewrite FloatAxioms.ltb_spec, FloatAxioms.leb_spec.
  unfold SpecFloat.SFltb, SpecFloat.SFleb.
  destruct (SpecFloat.SFcompare (FloatOps.Prim2SF x) (FloatOps.Prim2SF y)) as [[]|]; auto.
Qed.

Lemma is_nan_compare x y :
  PrimFloat.is_nan x = false -> PrimFloat.is_nan y = false ->
  exists c, SpecFloat.SFcompare (FloatOps.Prim2SF x) (FloatOps.Prim2SF y) = Some c.
Proof.
  unfold PrimFloat.is_nan. rewrite !FloatAxioms.eqb_spec. unfold SpecFloat.SFeqb.
  destruct (FloatOps.Prim2SF x), (FloatOps.Prim2SF y); cbn; intros;
    try discriminate; eauto.
Qed.

(** of two numbers the second of which is not smaller, the first is
    smaller or equal *)
Lemma not_ltb_leb x y :
  PrimFloat.is_nan x = false -> PrimFloat.is_nan y = false ->
  PrimFloat.ltb y x = false -> PrimFloat.leb x y = true.
Proof.
  intros Hx Hy. rewrite FloatAxioms.ltb_spec, FloatAxioms.leb_spec.
  unfold SpecFloat.SFltb, SpecFloat.SFleb.
  destruct (is_nan_compare x y Hx Hy) as (c & Hc).
  rewrite (SFcompare_antisym (FloatOps.Prim2SF x) (FloatOps.Prim2SF y)), Hc.
  destruct c; cbn; auto.
Qed.

Lemma clamp_range alpha :
  PrimFloat.is_nan (clamp alpha) = true
  \/ (PrimFloat.leb (ofZ 0) (clamp alpha) = true
      /\ PrimFloat.leb (clamp alpha) (ofZ 1) = true).
Proof.
  unfold clamp, mathMin.
  change (PrimFloat.is_nan (ofZ 1)) with false. cbn [orb].
  destruct (PrimFloat.is_nan alpha) eqn:En; [left; reflexivity|].
  destruct (PrimFloat.ltb (ofZ 1) alpha) eqn:E1; [right; split; reflexivity|].
  assert (Hle : PrimFloat.leb alpha (ofZ 1) = true).
  { apply not_ltb_leb; auto. }
  assert (Hx : (if PrimFloat.ltb alpha (ofZ 1) then alpha
                else if PrimFloat.get_sign (ofZ 1) then ofZ 1 else alpha) = alpha).
  { destruct (PrimFloat.ltb alpha (ofZ 1)); reflexivity. }
  rewrite Hx. unfold mathMax.
  change (PrimFloat.is_nan (ofZ 0)) with false. rewrite En. cbn [orb].
  destruct (PrimFloat.ltb (ofZ 0) alpha) eqn:E3.
  - right. split; [now apply ltb_leb|exact Hle].
  - right. destruct (PrimFloat.ltb alpha (ofZ 0)); split; reflexivity.
Qed.

(** X3. For every string and every alpha, [hexToRgba] returns
    "rgba(r, g, b, a)" where r, g and b are integers from 0 to 255, all
    three 0 when the string is not a valid colour, and a is the alpha
    clamped: NaN, or a number from 0 to 1. *)
Theorem hexToRgba_components (numberToString : Number -> string)
  (hex : string) (alpha : Number) :
  exists r g b,
    inByte r /\ inByte g /\ inByte b /\
    (isValidHexColor hex = false -> r = 0 /\ g = 0 /\ b = 0) /\
    hexToRgba numberToString hex alpha
    = "rgba(" ++ JSString.ofNat (Z.to_nat r) ++ ", " ++ JSString.ofNat (Z.to_nat g)
        ++ ", " ++ JSString.ofNat (Z.to_nat b) ++ ", "
        ++ numberToString (clamp alpha) ++ ")" /\
    (PrimFloat.is_nan (clamp alpha) = true
     \/ (PrimFloat.leb (ofZ 0) (clamp alpha) = true
         /\ PrimFloat.leb (clamp alpha) (ofZ 1) = true)).
Proof.
  destruct (isValidHexColor hex) eqn:Hv.
  - pose proof (channels_valid hex Hv) as Hc.
    destruct (channelValues (fullHexOf hex)) as [[r g] b].
    destruct Hc as (Hc & Hr & Hg & Hb).
    exists r, g, b. repeat (split; [assumption|]).
    split; [discriminate|]. split; [|apply clamp_range].
    unfold hexToRgba. rewrite Hv, Hc. reflexivity.
  - exists 0, 0, 0. unfold inByte. do 3 (split; [lia|]).
    split; [auto|]. split; [|apply clamp_range].
    unfold hexToRgba. rewrite Hv. reflexivity.
Qed.

(** *** darkenColor at the percentage the theme uses *)

Lemma hexChar_digit v : 0 <= v <= 15 -> isHexDigit (hexChar v) = true.
Proof.
  intros H.
  assert (Hv : v = 0 \/ v = 1 \/ v = 2 \/ v = 3 \/ v = 4 \/ v = 5 \/ v = 6 \/ v = 7
               \/ v = 8 \/ v = 9 \/ v = 10 \/ v = 11 \/ v = 12 \/ v = 13 \/ v = 14
               \/ v = 15) by lia.
  repeat destruct Hv as [->|Hv]; try reflexivity. subst. reflexivity.
Qed.

Lemma hexPair_digits n : inByte n -> allChars isHexDigit (hexPair n) = true.
Proof.
  unfold inByte, hexPair. intros H. cbn [allChars].
  rewrite !hexChar_digit; [reflexivity| |];
    Z.to_euclidean_division_equations; lia.
Qed.

Lemma in_bytes n : inByte n -> In n bytes.
Proof.
  unfold inByte, bytes. intros H. apply in_map_iff. exists (Z.to_nat n).
  split; [lia|]. apply in_seq. lia.
Qed.

(** every byte, darkened by 10 per cent, is its nine tenths rounded
    down: the rounding of the doubles involved does not show *)
Lemma darkenChannel_ten_checked :
  forallb (fun r =>
             String.eqb (padStart2 (toString16 (darkenChannel (Some r) (ofZ 10))))
                        (hexPair (9 * r / 10)))
          bytes = true.
Proof. vm_compute. reflexivity. Qed.

Lemma darkenChannel_ten r :
  inByte r ->
  padStart2 (toString16 (darkenChannel (Some r) (ofZ 10))) = hexPair (9 * r / 10).
Proof.
  intros H. apply String.eqb_eq.
  exact (proj1 (forallb_forall _ _) darkenChannel_ten_checked r (in_bytes r H)).
Qed.

(** X4. At 10 per cent, the percentage the theme uses for the hover
    colour, [darkenColor] maps a valid colour to the hash followed by
    six hexadecimal digits: every channel is nine tenths of the original
    one, rounded down (the rounding of the doubles never shows), so the
    result is again a valid colour. *)
Theorem darkenColor_hover (hex : string) :
  isValidHexColor hex = true ->
  match channelValues (fullHexOf hex) with
  | (r, g, b) =>
    darkenColor hex (ofZ 10)
    = "#" ++ hexPair (9 * r / 10) ++ hexPair (9 * g / 10) ++ hexPair (9 * b / 10)
  end /\
  isValidHexColor (darkenColor hex (ofZ 10)) = true.
Proof.
  intros Hv. pose proof (channels_valid hex Hv) as Hc.
  destruct (channelValues (fullHexOf hex)) as [[r g] b].
  destruct Hc as (Hc & Hr & Hg & Hb).
  assert (Heq : darkenColor hex (ofZ 10)
                = "#" ++ hexPair (9 * r / 10) ++ hexPair (9 * g / 10)
                      ++ hexPair (9 * b / 10)).
  { unfold darkenColor. rewrite Hv, Hc. cbn [negb].
    now rewrite !darkenChannel_ten by assumption. }
  split; [exact Heq|]. rewrite Heq.
  apply isValidHexColor_spec.
  exists (hexPair (9 * r / 10) ++ hexPair (9 * g / 10) ++ hexPair (9 * b / 10)).
  split; [right; reflexivity|]. split; [right; reflexivity|].
  assert (H9 : forall n, inByte n -> inByte (9 * n / 10)).
  { unfold inByte. intros n Hn. Z.to_euclidean_division_equations; lia. }
  pose proof (hexPair_digits _ (H9 r Hr)) as Dr.
  pose proof (hexPair_digits _ (H9 g Hg)) as Dg.
  pose proof (hexPair_digits _ (H9 b Hb)) as Db.
  unfold hexPair in *. cbn [allChars append] in *.
  apply andb_true_iff in Dr as (D1 & D2). apply andb_true_iff in D2 as (D2 & _).
  apply andb_true_iff in Dg as (D3 & D4). apply andb_true_iff in D4 as (D4 & _).
  apply andb_true_iff in Db as (D5 & D6). apply andb_true_iff in D6 as (D6 & _).
  now rewrite D1, D2, D3, D4, D5, D6.
Qed.

Lemma darkenColor_hover_witness :
  darkenColor "#6366F1" (ofZ 10) = "#595bd8"
  /\ isValidHexColor (darkenColor "#6366F1" (ofZ 10)) = true.
Proof.
  exact (darkenColor_hover "#6366F1" eq_refl).
Defined.

End ColorFacts.

(** ** UploaderPage: connecting and the test upload *)

Module UploaderPageFacts.
Import Uploader Observe UploaderObserve UploaderPage UploaderPageObserve.

Ltac run_monad :=
  unfold bind, update, await, ret, raise, ok, throw; cbv beta iota.

Lemma nonEmpty_spec (t : string) : t <> EmptyString -> nonEmpty t = true.
Proof. destruct t; [congruence|reflexivity]. Qed.

(** the fetch, from the state in which it is started *)
Lemma tryFetchPages_failed net token p msg :
  fetchAnswer net = inr msg ->
  exists p1, tryFetchPages net token p = (p1, inr msg) /\
             effects (run p1) = effects (run p) /\
             notifications (run p1) = notifications (run p) /\
             isLoading p1 = isLoading p.
Proof.
  unfold fetchAnswer, tryFetchPages. run_monad.
  destruct (fetchAccounts net) as [[[m|] data]|m0]; cbn [acc_error acc_data];
    cbv beta iota.
  - intros [= <-]. eauto.
  - destruct (setItemToken net) as [[]|m1]; cbv beta iota.
    + destruct (setItemPages net) as [[]|m2]; cbv beta iota; [discriminate|].
      intros [= <-]. eexists. split; [reflexivity|]. auto.
    + intros [= <-]. eexists. split; [reflexivity|]. auto.
  - intros [= <-]. eauto.
Qed.

Lemma tryFetchPages_done net token p l :
  fetchAnswer net = inl l ->
  exists p1, tryFetchPages net token p = (p1, inl tt) /\
             effects (run p1) = effects (run p) /\
             accessToken (run p1) = accessToken (run p) /\
             pages (run p1) = l /\
             storedToken p1 = Some token /\ storedPages p1 = Some l /\
             isLoading p1 = isLoading p /\
             match l with
             | first :: _ =>
               activePage (run p1) = Some first /\ loginError p1 = loginError p
             | [] =>
               activePage (run p1) = activePage (run p) /\
               loginError p1 = Some noPagesFound
             end.
Proof.
  unfold fetchAnswer, tryFetchPages. run_monad.
  destruct (fetchAccounts net) as [[[m|] data]|m0]; cbn [acc_error acc_data];
    cbv beta iota; try discriminate.
  destruct (setItemToken net) as [[]|m1]; cbv beta iota; try discriminate.
  destruct (setItemPages net) as [[]|m2]; cbv beta iota; try discriminate.
  intros [= <-].
  destruct data as [[|first rest]|]; cbv beta iota;
    eexists; (split; [reflexivity|]); cbn; auto 10.
Qed.

Lemma fetchPagesFailed_loggedOut msg p :
  loggedOut (fetchPagesFailed msg p) /\
  isLoading (fetchPagesFailed msg p) = isLoading p /\
  logouts (effects (run (fetchPagesFailed msg p))) = S (logouts (effects (run p))) /\
  hd_error (notifications (run (fetchPagesFailed msg p)))
  = Some ("You have been logged out.", info).
Proof.
  unfold fetchPagesFailed, loggedOut.
  destruct (isAuthFailure msg); cbn; auto 10.
Qed.

(** X5. On UploaderPage, whenever connecting fails, whether the request
    throws, Facebook reports an error or a write to localStorage throws,
    and whatever the message, [handleFetchPages] ends logged out: token,
    pages and active page are cleared in the state and removed from
    localStorage, [handleLogout] has run once, the last notification is
    "You have been logged out.", the loading flag is down, and the login
    error that the handler had set is cleared again, so the login form
    shows none. *)
Theorem fetch_failure_logs_out (net : Network) (p : Page) (msg : string) :
  accessToken (run p) <> EmptyString ->
  fetchAnswer net = inr msg ->
  loggedOut (handleFetchPages net p) /\
  isLoading (handleFetchPages net p) = false /\
  logouts (effects (run (handleFetchPages net p))) = S (logouts (effects (run p))) /\
  hd_error (notifications (run (handleFetchPages net p)))
  = Some ("You have been logged out.", info).
Proof.
  intros Ht Hf. unfold handleFetchPages. rewrite (nonEmpty_spec _ Ht). cbn [negb].
  destruct (tryFetchPages_failed net (accessToken (run p))
              (setLoginError None (setIsLoading true p)) msg Hf)
    as (p1 & -> & He & Hn & Hl).
  destruct (fetchPagesFailed_loggedOut msg p1) as (Hout & _ & Hlog & Hnote).
  split; [exact Hout|]. split; [reflexivity|].
  split; [|exact Hnote].
  cbn [setIsLoading run]. rewrite Hlog, He. reflexivity.
Qed.

Lemma fetch_failure_logs_out_witness :
  loggedOut (handleFetchPages PageSamples.U.offline PageSamples.U.returning).
Proof.
  refine (proj1 (fetch_failure_logs_out PageSamples.U.offline PageSamples.U.returning
                   "Failed to fetch" _ _)).
  - discriminate.
  - reflexivity.
Defined.

(** X6. On UploaderPage, when connecting goes through, the token is
    kept, the fetched pages are the pages of the state, token and pages
    are in localStorage, the loading flag is down and nobody was logged
    out.  With at least one page the first one is active, no login error
    is shown, and a reload restores the session: the state mounted from
    localStorage, after the effect on token and pages, has the same
    token, pages and active page.  Without pages the login error is
    "No pages found for this access token." and the active page is as it
    was. *)
Theorem fetch_success_session (net : Network) (p : Page) (l : list FBPage) :
  accessToken (run p) <> EmptyString ->
  fetchAnswer net = inl l ->
  accessToken (run (handleFetchPages net p)) = accessToken (run p) /\
  pages (run (handleFetchPages net p)) = l /\
  storedToken (handleFetchPages net p) = Some (accessToken (run p)) /\
  storedPages (handleFetchPages net p) = Some l /\
  isLoading (handleFetchPages net p) = false /\
  effects (run (handleFetchPages net p)) = effects (run p) /\
  match l with
  | first :: _ =>
    activePage (run (handleFetchPages net p)) = Some first /\
    loginError (handleFetchPages net p) = None /\
    forall net',
      sameSession (handleFetchPages net p)
        (pagesEffect net' (mount (storedToken (handleFetchPages net p))
                                 (storedPages (handleFetchPages net p))))
  | [] =>
    activePage (run (handleFetchPages net p)) = activePage (run p) /\
    loginError (handleFetchPages net p) = Some noPagesFound
  end.
Proof.
  intros Ht Hf. unfold handleFetchPages. rewrite (nonEmpty_spec _ Ht). cbn [negb].
  destruct (tryFetchPages_done net (accessToken (run p))
              (setLoginError None (setIsLoading true p)) l Hf)
    as (p1 & -> & He & Ha & Hp & Hst & Hsp & Hl & Hcase).
  cbn [setIsLoading run storedToken storedPages isLoading loginError].
  cbn [setIsLoading setLoginError run] in Ha.
  repeat (split; [assumption || reflexivity|]).
  destruct l as [|first rest]; [exact Hcase|].
  destruct Hcase as (Hact & Herr). split; [exact Hact|]. split; [exact Herr|].
  intros net'. rewrite Hst, Hsp. unfold sameSession, pagesEffect, mount. cbn.
  rewrite Ha, Hp, Hact. auto.
Qed.

Lemma fetch_success_session_witness :
  pages (run (handleFetchPages PageSamples.U.online PageSamples.U.returning))
  = [Samples.page; Samples.otherPage].
Proof.
  refine (proj1 (proj2 (fetch_success_session PageSamples.U.online PageSamples.U.returning
                          [Samples.page; Samples.otherPage] _ _))).
  - discriminate.
  - reflexivity.
Defined.

(** *** The test upload *)

Lemma errorEntries_app l1 l2 :
  errorEntries (l1 ++ l2) = (errorEntries l1 ++ errorEntries l2)%list.
Proof. apply filter_app. Qed.

Lemma errorEntries_none f (dl : list SchedulingLogEntry) :
  Forall (fun e => status e <> error /\ (file e = EmptyString \/ file e = f)) dl ->
  errorEntries dl = [].
Proof.
  intros H. induction H as [|e dl (He & _) _ IH]; [reflexivity|].
  unfold errorEntries in *. cbn [filter]. destruct (status e); congruence.
Qed.

(** X7. A test upload on an idle page with a file and an active page
    calls the collaborators for the first file only, leaves the
    scheduling flag alone and ends with the testing flag down.  When it
    goes through, the log has a success entry for the file; when it
    fails with a message of a failed login the user is logged out, once,
    and no error entry is added to the log; when it fails otherwise the
    newest log entry is the error "Test failed: ..." and nobody is
    logged out. *)
Theorem test_upload_outcomes (w : World) (cfg : SchedulerSettings) (p : Page)
  (first : File) (rest : list File) (page : FBPage) :
  isScheduling (run p) = false -> isTesting p = false ->
  files cfg = first :: rest -> activePage (run p) = Some page ->
  let p' := handleTestUpload w cfg p in
  isTesting p' = false /\ isScheduling (run p') = false /\
  attempted O (effects (run p')) = true /\
  (forall j, j <> O -> attempted j (effects (run p')) = attempted j (effects (run p))) /\
  match uploadAnswer w O with
  | inl _ =>
    logouts (effects (run p')) = logouts (effects (run p)) /\
    exists m, In (mkEntry (file_name first) success m) (schedulingLog (run p'))
  | inr msg =>
    if isAuthFailure msg then
      loggedOut p' /\
      logouts (effects (run p')) = S (logouts (effects (run p))) /\
      errorEntries (schedulingLog (run p')) = errorEntries (schedulingLog (run p))
    else
      logouts (effects (run p')) = logouts (effects (run p)) /\
      hd_error (schedulingLog (run p'))
      = Some (mkEntry (file_name first) error ("Test failed: " ++ msg))
  end.
Proof.
  intros Hs Ht Hfiles Hpage p'. subst p'.
  unfold handleTestUpload. rewrite Hs, Ht, Hfiles. cbn [orb].
  cbn [setIsTesting onRun run].
  set (s0 := addLog EmptyString info
               ("Starting test upload of " ++ file_name first ++ "...") (run p)).
  change (activePage s0) with (activePage (run p)). rewrite Hpage.
  destruct (UploaderFacts.uploadPost_spec w cfg O first None page s0)
    as (de & dl & (He & Hl & Hde & Hdl & Hsch & _) & Hr & Hin & Hok).
  destruct (uploadPost w cfg O first None (Some page) s0) as [s1 r].
  cbn [fst snd] in *. subst r.
  assert (Hatt : attempted O (effects s1) = true).
  { rewrite He, UploaderFacts.attempted_app,
      (UploaderFacts.attempted_enhance O de Hin). reflexivity. }
  assert (Hoth : forall j, j <> O -> attempted j (effects s1) = attempted j (effects (run p))).
  { intros j Hj. rewrite He, UploaderFacts.attempted_app,
      (UploaderFacts.attempted_other O j de Hde Hj). reflexivity. }
  assert (Hlog : logouts (effects s1) = logouts (effects (run p))).
  { rewrite He, UploaderFacts.logouts_app, (UploaderFacts.logouts_none O de Hde).
    reflexivity. }
  assert (Hsch' : isScheduling s1 = false) by (rewrite Hsch; exact Hs).
  destruct (uploadAnswer w O) as [[]|msg]; [|destruct (isAuthFailure msg)];
    cbn [setIsTesting onRun run isTesting addNotification isScheduling effects
         schedulingLog handleLogout Uploader.handleLogout addLog setSchedulingLog];
    (split; [reflexivity|]); (split; [exact Hsch'|]).
  - split; [exact Hatt|]. split; [exact Hoth|]. split; [exact Hlog|].
    destruct (Hok eq_refl) as (m & Hm). exists m. rewrite Hl.
    apply in_or_app. now left.
  - split; [exact Hatt|]. split; [exact Hoth|]. split; [|split].
    + unfold loggedOut. cbn. auto 10.
    + unfold logouts in *. cbn [filter isLogout List.length]. now rewrite Hlog.
    + rewrite Hl, errorEntries_app, (errorEntries_none _ _ Hdl). reflexivity.
  - split; [exact Hatt|]. split; [exact Hoth|]. split; [exact Hlog|reflexivity].
Qed.

Lemma test_upload_outcomes_witness :
  isTesting (handleTestUpload (Samples.U.calm 0) (Samples.U.hourly false)
               PageSamples.U.ready) = false.
Proof.
  refine (proj1 (test_upload_outcomes (Samples.U.calm 0) (Samples.U.hourly false)
                   PageSamples.U.ready (mkFile "a.jpg") _ Samples.page _ _ _ _));
    reflexivity.
Defined.

(** *** Choosing a page *)




End UploaderPageFacts.

(** ** CrossPostPage: connecting, the source posts, the selection *)

Module CrossPostPageFacts.
Import CrossPost Observe CrossPostObserve CrossPostPage CrossPostPageObserve.

Ltac run_page_monad :=
  unfold bind, update, await, ret, raise, ok, throw; cbv beta iota.

Lemma xp_tryFetchPages_failed net token p msg :
  fetchAnswer net = inr msg ->
  exists p1, tryFetchPages net token p = (p1, inr msg) /\
             effects (run p1) = effects (run p) /\
             accessToken (run p1) = accessToken (run p) /\
             isLoading p1 = isLoading p.
Proof.
  unfold fetchAnswer, tryFetchPages. run_page_monad.
  destruct (fetchAccounts net) as [[[m|] data]|m0]; cbn [acc_error acc_data];
    cbv beta iota.
  - intros [= <-]. eauto.
  - destruct (setItemToken net) as [[]|m1]; cbv beta iota.
    + destruct (setItemPages net) as [[]|m2]; cbv beta iota; [discriminate|].
      intros [= <-]. eexists. split; [reflexivity|]. auto.
    + intros [= <-]. eexists. split; [reflexivity|]. auto.
  - intros [= <-]. eauto.
Qed.

Lemma xp_tryFetchPages_done net token p l :
  fetchAnswer net = inl l ->
  exists p1, tryFetchPages net token p = (p1, inl tt) /\
             effects (run p1) = effects (run p) /\
             sourcePosts (run p1) = sourcePosts (run p) /\
             selectedPostIds (run p1) = selectedPostIds (run p) /\
             isScheduling (run p1) = isScheduling (run p) /\
             pages (run p1) = l /\
             match l with
             | first :: _ =>
               sourcePage (run p1) = Some first /\
               destinationPage (run p1) = secondOrFirst l
             | [] => loginError p1 = Some noPagesFound
             end.
Proof.
  unfold fetchAnswer, tryFetchPages. run_page_monad.
  destruct (fetchAccounts net) as [[[m|] data]|m0]; cbn [acc_error acc_data];
    cbv beta iota; try discriminate.
  destruct (setItemToken net) as [[]|m1]; cbv beta iota; try discriminate.
  destruct (setItemPages net) as [[]|m2]; cbv beta iota; try discriminate.
  intros [= <-].
  destruct data as [[|first rest]|]; cbv beta iota;
    eexists; (split; [reflexivity|]); cbn; auto 10.
Qed.

Lemma token_cases (t : string) :
  t <> EmptyString -> exists c t', t = String c t'.
Proof. destruct t; [congruence|eauto]. Qed.

(** X9. On CrossPostPage a failed connect logs the user out only when
    the message is that of a failed login; any other failure keeps the
    token, calls no [handleLogout] and leaves the login error
    "Failed to fetch pages: ... ." in the state.  The loading flag is
    down either way. *)
Theorem crosspost_fetch_failure (net : Network) (p : Page) (msg : string) :
  accessToken (run p) <> EmptyString ->
  fetchAnswer net = inr msg ->
  isLoading (handleFetchPages net p) = false /\
  if isAuthFailure msg then
    loggedOut (handleFetchPages net p) /\
    logouts (effects (run (handleFetchPages net p))) = S (logouts (effects (run p)))
  else
    accessToken (run (handleFetchPages net p)) = accessToken (run p) /\
    effects (run (handleFetchPages net p)) = effects (run p) /\
    loginError (handleFetchPages net p) = Some ("Failed to fetch pages: " ++ msg ++ ".").
Proof.
  intros Ht Hf. unfold handleFetchPages.
  destruct (token_cases _ Ht) as (c & t' & Htok). rewrite Htok.
  destruct (xp_tryFetchPages_failed net (String c t')
              (setLoginError None (setIsLoading true p)) msg Hf)
    as (p1 & -> & He & Ha & Hl).
  split; [reflexivity|].
  unfold fetchPagesFailed. destruct (isAuthFailure msg).
  - split; [unfold loggedOut; cbn; auto 10|].
    cbn. unfold logouts. cbn. now rewrite He.
  - cbn. cbn in Ha, He. rewrite Ha, He, Htok. auto.
Qed.

Lemma crosspost_fetch_failure_witness :
  accessToken (run (handleFetchPages PageSamples.X.down PageSamples.X.connected))
  = "user-token".
Proof.
  refine (proj1 (proj2 (crosspost_fetch_failure PageSamples.X.down
                          PageSamples.X.connected "Failed to fetch" _ _))).
  - discriminate.
  - reflexivity.
Defined.

(** X10. When connecting returns a single page, it becomes the source
    and the destination, and pressing Start then only gives the
    notification that asks for a different destination: no run starts,
    whatever is selected. *)
Theorem single_page_cannot_crosspost (net : Network) (p : Page) (only : FBPage)
  (w : World) (cfg : CrossPostSchedulerSettings) :
  accessToken (run p) <> EmptyString ->
  fetchAnswer net = inl [only] ->
  isScheduling (run p) = false ->
  sourcePage (run (handleFetchPages net p)) = Some only /\
  destinationPage (run (handleFetchPages net p)) = Some only /\
  handleSchedulingProcess w cfg (run (handleFetchPages net p))
  = Returned (refused (run (handleFetchPages net p))).
Proof.
  intros Ht Hf Hs. unfold handleFetchPages.
  destruct (token_cases _ Ht) as (c & t' & Htok). rewrite Htok.
  destruct (xp_tryFetchPages_done net (String c t')
              (setLoginError None (setIsLoading true p)) [only] Hf)
    as (p1 & -> & He & Hsp & Hsel & Hsch & Hp & Hsrc & Hdst).
  cbn [setIsLoading run]. cbn [secondOrFirst] in Hdst.
  split; [exact Hsrc|]. split; [exact Hdst|].
  unfold handleSchedulingProcess. rewrite Hsch. cbn [setLoginError setIsLoading run].
  rewrite Hs, Hsrc, Hdst, String.eqb_refl.
  unfold refused. destruct (postsToSchedule (run p1)); reflexivity.
Qed.

Lemma single_page_cannot_crosspost_witness :
  handleSchedulingProcess Samples.X.calm Samples.X.hourly
    (run (handleFetchPages PageSamples.X.onePage PageSamples.X.connected))
  = Returned (refused (run (handleFetchPages PageSamples.X.onePage
                              PageSamples.X.connected))).
Proof.
  refine (proj2 (proj2 (single_page_cannot_crosspost PageSamples.X.onePage
                          PageSamples.X.connected Samples.page Samples.X.calm
                          Samples.X.hourly _ _ _))).
  - discriminate.
  - reflexivity.
  - reflexivity.
Defined.

(** *** The posts of the source page *)

Lemma nothing_selected (l : list ManagedPost) :
  filter (fun q => setHas (post_id q) []) l = [].
Proof. induction l as [|q l IH]; [reflexivity|exact IH]. Qed.

(** X11. Fetching the posts of the source page always ends with the
    fetching flag down and an empty selection, so that nothing is
    queued.  When it goes through, the posts and the link to the next
    page are those of the reply; when it fails, the posts that were
    loaded before are gone as well, there is no next page, and the user
    is logged out exactly when the message is that of a failed login. *)
Theorem refresh_clears_selection (net : Network) (p : Page) (source : FBPage) :
  sourcePage (run p) = Some source ->
  isFetchingPosts (handleFetchSourcePosts net p) = false /\
  selectedPostIds (run (handleFetchSourcePosts net p)) = [] /\
  postsToSchedule (run (handleFetchSourcePosts net p)) = [] /\
  match fetchPostsFromUrl net (postsUrl source) with
  | inl (posts, nextUrl) =>
    sourcePosts (run (handleFetchSourcePosts net p)) = posts /\
    nextPageUrl (handleFetchSourcePosts net p) = nextUrl /\
    effects (run (handleFetchSourcePosts net p)) = effects (run p)
  | inr msg =>
    sourcePosts (run (handleFetchSourcePosts net p)) = [] /\
    nextPageUrl (handleFetchSourcePosts net p) = None /\
    if isAuthFailure msg then loggedOut (handleFetchSourcePosts net p)
    else accessToken (run (handleFetchSourcePosts net p)) = accessToken (run p) /\
         effects (run (handleFetchSourcePosts net p)) = effects (run p)
  end.
Proof.
  intros Hsrc. unfold handleFetchSourcePosts. rewrite Hsrc.
  destruct (fetchPostsFromUrl net (postsUrl source)) as [[posts nextUrl]|msg].
  - cbn. unfold postsToSchedule. cbn. rewrite nothing_selected. auto 10.
  - destruct (isAuthFailure msg); cbn; unfold postsToSchedule, loggedOut; cbn;
      auto 12.
Qed.

Lemma refresh_clears_selection_witness :
  selectedPostIds (run (handleFetchSourcePosts PageSamples.X.down PageSamples.X.connected))
  = [].
Proof.
  refine (proj1 (proj2 (refresh_clears_selection PageSamples.X.down
                          PageSamples.X.connected Samples.page _))).
  reflexivity.
Defined.

(** X12. Loading more posts keeps the selection and the token and never
    logs out.  When it goes through, the new posts are appended to the
    loaded ones, the queue keeps its order and gains the new posts that
    are selected, and the link moves on; when it fails, the posts and
    the link are as before, so that it can be tried again. *)
Theorem load_more_appends (net : Network) (p : Page) (c : ascii) (url : string) :
  nextPageUrl p = Some (String c url) -> isFetchingMore p = false ->
  isFetchingMore (handleLoadMorePosts net p) = false /\
  selectedPostIds (run (handleLoadMorePosts net p)) = selectedPostIds (run p) /\
  effects (run (handleLoadMorePosts net p)) = effects (run p) /\
  accessToken (run (handleLoadMorePosts net p)) = accessToken (run p) /\
  match fetchPostsFromUrl net (String c url) with
  | inl (posts, nextUrl) =>
    sourcePosts (run (handleLoadMorePosts net p)) = (sourcePosts (run p) ++ posts)%list /\
    nextPageUrl (handleLoadMorePosts net p) = nextUrl /\
    postsToSchedule (run (handleLoadMorePosts net p))
    = (postsToSchedule (run p)
         ++ filter (fun q => setHas (post_id q) (selectedPostIds (run p))) posts)%list
  | inr msg =>
    sourcePosts (run (handleLoadMorePosts net p)) = sourcePosts (run p) /\
    nextPageUrl (handleLoadMorePosts net p) = Some (String c url)
  end.
Proof.
  intros Hnext Hmore. unfold handleLoadMorePosts. rewrite Hnext, Hmore.
  destruct (fetchPostsFromUrl net (String c url)) as [[posts nextUrl]|msg].
  - cbn. unfold postsToSchedule. cbn. rewrite filter_app. auto 10.
  - cbn. auto 10.
Qed.

Lemma load_more_appends_witness :
  sourcePosts (run (handleLoadMorePosts PageSamples.X.morePosts PageSamples.X.connected))
  = [Samples.X.post1; Samples.X.post2; Samples.X.post3; mkPost "77_4" None None].
Proof.
  refine (proj1 (proj2 (proj2 (proj2 (proj2
            (load_more_appends PageSamples.X.morePosts PageSamples.X.connected
               "h" "ttps://graph/next" _ _)))))); reflexivity.
Defined.

(** *** The selection *)

Lemma setHas_app k (a b : list string) : setHas k (a ++ b) = setHas k a || setHas k b.
Proof. apply existsb_app. Qed.

Lemma setHas_add k q (l : list string) :
  setHas k (setAdd q l) = String.eqb k q || setHas k l.
Proof.
  unfold setAdd. destruct (setHas q l) eqn:E.
  - destruct (String.eqb_spec k q) as [->|_]; [now rewrite E|reflexivity].
  - rewrite setHas_app. cbn. rewrite orb_false_r. apply orb_comm.
Qed.

Lemma setHas_delete k q (l : list string) :
  setHas k (setDelete q l) = negb (String.eqb k q) && setHas k l.
Proof.
  unfold setDelete, setHas. induction l as [|x l IH]; cbn.
  - now rewrite andb_false_r.
  - destruct (String.eqb_spec q x) as [->|Hqx]; cbn.
    + rewrite IH. destruct (String.eqb k x); reflexivity.
    + rewrite IH. destruct (String.eqb_spec k x) as [->|Hkx]; cbn.
      * destruct (String.eqb_spec x q) as [->|_]; [congruence|reflexivity].
      * reflexivity.
Qed.

Lemma setHas_In k (l : list string) : setHas k l = true <-> In k l.
Proof.
  unfold setHas. rewrite existsb_exists. split.
  - intros (x & Hin & Hx). apply String.eqb_eq in Hx. now subst.
  - intros Hin. exists k. split; [exact Hin|apply String.eqb_refl].
Qed.

Lemma setAdd_NoDup q (l : list string) : NoDup l -> NoDup (setAdd q l).
Proof.
  intros H. unfold setAdd. destruct (setHas q l) eqn:E; [exact H|].
  apply NoDup_app; [exact H|repeat constructor; auto|].
  intros x Hx [<-|[]]. apply setHas_In in Hx. congruence.
Qed.

(** X13. [handleSelectPost] flips the membership of the post in the
    selection and of no other; done twice it gives back a selection with
    the same members; it never makes the selection hold a post twice,
    and it leaves the loaded posts alone. *)
Theorem select_post_toggles (postId : string) (p : Page) :
  (forall k,
     setHas k (selectedPostIds (run (handleSelectPost postId p)))
     = if String.eqb k postId then negb (setHas postId (selectedPostIds (run p)))
       else setHas k (selectedPostIds (run p))) /\
  (forall k,
     setHas k (selectedPostIds (run (handleSelectPost postId (handleSelectPost postId p))))
     = setHas k (selectedPostIds (run p))) /\
  (NoDup (selectedPostIds (run p)) ->
   NoDup (selectedPostIds (run (handleSelectPost postId p)))) /\
  sourcePosts (run (handleSelectPost postId p)) = sourcePosts (run p).
Proof.
  assert (H1 : forall q k,
            setHas k (selectedPostIds (run (handleSelectPost postId q)))
            = if String.eqb k postId then negb (setHas postId (selectedPostIds (run q)))
              else setHas k (selectedPostIds (run q))).
  { intros q k. unfold handleSelectPost. cbn [run onRun setSelectedPostIds selectedPostIds].
    destruct (setHas postId (selectedPostIds (run q))) eqn:E.
    - rewrite setHas_delete. destruct (String.eqb_spec k postId) as [->|_]; reflexivity.
    - rewrite setHas_add. destruct (String.eqb_spec k postId) as [->|_]; reflexivity. }
  split; [apply H1|]. split; [|split; [|reflexivity]].
  - intros k. rewrite H1. destruct (String.eqb_spec k postId) as [->|Hne].
    + rewrite H1, String.eqb_refl. apply negb_involutive.
    + rewrite H1. destruct (String.eqb_spec k postId); [contradiction|reflexivity].
  - intros Hnd. unfold handleSelectPost. cbn [run onRun setSelectedPostIds selectedPostIds].
    destruct (setHas postId (selectedPostIds (run p))).
    + apply NoDup_filter. exact Hnd.
    + apply setAdd_NoDup. exact Hnd.
Qed.

(** *** The history after a reload *)

Lemma setHas_setOf_from k (l : list string) : forall acc,
  setHas k (fold_left (fun set x => setAdd x set) l acc) = setHas k acc || setHas k l.
Proof.
  induction l as [|x l IH]; intros acc; cbn [fold_left].
  - cbn. now rewrite orb_false_r.
  - rewrite IH, setHas_add. cbn [setHas existsb].
    destruct (String.eqb k x), (setHas k acc); reflexivity.
Qed.

Lemma setHas_setOf k (l : list string) : setHas k (setOf l) = setHas k l.
Proof. unfold setOf. now rewrite setHas_setOf_from. Qed.

(** what [uploadCrossPost] does to the history *)
Lemma uploadCrossPost_history w i q t destination s :
  snd (uploadCrossPost w i q t (Some destination) s) = publishAnswer w i /\
  (forall msg, publishAnswer w i = inr msg ->
     crossPostHistory (fst (uploadCrossPost w i q t (Some destination) s))
     = crossPostHistory s /\
     storedHistory (fst (uploadCrossPost w i q t (Some destination) s))
     = storedHistory s) /\
  (publishAnswer w i = inl tt ->
     crossPostHistory (fst (uploadCrossPost w i q t (Some destination) s))
     = setAdd (historyKey q destination) (crossPostHistory s) /\
     storedHistory (fst (uploadCrossPost w i q t (Some destination) s))
     = if setItemSucceeds w i
       then Some (setAdd (historyKey q destination) (crossPostHistory s))
       else storedHistory s).
Proof.
  unfold uploadCrossPost, publishAnswer, request, log.
  unfold bind, update, await, ret, raise, ok, throw.
  cbv beta iota.
  destruct (generateCrossPostCaption w i) as [caption|msg]; cbv beta iota.
  2: { cbn. repeat split; auto; discriminate. }
  destruct (manipulateImage w i q); cbv beta iota;
    (destruct (postPhoto w i) as [[[m|] rid]|msg]; cbv beta iota;
     cbn [resp_error resp_id];
     [cbn; repeat split; auto; discriminate
     | | cbn; repeat split; auto; discriminate]);
    (destruct t as [t|]; cbv beta iota;
     (destruct (postFeed w i) as [[[m|] pid]|msg]; cbv beta iota;
      cbn [resp_error resp_id];
      [cbn; repeat split; auto; discriminate
      | | cbn; repeat split; auto; discriminate]));
    (cbn [fst snd]; split; [reflexivity|]; split; [discriminate|]; intros _;
     unfold recordHistory;
     cbn [crossPostHistory storedHistory setHistory addLog setSchedulingLog];
     split; reflexivity).
Qed.

(** X14. When [uploadCrossPost] goes through and the write to
    localStorage does, the history read back after a reload has the
    same members as the history in the state, the key of the post and
    the destination among them. *)
Theorem crosspost_remembered_after_reload (w : World) (i : nat) (q : ManagedPost)
  (t : option Date) (destination : FBPage) (s : State) :
  publishAnswer w i = inl tt -> setItemSucceeds w i = true ->
  sameElements
    (crossPostHistory
       (loadHistory (reloaded (fst (uploadCrossPost w i q t (Some destination) s)))))
    (crossPostHistory (fst (uploadCrossPost w i q t (Some destination) s))) /\
  setHas (historyKey q destination)
    (crossPostHistory
       (loadHistory (reloaded (fst (uploadCrossPost w i q t (Some destination) s)))))
  = true.
Proof.
  intros Hok Hset.
  destruct (uploadCrossPost_history w i q t destination s) as (_ & _ & Hh).
  destruct (Hh Hok) as (Hc & Hst). rewrite Hset in Hst.
  assert (Hsame : sameElements
            (crossPostHistory
               (loadHistory (reloaded (fst (uploadCrossPost w i q t (Some destination) s)))))
            (crossPostHistory (fst (uploadCrossPost w i q t (Some destination) s)))).
  { intros k. unfold loadHistory, reloaded.
    cbn [storedHistory setHistory crossPostHistory]. rewrite Hst.
    cbn [storedHistory setHistory crossPostHistory].
    now rewrite setHas_setOf, Hc. }
  split; [exact Hsame|].
  rewrite Hsame, Hc, setHas_add, String.eqb_refl. reflexivity.
Qed.

Lemma crosspost_remembered_after_reload_witness :
  setHas "77_1|2002"
    (crossPostHistory
       (loadHistory
          (reloaded (fst (uploadCrossPost Samples.X.calm O Samples.X.post1 None
                            (Some Samples.otherPage) Samples.X.idle)))))
  = true.
Proof.
  refine (proj2 (crosspost_remembered_after_reload Samples.X.calm O Samples.X.post1 None
                   Samples.otherPage Samples.X.idle _ _)); reflexivity.
Defined.

(** *** The history over a whole run *)

Lemma uiActions_history acts : forall s,
  crossPostHistory (uiActions acts s) = crossPostHistory s.
Proof.
  induction acts as [|a acts IH]; intros s; [reflexivity|].
  cbn [uiActions fold_left]. change (fold_left uiAction acts (uiAction s a))
    with (uiActions acts (uiAction s a)).
  rewrite IH. destruct a; reflexivity.
Qed.

Lemma pauseLoop_history presses : forall s s',
  pauseLoop presses s = inl s' \/ pauseLoop presses s = inr s' ->
  crossPostHistory s' = crossPostHistory s.
Proof.
  induction presses as [|acts presses IH]; intros s s' H; cbn [pauseLoop] in H.
  - destruct (isPaused s), H as [H|H]; inversion H; reflexivity.
  - destruct (isPaused s).
    + rewrite (IH _ _ H), uiActions_history. reflexivity.
    + destruct H as [H|H]; inversion H; reflexivity.
Qed.

Lemma publishAnswer_created w i : publishAnswer w i = inl tt -> postCreated w i.
Proof.
  unfold publishAnswer, postCreated.
  destruct (generateCrossPostCaption w i); [|discriminate].
  destruct (postPhoto w i) as [[[m|] rid]|]; cbn [resp_error]; try discriminate.
  destruct (postFeed w i) as [[[m|] pid]|]; cbn [resp_error]; try discriminate.
  intros _. eexists. split; reflexivity.
Qed.

Lemma step_history w cfg destination history total i q t s :
  historyStep (historyKey q destination) (publishAnswer w i = inl tt) s
    (stepState (processItem w cfg destination history total i q t s)).
Proof.
  unfold processItem, historyStep.
  destruct (cancelled s); [left; reflexivity|].
  destruct (pauseLoop (pausePresses w i) s) as [s1|s1] eqn:Ep.
  2: { left. exact (pauseLoop_history _ _ _ (or_intror Ep)). }
  pose proof (pauseLoop_history _ _ _ (or_introl Ep)) as H1.
  destruct (setHas (historyKey q destination) history); [left; exact H1|].
  set (t' := if t <? dispatchClock w i + 600000 then addDays t 1 else t).
  set (s2 := setSchedulingProgress (S i, total) s1).
  destruct (uploadCrossPost_history w i q (Some t') destination s2) as (Hr & Hfail & Hok).
  destruct (uploadCrossPost w i q (Some t') (Some destination) s2) as [s3 r].
  cbn [fst snd] in *. subst r.
  destruct (publishAnswer w i) as [[]|msg].
  - right. split; [reflexivity|]. cbn [stepState].
    rewrite uiActions_history. destruct (Hok eq_refl) as (-> & _).
    subst s2. cbn [crossPostHistory setSchedulingProgress]. now rewrite H1.
  - left. destruct (Hfail msg eq_refl) as (Hh & _).
    destruct (isAuthFailure msg);
      cbn [stepState finalState crossPostHistory CrossPost.handleLogout addNotification
           addLog setSchedulingLog];
      rewrite uiActions_history, Hh; exact H1.
Qed.

Lemma loop_history w cfg destination history total queue : forall i0 t s,
  (forall k, setHas k (crossPostHistory s) = true ->
             setHas k (crossPostHistory
                         (finalState (schedulingLoop w cfg destination history total
                                        i0 queue t s))) = true) /\
  (forall k, setHas k (crossPostHistory
                         (finalState (schedulingLoop w cfg destination history total
                                        i0 queue t s))) = true ->
             setHas k (crossPostHistory s) = true
             \/ exists j q, nth_error queue j = Some q /\
                            k = historyKey q destination /\
                            publishAnswer w (i0 + j) = inl tt).
Proof.
  induction queue as [|q0 queue IH]; intros i0 t s; [split; auto|].
  cbn [schedulingLoop].
  pose proof (step_history w cfg destination history total i0 q0 t s) as Hstep.
  assert (Hfwd : forall s', historyStep (historyKey q0 destination)
                              (publishAnswer w i0 = inl tt) s s' ->
            (forall k, setHas k (crossPostHistory s) = true ->
                       setHas k (crossPostHistory s') = true) /\
            (forall k, setHas k (crossPostHistory s') = true ->
                       setHas k (crossPostHistory s) = true
                       \/ (k = historyKey q0 destination /\ publishAnswer w i0 = inl tt))).
  { intros s' [->|(Hok & ->)]; [split; auto|]. split.
    - intros k Hk. rewrite setHas_add, Hk. apply orb_true_r.
    - intros k Hk. rewrite setHas_add in Hk. apply orb_true_iff in Hk as [Hk|Hk]; auto.
      apply String.eqb_eq in Hk. auto. }
  destruct (processItem w cfg destination history total i0 q0 t s) as [t' s'|o];
    cbn [stepState] in Hstep; destruct (Hfwd _ Hstep) as (Hin & Hout).
  - destruct (IH (S i0) t' s') as (IHin & IHout). split.
    + intros k Hk. apply IHin, Hin, Hk.
    + intros k Hk. destruct (IHout k Hk) as [Hk'|(j & q & Hj & -> & Hok)].
      * destruct (Hout k Hk') as [Hs|(-> & Hok)]; [now left|].
        right. exists O, q0. rewrite Nat.add_0_r. auto.
      * right. exists (S j), q. replace (i0 + S j)%nat with (S i0 + j)%nat by lia. auto.
  - split; [exact Hin|]. intros k Hk.
    destruct (Hout k Hk) as [Hs|(-> & Hok)]; [now left|].
    right. exists O, q0. rewrite Nat.add_0_r. auto.
Qed.

(** X15. A run of the cross-posting flow, however it ends, never removes
    a key from the history, and every key it adds is the key of a queued
    post and the destination of the run, added for a queue position
    whose feed post was created. *)
Theorem run_history (w : World) (cfg : CrossPostSchedulerSettings) (s : State) :
  (forall k, setHas k (crossPostHistory s) = true ->
             setHas k (crossPostHistory (finalState (handleSchedulingProcess w cfg s)))
             = true) /\
  (forall k, setHas k (crossPostHistory (finalState (handleSchedulingProcess w cfg s)))
             = true ->
             setHas k (crossPostHistory s) = true
             \/ exists j q destination,
                  destinationPage s = Some destination /\
                  nth_error (postsToSchedule s) j = Some q /\
                  k = historyKey q destination /\ postCreated w j).
Proof.
  unfold handleSchedulingProcess.
  destruct (isScheduling s); [split; auto|].
  destruct (postsToSchedule s) as [|q0 queue] eqn:Eq; [split; auto|].
  destruct (destinationPage s) as [destination|]; [|split; auto].
  destruct (sourcePage s) as [source|]; [|split; auto].
  destruct (page_id destination =? page_id source)%string; [split; auto|].
  rewrite <- Eq.
  destruct (loop_history w cfg destination (crossPostHistory s)
              (List.length (q0 :: queue)) (postsToSchedule s) O (firstSlot w cfg)
              (beginRun (List.length (q0 :: queue)) s)) as (Hin & Hout).
  rewrite Eq in Hin, Hout. rewrite Eq.
  assert (Hfin : crossPostHistory
            (finalState
               match schedulingLoop w cfg destination (crossPostHistory s)
                       (List.length (q0 :: queue)) 0 (q0 :: queue) (firstSlot w cfg)
                       (beginRun (List.length (q0 :: queue)) s) with
               | Returned s0 => Returned (finishRun s0)
               | Waiting s0 => Waiting s0
               | Crashed s0 => Crashed s0
               end)
          = crossPostHistory
              (finalState
                 (schedulingLoop w cfg destination (crossPostHistory s)
                    (List.length (q0 :: queue)) 0 (q0 :: queue) (firstSlot w cfg)
                    (beginRun (List.length (q0 :: queue)) s)))).
  { destruct (schedulingLoop _ _ _ _ _ _ _ _ _); reflexivity. }
  rewrite Hfin. split.
  - intros k Hk. apply Hin. exact Hk.
  - intros k Hk. destruct (Hout k Hk) as [Hs|(j & q & Hj & -> & Hok)]; [now left|].
    right. exists j, q, destination. repeat split; auto.
    now apply publishAnswer_created.
Qed.

(** *** The filter on likes and comments *)

Section FilterFacts.
Variable parseInt : string -> option Z.
Variable likesCount commentsCount : ManagedPost -> option Z.

Lemma filteredPosts_In (p : Page) (q : ManagedPost) :
  In q (filteredPosts parseInt likesCount commentsCount p)
  <-> In q (sourcePosts (run p))
      /\ passes likesCount commentsCount (threshold parseInt (minLikes p))
           (threshold parseInt (minComments p)) q = true.
Proof.
  unfold filteredPosts.
  destruct (threshold parseInt (minLikes p)) as [a|],
    (threshold parseInt (minComments p)) as [b|];
    try apply filter_In.
  unfold passes. cbn. tauto.
Qed.

Lemma filter_all {A : Type} (f : A -> bool) (l : list A) :
  (forall x, In x l -> f x = true) -> filter f l = l.
Proof.
  induction l as [|x l IH]; intros H; [reflexivity|]. cbn [filter].
  rewrite (H x (or_introl eq_refl)), IH; [reflexivity|].
  intros y Hy. apply H. now right.
Qed.

End FilterFacts.

(** X16. With each of the two filter fields empty or not a number,
    [filteredPosts] is the whole list of loaded posts, provided no count
    is negative (an empty field stands for the threshold -1). *)
Theorem idle_filters_show_every_post (parseInt : string -> option Z)
  (likesCount commentsCount : ManagedPost -> option Z) (p : Page) :
  minLikes p = EmptyString \/ parseInt (minLikes p) = None ->
  minComments p = EmptyString \/ parseInt (minComments p) = None ->
  (forall q, In q (sourcePosts (run p)) ->
             0 <= orZero (likesCount q) /\ 0 <= orZero (commentsCount q)) ->
  filteredPosts parseInt likesCount commentsCount p = sourcePosts (run p).
Proof.
  intros Hl Hc Hpos. unfold filteredPosts.
  assert (Tl : threshold parseInt (minLikes p) = Some (-1)
               \/ threshold parseInt (minLikes p) = None).
  { unfold threshold. destruct Hl as [->|Hl]; [now left|].
    destruct (minLikes p); [now left|now right]. }
  assert (Tc : threshold parseInt (minComments p) = Some (-1)
               \/ threshold parseInt (minComments p) = None).
  { unfold threshold. destruct Hc as [->|Hc]; [now left|].
    destruct (minComments p); [now left|now right]. }
  destruct Tl as [-> | ->], Tc as [-> | ->]; try reflexivity;
    apply filter_all; intros q Hq; destruct (Hpos q Hq) as (H1 & H2);
    unfold passes; cbn [andb];
    repeat match goal with
           | |- context [?a >? -1] =>
             replace (a >? -1) with true by (symmetry; apply Z.gtb_lt; lia)
           end; reflexivity.
Qed.

Lemma idle_filters_show_every_post_witness :
  filteredPosts PageSamples.X.parseDigits PageSamples.X.likes PageSamples.X.comments
    (PageSamples.X.filtered EmptyString)
  = [Samples.X.post1; Samples.X.post2; Samples.X.post3].
Proof.
  refine (idle_filters_show_every_post PageSamples.X.parseDigits PageSamples.X.likes
            PageSamples.X.comments (PageSamples.X.filtered EmptyString) _ _ _).
  - left. reflexivity.
  - left. reflexivity.
  - intros q Hq. unfold PageSamples.X.likes, PageSamples.X.comments.
    destruct (post_id q =? "77_1")%string; [cbn; lia|].
    destruct (post_id q =? "77_2")%string; cbn; lia.
Defined.

(** X17. Raising the threshold on likes only hides posts: every post
    shown with the higher threshold is shown with the lower one, and it
    has strictly more likes than the higher threshold. *)
Theorem raising_a_threshold_hides_posts (parseInt : string -> option Z)
  (likesCount commentsCount : ManagedPost -> option Z) (p p' : Page) (a a' : Z) :
  sourcePosts (run p') = sourcePosts (run p) -> minComments p' = minComments p ->
  threshold parseInt (minLikes p) = Some a ->
  threshold parseInt (minLikes p') = Some a' -> a <= a' ->
  forall q,
    In q (filteredPosts parseInt likesCount commentsCount p') ->
    In q (filteredPosts parseInt likesCount commentsCount p) /\
    a' < orZero (likesCount q).
Proof.
  intros Hposts Hcom Ha Ha' Hle q Hq.
  apply filteredPosts_In in Hq as (Hin & Hpass).
  rewrite Ha', Hcom in Hpass. unfold passes in Hpass.
  apply andb_true_iff in Hpass as (H1 & H2).
  apply Z.gtb_lt in H1. split; [|exact H1].
  apply filteredPosts_In. rewrite <- Hposts. split; [exact Hin|].
  rewrite Ha. unfold passes. rewrite H2.
  replace (orZero (likesCount q) >? a) with true by (symmetry; apply Z.gtb_lt; lia).
  reflexivity.
Qed.

Lemma raising_a_threshold_hides_posts_witness :
  In Samples.X.post1
     (filteredPosts PageSamples.X.parseDigits PageSamples.X.likes PageSamples.X.comments
        (PageSamples.X.filtered "50")).
Proof.
  refine (proj1 (raising_a_threshold_hides_posts PageSamples.X.parseDigits
                   PageSamples.X.likes PageSamples.X.comments
                   (PageSamples.X.filtered "50") (PageSamples.X.filtered "100")
                   50 100 _ _ _ _ _ Samples.X.post1 _)).
  - reflexivity.
  - reflexivity.
  - reflexivity.
  - reflexivity.
  - lia.
  - left. reflexivity.
Defined.

(** *** The caption service in the cross-posting flow *)

(** X18. When the caption model fails in the cross-posting flow, the
    caption is the message of the post (nothing, for a post without a
    message) followed by two line breaks and "#crosspost #repost #post";
    [uploadCrossPost] goes on with it: the photo upload is requested and
    the log shows its first 50 characters. *)
Theorem crosspost_caption_fallback (w : World) (i : nat)
  (q : ManagedPost) (t : option Date) (destination : FBPage) (s : State)
  (reply : Gemini.Reply) :
  generateCrossPostCaption w i
  = ok (Gemini.generateCrossPostCaption reply (messageOf q)) ->
  (forall text, reply <> inl (Some text)) ->
  In (PublishMedia i)
     (effects (fst (uploadCrossPost w i q t (Some destination) s))) /\
  In (mkEntry (post_id q) info
        ("Caption ready: " ++ dquote
           ++ substring 0 50
                (messageOf q ++ Gemini.newline ++ Gemini.newline
                   ++ "#crosspost #repost #post")
           ++ "..." ++ dquote))
     (schedulingLog (fst (uploadCrossPost w i q t (Some destination) s))).
Proof.
  intros Hcap Hreply.
  assert (Hfb : Gemini.generateCrossPostCaption reply (messageOf q)
                = messageOf q ++ Gemini.newline ++ Gemini.newline
                    ++ "#crosspost #repost #post").
  { destruct reply as [[text|]|msg]; try reflexivity. now destruct (Hreply text). }
  rewrite Hfb in Hcap.
  unfold uploadCrossPost, request, log.
  unfold bind, update, await, ret, raise, ok, throw.
  cbv beta iota. rewrite Hcap. unfold ok. cbv beta iota.
  destruct (manipulateImage w i q); cbv beta iota;
    (destruct (postPhoto w i) as [[[m|] rid]|msg]; cbv beta iota;
     cbn [resp_error resp_id];
     try (cbn [fst effects schedulingLog addLog setSchedulingLog perform];
          split; auto 8 using in_eq, in_cons; fail));
    (destruct t as [t|]; cbv beta iota;
     (destruct (postFeed w i) as [[[m|] pid]|msg]; cbv beta iota;
      cbn [resp_error resp_id];
      cbn [fst effects schedulingLog addLog setSchedulingLog perform recordHistory
           setHistory];
      split; auto 12 using in_eq, in_cons)).
Qed.

Lemma crosspost_caption_fallback_witness :
  In (PublishMedia 1)
     (effects (fst (uploadCrossPost PageSamples.X.mute 1 Samples.X.post3
                      None (Some Samples.otherPage) Samples.X.idle))).
Proof.
  refine (proj1 (crosspost_caption_fallback PageSamples.X.mute 1
                   Samples.X.post3 None Samples.otherPage Samples.X.idle
                   (throw "503 Service Unavailable") _ _)).
  - reflexivity.
  - discriminate.
Defined.

End CrossPostPageFacts.

(** ** Whole runs of UploaderPage *)

Module RunFacts.
Import Uploader Observe UploaderObserve UploaderPageObserve RunObserve.
Import UploaderFacts.

(** *** When every call goes through and nobody touches the buttons *)

Lemma uploadPost_success w cfg i f t page s :
  uploadAnswer w i = inl tt ->
  exists dl,
    effects (fst (uploadPost w cfg i f t (Some page) s))
    = CreatePost i :: PublishMedia i :: Enhance i :: effects s /\
    schedulingLog (fst (uploadPost w cfg i f t (Some page) s)) = (dl ++ schedulingLog s)%list /\
    Forall (fun e => status e <> error) dl /\
    (exists m, In (mkEntry (file_name f) success m) dl) /\
    schedulingProgress (fst (uploadPost w cfg i f t (Some page) s)) = schedulingProgress s /\
    isScheduling (fst (uploadPost w cfg i f t (Some page) s)) = isScheduling s /\
    snd (uploadPost w cfg i f t (Some page) s) = inl tt.
Proof.
  unfold uploadPost, uploadAnswer, request, log.
  unfold bind, update, await, ret, raise, ok, throw.
  cbv beta iota.
  destruct (generateCaptionForScheduling w i) as [caption|msg]; cbv beta iota;
    [|discriminate].
  destruct (postMedia w i) as [[[m|] rid]|msg]; cbv beta iota; cbn [resp_error resp_id];
    try discriminate.
  destruct rid as [[|c mediaId]|]; cbv beta iota; try discriminate.
  destruct (nonEmpty (checkInPlaceId cfg)); cbv beta iota;
    destruct t as [t|]; cbv beta iota;
    destruct (postFeed w i) as [[[m|] pid]|msg]; cbv beta iota; cbn [resp_error resp_id];
    try discriminate; intros _;
    eexists; cbn [fst snd effects schedulingLog addLog perform setSchedulingLog
                  schedulingProgress isScheduling];
    (split; [reflexivity|]); (split; [ext|]);
    (split; [repeat constructor; cbn; discriminate|]);
    (split; [eexists; left; reflexivity|]); auto.
Qed.

Section QuietLoop.
Variable w : World.
Variable cfg : SchedulerSettings.
Variable page : FBPage.
Hypothesis Hquiet : quiet w.

Lemma processItem_success i f t s :
  cancelled s = false -> isPaused s = false -> uploadAnswer w i = inl tt ->
  exists s' dl,
    processItem w cfg page i f (Some t) s = Next s' /\
    effects s' = CreatePost i :: PublishMedia i :: Enhance i :: effects s /\
    schedulingLog s' = (dl ++ schedulingLog s)%list /\
    Forall (fun e => status e <> error) dl /\
    (exists m, In (mkEntry (file_name f) success m) dl) /\
    schedulingProgress s' = (S i, List.length (files cfg)) /\
    isScheduling s' = isScheduling s /\
    cancelled s' = false /\ isPaused s' = false.
Proof.
  intros Hc Hp Hok. destruct (Hquiet i) as (Hpp & Hfp).
  pose proof (processItem_quiet w cfg page i f t s Hquiet Hc Hp) as Hflags.
  unfold processItem in *. rewrite Hc, Hpp, Hfp in *. cbn [pauseLoop] in *.
  rewrite Hp in *.
  set (s1 := setSchedulingProgress (S i, List.length (files cfg)) s) in *.
  assert (Hadj : exists dl0,
            schedulingLog (snd (adjustSlot w i f t s1)) = (dl0 ++ schedulingLog s)%list /\
            Forall (fun e => status e <> error) dl0 /\
            effects (snd (adjustSlot w i f t s1)) = effects s /\
            schedulingProgress (snd (adjustSlot w i f t s1))
            = (S i, List.length (files cfg)) /\
            isScheduling (snd (adjustSlot w i f t s1)) = isScheduling s).
  { unfold adjustSlot. destruct (t <? dispatchClock w i + 600000).
    - eexists [_]. cbn. repeat split; auto. repeat constructor. cbn. discriminate.
    - exists []. cbn. repeat split; auto. }
  destruct Hadj as (dl0 & Hl0 & Hd0 & He0 & Hp0 & Hs0).
  destruct (adjustSlot w i f t s1) as [t' s2]. cbn [snd] in *.
  destruct (uploadPost_success w cfg i f (Some t') page s2 Hok)
    as (dl & He & Hl & Hd & Hm & Hpr & Hs & Hr).
  destruct (uploadPost w cfg i f (Some t') (Some page) s2) as [s3 r].
  cbn [fst snd uiActions fold_left] in *. subst r.
  destruct Hflags as (Hc' & Hp').
  exists s3, (dl ++ dl0)%list. split; [reflexivity|].
  rewrite He, He0, Hl, Hl0, app_assoc, Hpr, Hp0, Hs, Hs0.
  repeat split; auto.
  - apply Forall_app; auto.
  - destruct Hm as (m & Hm). exists m. apply in_or_app. now left.
Qed.

Lemma rev_callsOf_step i0 n :
  (rev (callsOf (S i0) n) ++ [CreatePost i0; PublishMedia i0; Enhance i0])%list
  = rev (callsOf i0 (S n)).
Proof.
  unfold callsOf. cbn [seq flat_map callsFor]. 
  change ([Enhance i0; PublishMedia i0; CreatePost i0] ++ flat_map callsFor (seq (S i0) n))%list
    with ([Enhance i0; PublishMedia i0; CreatePost i0] ++ flat_map callsFor (seq (S i0) n))%list.
  rewrite rev_app_distr. reflexivity.
Qed.

Lemma loop_success queue : forall i0 times s,
  cancelled s = false -> isPaused s = false ->
  (List.length queue <= List.length times)%nat ->
  (forall k, (k < List.length queue)%nat -> uploadAnswer w (i0 + k) = inl tt) ->
  exists sf dl,
    schedulingLoop w cfg page i0 queue times s = Returned sf /\
    effects sf = (rev (callsOf i0 (List.length queue)) ++ effects s)%list /\
    schedulingLog sf = (dl ++ schedulingLog s)%list /\
    Forall (fun e => status e <> error) dl /\
    (forall k f, nth_error queue k = Some f ->
                 exists m, In (mkEntry (file_name f) success m) dl) /\
    (queue <> [] ->
     schedulingProgress sf = ((i0 + List.length queue)%nat, List.length (files cfg))) /\
    isScheduling sf = isScheduling s /\
    cancelled sf = false /\ isPaused sf = false.
Proof.
  induction queue as [|f q IH]; intros i0 times s Hc Hp Hlen Hall.
  { exists s, []. cbn [schedulingLoop List.length callsOf seq flat_map rev app].
    split; [reflexivity|]. split; [reflexivity|]. split; [reflexivity|].
    split; [constructor|]. split; [intros [|k] f0 Hk0; discriminate|].
    split; [congruence|]. auto. }
  destruct times as [|t ts]; [simpl in Hlen; lia|].
  cbn [schedulingLoop hd_error tl].
  destruct (processItem_success i0 f t s Hc Hp)
    as (s' & dl0 & -> & He & Hl & Hd & Hm & Hpr & Hs & Hc' & Hp').
  { rewrite <- (Nat.add_0_r i0). apply Hall. simpl. lia. }
  destruct (IH (S i0) ts s' Hc' Hp' ltac:(simpl in Hlen; lia))
    as (sf & dl & Hret & Hef & Hlf & Hdf & Hmf & Hprf & Hsf & Hcf & Hpf).
  { intros k Hk. replace (S i0 + k)%nat with (i0 + S k)%nat by lia.
    apply Hall. simpl. lia. }
  exists sf, (dl ++ dl0)%list. split; [exact Hret|].
  split.
  { rewrite Hef, He. cbn [List.length]. rewrite <- rev_callsOf_step.
    rewrite <- app_assoc. reflexivity. }
  split; [rewrite Hlf, Hl; apply app_assoc|].
  split; [apply Forall_app; auto|].
  split.
  { intros [|k] f0 Hk; cbn [nth_error] in Hk.
    - inversion Hk; subst. destruct Hm as (m & Hm). exists m.
      apply in_or_app. now right.
    - destruct (Hmf k f0 Hk) as (m & Hin). exists m. apply in_or_app. now left. }
  split.
  { intros _. destruct q as [|f1 q'].
    - cbn [schedulingLoop] in Hret. inversion Hret; subst.
      rewrite Hpr. cbn [List.length]. f_equal. lia.
    - rewrite Hprf by discriminate. cbn [List.length]. f_equal. lia. }
  split; [congruence|]. auto.
Qed.

End QuietLoop.

(** with the mock analytics the slots are always generated *)
Lemma smartLoop_mock_total w k : forall i d,
  exists l, smartLoop w (rankHours mockInsights) k i d = inl l.
Proof.
  induction k as [|k IH]; intros i d; [eexists; reflexivity|].
  cbn [smartLoop]. rewrite SmartFacts.candidateHour_mock.
  match goal with
  | |- context [smartLoop w _ k (S i) ?d'] => destruct (IH (S i) d') as (l & ->)
  end.
  eexists. reflexivity.
Qed.

Lemma generateSchedule_mock w cfg page s :
  exists times,
    snd (generateSchedule w cfg (fun _ => ok mockInsights) page s) = inl times.
Proof.
  unfold generateSchedule, getSmartScheduleWith, fetchPageInsightsWith, log.
  unfold bind, update, await, ret, ok, throw.
  destruct (smartScheduleEnabled cfg); cbv beta iota; [|eexists; reflexivity].
  match goal with
  | |- context [smartLoop w _ ?k ?i ?d] =>
    destruct (smartLoop_mock_total w k i d) as (l & ->)
  end.
  eexists. reflexivity.
Qed.

(** X19. When nobody touches the buttons and every call goes through,
    a run over n files returns, having made exactly the calls
    caption, media upload and post creation for the items 0 .. n-1, once
    each and in queue order, between setting and clearing the scheduling
    flag; the progress stands at n of n, the newest log entry is
    "Scheduling complete.", the log has a success entry for every file
    and no error entry. *)
Theorem undisturbed_run_uploads_every_file (w : World) (cfg : SchedulerSettings)
  (s : State) (page : FBPage) :
  quiet w -> isScheduling s = false -> activePage s = Some page -> files cfg <> [] ->
  (forall i, (i < List.length (files cfg))%nat -> uploadAnswer w i = inl tt) ->
  exists sf,
    handleSchedulingProcess w cfg s = Returned sf /\
    effects sf
    = (SetScheduling false :: rev (callsOf 0 (List.length (files cfg)))
         ++ SetScheduling true :: effects s)%list /\
    isScheduling sf = false /\ isPaused sf = false /\
    schedulingProgress sf = (List.length (files cfg), List.length (files cfg)) /\
    hd_error (schedulingLog sf) = Some completeEntry /\
    errorEntries (schedulingLog sf) = [] /\
    forall i f, nth_error (files cfg) i = Some f ->
                exists m, In (mkEntry (file_name f) success m) (schedulingLog sf).
Proof.
  intros Hq Hidle Hpage Hfiles Hall.
  unfold handleSchedulingProcess, handleSchedulingProcessWith. rewrite Hidle, Hpage.
  destruct (files cfg) as [|f0 q] eqn:Eq; [congruence|]. rewrite <- Eq in *.
  set (s0 := beginRun cfg s).
  destruct (generateSchedule_mock w cfg page s0) as (times & Hgen).
  destruct (generateSchedule_grows w cfg (fun _ => ok mockInsights) page s0)
    as (dl0 & He0 & Hl0 & _ & Hdl0 & Hs0 & _).
  pose proof (generateSchedule_length w cfg (fun _ => ok mockInsights) page s0 times Hgen)
    as Hlen.
  pose proof (generateSchedule_flags w cfg (fun _ => ok mockInsights) page s0) as (Hfc & Hfp).
  destruct (generateSchedule w cfg (fun _ => ok mockInsights) page s0) as [s1 r].
  cbn [fst snd] in *. subst r.
  unfold runQueue.
  destruct (loop_success w cfg page Hq (files cfg) O times s1)
    as (sf & dl & -> & Hef & Hlf & Hdf & Hmf & Hprf & Hsf & Hcf & Hpf).
  { rewrite Hfc. reflexivity. }
  { rewrite Hfp. reflexivity. }
  { lia. }
  { intros k Hk. apply Hall. exact Hk. }
  eexists. split; [reflexivity|].
  unfold finishRun.
  cbn [effects setIsPaused setIsScheduling addNotification addLog setSchedulingLog
       isScheduling isPaused schedulingProgress schedulingLog hd_error].
  split.
  { rewrite Hef, He0. reflexivity. }
  split; [reflexivity|]. split; [reflexivity|].
  split.
  { rewrite Hprf by (rewrite Eq; discriminate). reflexivity. }
  split; [reflexivity|].
  split.
  { rewrite Hlf, Hl0. change (schedulingLog s0) with (@nil SchedulingLogEntry).
    rewrite app_nil_r.
    change (errorEntries (completeEntry :: dl ++ dl0) = [])%list.
    unfold errorEntries. cbn [filter status completeEntry].
    rewrite filter_app.
    assert (Hnone : forall l, Forall (fun e => status e <> error) l ->
              filter (fun e => match status e with error => true | _ => false end) l = []).
    { intros l H. induction H as [|e l He _ IH]; [reflexivity|].
      cbn [filter]. destruct (status e); congruence. }
    rewrite (Hnone dl Hdf), (Hnone dl0); [reflexivity|].
    eapply Forall_impl; [|exact Hdl0]. intros e (H & _). exact H. }
  intros i f Hi. destruct (Hmf i f Hi) as (m & Hin). exists m.
  right. rewrite Hlf. apply in_or_app. now left.
Qed.

Lemma undisturbed_run_uploads_every_file_witness :
  exists sf,
    handleSchedulingProcess (Samples.U.calm 0) (Samples.U.hourly false) Samples.U.idle
    = Returned sf /\
    schedulingProgress sf = (5%nat, 5%nat).
Proof.
  destruct (undisturbed_run_uploads_every_file (Samples.U.calm 0) (Samples.U.hourly false)
              Samples.U.idle Samples.page) as (sf & Hret & _ & _ & _ & Hp & _).
  - intros j. split; reflexivity.
  - reflexivity.
  - reflexivity.
  - discriminate.
  - intros i Hi. reflexivity.
  - exists sf. split; [exact Hret|exact Hp].
Defined.

(** *** At most one post for a file, whatever happens *)

Lemma created_app (a b : list Effect) : created (a ++ b) = (created a ++ created b)%list.
Proof. apply flat_map_app. Qed.

Lemma created_sleeps de : Forall (eq Sleep) de -> created de = [].
Proof. intros H. induction H as [|e de <- _ IH]; [reflexivity|exact IH]. Qed.

Lemma uploadPost_created w cfg i f t page s :
  exists d, (d = [] \/ d = [i]) /\
            created (effects (fst (uploadPost w cfg i f t (Some page) s)))
            = (d ++ created (effects s))%list.
Proof.
  unfold uploadPost, request, log.
  unfold bind, update, await, ret, raise, ok, throw.
  cbv beta iota.
  destruct (generateCaptionForScheduling w i) as [caption|msg]; cbv beta iota;
    [|exists []; split; [now left|reflexivity]].
  destruct (postMedia w i) as [[[m|] rid]|msg]; cbv beta iota; cbn [resp_error resp_id];
    try (exists []; split; [now left|reflexivity]).
  destruct rid as [[|c mediaId]|]; cbv beta iota;
    try (exists []; split; [now left|reflexivity]).
  destruct (nonEmpty (checkInPlaceId cfg)); cbv beta iota;
    destruct t as [t|]; cbv beta iota;
    destruct (postFeed w i) as [[[m|] pid]|msg]; cbv beta iota; cbn [resp_error resp_id];
    exists [i]; (split; [now right|reflexivity]).
Qed.

Lemma uiActions_effects acts s : effects (uiActions acts s) = effects s.
Proof.
  destruct (uiActions_grows O EmptyString acts s) as (dl & He & _). exact He.
Qed.

Lemma pauseLoop_created presses s s' :
  pauseLoop presses s = inl s' \/ pauseLoop presses s = inr s' ->
  created (effects s') = created (effects s).
Proof.
  intros H. destruct (pauseLoop_grows O EmptyString presses s s' H)
    as (de & dl & (He & _) & Hs).
  now rewrite He, created_app, (created_sleeps de Hs).
Qed.

Lemma step_created w cfg page i f slot s :
  exists d, (d = [] \/ d = [i]) /\
            created (effects (stepState (processItem w cfg page i f slot s)))
            = (d ++ created (effects s))%list.
Proof.
  unfold processItem.
  destruct (cancelled s); [exists []; split; [now left|reflexivity]|].
  destruct (pauseLoop (pausePresses w i) s) as [s1|s1] eqn:Ep.
  2: { exists []. split; [now left|].
       cbn [stepState finalState app]. apply (pauseLoop_created _ _ _ (or_intror Ep)). }
  pose proof (pauseLoop_created _ _ _ (or_introl Ep)) as H1.
  destruct slot as [t|]; [|exists []; split; [now left|exact H1]].
  assert (H2 : created (effects (snd (adjustSlot w i f t
                  (setSchedulingProgress (S i, List.length (files cfg)) s1))))
               = created (effects s)).
  { unfold adjustSlot. destruct (t <? dispatchClock w i + 600000); exact H1. }
  destruct (adjustSlot w i f t _) as [t' s2]. cbn [snd] in H2.
  destruct (uploadPost_created w cfg i f (Some t') page s2) as (d & Hd & H3).
  destruct (uploadPost w cfg i f (Some t') (Some page) s2) as [s3 r]. cbn [fst] in H3.
  exists d. split; [exact Hd|]. rewrite <- H2, <- H3.
  destruct r as [[]|msg]; [|destruct (isAuthFailure msg)];
    cbn [stepState finalState effects handleLogout addNotification addLog
         setSchedulingLog created flat_map app];
    now rewrite uiActions_effects.
Qed.

Lemma loop_created w cfg page queue : forall i0 times s,
  exists d,
    created (effects (finalState (schedulingLoop w cfg page i0 queue times s)))
    = (d ++ created (effects s))%list /\
    Forall (fun j => i0 <= j < i0 + List.length queue)%nat d /\
    StronglySorted (fun a b => b < a)%nat d.
Proof.
  induction queue as [|f q IH]; intros i0 times s.
  { exists []. repeat split; constructor. }
  cbn [schedulingLoop].
  destruct (step_created w cfg page i0 f (hd_error times) s) as (d0 & Hd0 & H0).
  destruct (processItem w cfg page i0 f (hd_error times) s) as [s'|o];
    cbn [stepState] in H0.
  - destruct (IH (S i0) (tl times) s') as (d & H & Hr & Hs).
    exists (d ++ d0)%list. rewrite H, H0, app_assoc. split; [reflexivity|].
    split.
    + apply Forall_app. split.
      * eapply Forall_impl; [|exact Hr]. cbv beta. intros j Hj. cbn [List.length]. lia.
      * destruct Hd0 as [->| ->]; [constructor|].
        constructor; [cbn [List.length]; lia|constructor].
    + destruct Hd0 as [->| ->]; [now rewrite app_nil_r|].
      clear - Hr Hs. induction Hs as [|a l Hs IHs Ha]; cbn [app].
      * repeat constructor.
      * inversion Hr; subst. constructor; [now apply IHs|].
        apply Forall_app. split; [exact Ha|]. repeat constructor. lia.
  - exists d0. split; [exact H0|]. split.
    + destruct Hd0 as [->| ->]; [constructor|].
      constructor; [cbn [List.length]; lia|constructor].
    + destruct Hd0 as [->| ->]; repeat constructor.
Qed.

Lemma decreasing_NoDup (d : list nat) :
  StronglySorted (fun a b => b < a)%nat d -> NoDup d.
Proof.
  intros H. induction H as [|a l _ IH Ha]; constructor; [|exact IH].
  intros Hin. rewrite Forall_forall in Ha. specialize (Ha a Hin). lia.
Qed.

(** X20. Whatever the collaborators answer, whatever is pressed and
    whatever the analytics call returns, a press of Start requests at
    most one feed post for a queue position, and only for positions of
    the queue. *)
Theorem one_post_per_file (w : World) (cfg : SchedulerSettings)
  (data : FBPage -> Exc (list Z)) (s : State) :
  created (effects s) = [] ->
  NoDup (created (effects (finalState (handleSchedulingProcessWith w cfg data s)))) /\
  Forall (fun j => j < List.length (files cfg))%nat
         (created (effects (finalState (handleSchedulingProcessWith w cfg data s)))).
Proof.
  intros Hfresh.
  assert (Hnil : forall s', created (effects s') = [] ->
            NoDup (created (effects s')) /\
            Forall (fun j => j < List.length (files cfg))%nat (created (effects s'))).
  { intros s' ->. split; constructor. }
  unfold handleSchedulingProcessWith.
  destruct (isScheduling s); [apply Hnil; exact Hfresh|].
  destruct (files cfg) as [|f0 q] eqn:Eq; [apply Hnil; exact Hfresh|].
  destruct (activePage s) as [page|]; [|apply Hnil; exact Hfresh].
  rewrite <- Eq in *.
  set (s0 := beginRun cfg s).
  destruct (generateSchedule_grows w cfg data page s0) as (dl0 & He0 & _).
  destruct (generateSchedule w cfg data page s0) as [s1 [times|msg]]; cbn [fst] in He0.
  2: { apply Hnil. cbn [finalState effects setIsScheduling addNotification addLog
                        setSchedulingLog created flat_map app].
       rewrite He0. exact Hfresh. }
  assert (H1 : created (effects s1) = []) by (rewrite He0; exact Hfresh).
  destruct (loop_created w cfg page (files cfg) O times s1) as (d & Hd & Hr & Hs).
  rewrite H1, app_nil_r in Hd.
  assert (Hfin : created (effects (finalState (runQueue w cfg page times s1))) = d).
  { unfold runQueue.
    destruct (schedulingLoop w cfg page 0 (files cfg) times s1); exact Hd. }
  rewrite Hfin. split; [now apply decreasing_NoDup|].
  eapply Forall_impl; [|exact Hr]. cbv beta. intros j Hj. lia.
Qed.

Lemma one_post_per_file_witness :
  NoDup (created (effects (finalState
           (handleSchedulingProcessWith Samples.U.expired (Samples.U.hourly false)
              (fun _ => ok mockInsights) Samples.U.idle)))).
Proof.
  refine (proj1 (one_post_per_file Samples.U.expired (Samples.U.hourly false)
                   (fun _ => ok mockInsights) Samples.U.idle _)).
  reflexivity.
Defined.

(** *** How a run ends *)

Lemma loop_button w cfg page queue : forall i0 times s,
  isScheduling (finalState (schedulingLoop w cfg page i0 queue times s)) = isScheduling s.
Proof.
  induction queue as [|f q IH]; intros i0 times s; [reflexivity|].
  cbn [schedulingLoop].
  pose proof (processItem_spec w cfg page i0 f (hd_error times) s) as Hspec.
  destruct (processItem w cfg page i0 f (hd_error times) s) as [s'|[sf|sf|sf]].
  - rewrite IH.
    destruct Hspec as (_ & s3 & de & dl & (_ & _ & _ & _ & Hs & _) & _ & _ & Hcase).
    destruct Hcase as [(_ & -> & _)|(m & _ & _ & ->)]; exact Hs.
  - destruct Hspec as [(_ & ->)|(_ & s3 & de & dl & m & (_ & _ & _ & _ & Hs & _) & _ & _ & _ & ->)];
      [reflexivity|exact Hs].
  - destruct Hspec as (_ & de & dl & (_ & _ & _ & _ & Hs & _) & _). exact Hs.
  - destruct Hspec as (_ & de & dl & (_ & _ & _ & _ & Hs & _) & _). exact Hs.
Qed.

(** X21. A press of Start on an idle page never crashes: every item
    has a slot.  Either the handler returns, and then the scheduling
    flag is down, whether the run was refused, the slots could not be
    generated, the run was cancelled, stopped by a failed login or
    completed; or it is left polling the pause flag, with the scheduling
    flag up. *)
Theorem run_ends_released_or_paused (w : World) (cfg : SchedulerSettings)
  (data : FBPage -> Exc (list Z)) (s : State) :
  isScheduling s = false ->
  match handleSchedulingProcessWith w cfg data s with
  | Returned sf => isScheduling sf = false
  | Waiting sw => isScheduling sw = true /\ isPaused sw = true /\ cancelled sw = false
  | Crashed _ => False
  end.
Proof.
  intros Hidle. unfold handleSchedulingProcessWith. rewrite Hidle.
  destruct (files cfg) as [|f0 q] eqn:Eq; [exact Hidle|].
  destruct (activePage s) as [page|]; [|exact Hidle].
  set (s0 := beginRun cfg s).
  destruct (generateSchedule_grows w cfg data page s0) as (dl0 & _ & _ & _ & _ & Hs0 & _).
  pose proof (generateSchedule_length w cfg data page s0) as Hlen.
  destruct (generateSchedule w cfg data page s0) as [s1 [times|msg]];
    cbn [fst snd] in *; [|reflexivity].
  specialize (Hlen times eq_refl).
  pose proof (loop_outcome w cfg page (files cfg) O times s1 ltac:(lia)) as Hout.
  pose proof (loop_button w cfg page (files cfg) O times s1) as Hb.
  unfold runQueue.
  destruct (schedulingLoop w cfg page 0 (files cfg) times s1) as [sf|sw|sc];
    cbn [finalState] in Hb.
  - reflexivity.
  - destruct Hout as (Hp & Hc). split; [|split; assumption].
    rewrite Hb, Hs0. reflexivity.
  - exact Hout.
Qed.

Lemma run_ends_released_or_paused_witness :
  match handleSchedulingProcessWith Samples.U.stopped (Samples.U.hourly false)
          (fun _ => ok mockInsights) Samples.U.idle with
  | Returned sf => isScheduling sf = false
  | Waiting sw => isScheduling sw = true /\ isPaused sw = true /\ cancelled sw = false
  | Crashed _ => False
  end.
Proof.
  apply (run_ends_released_or_paused Samples.U.stopped (Samples.U.hourly false)
           (fun _ => ok mockInsights) Samples.U.idle).
  reflexivity.
Defined.

(** *** Pausing only delays *)

Lemma withoutSleeps_app (a b : list Effect) :
  withoutSleeps (a ++ b) = (withoutSleeps a ++ withoutSleeps b)%list.
Proof. apply filter_app. Qed.

Lemma withoutSleeps_sleeps de : Forall (eq Sleep) de -> withoutSleeps de = [].
Proof. intros H. induction H as [|e de <- _ IH]; [reflexivity|exact IH]. Qed.

Lemma uiActions_untoggled acts : forall s,
  ~ In PressToggle acts ->
  cancelled (uiActions acts s) = cancelled s /\
  schedulingProgress (uiActions acts s) = schedulingProgress s /\
  isScheduling (uiActions acts s) = isScheduling s.
Proof.
  induction acts as [|a acts IH]; intros s Hno; [auto|].
  cbn [uiActions fold_left].
  change (fold_left uiAction acts (uiAction s a)) with (uiActions acts (uiAction s a)).
  destruct (IH (uiAction s a)) as (H1 & H2 & H3).
  { intros Hin. apply Hno. now right. }
  rewrite H1, H2, H3. destruct a; [|auto].
  exfalso. apply Hno. now left.
Qed.

Lemma pauseLoop_untoggled presses : forall s s',
  (forall acts, In acts presses -> ~ In PressToggle acts) ->
  pauseLoop presses s = inl s' ->
  cancelled s' = cancelled s /\
  schedulingProgress s' = schedulingProgress s /\
  isScheduling s' = isScheduling s.
Proof.
  induction presses as [|acts presses IH]; intros s s' Hno H; cbn [pauseLoop] in H.
  - assert (Hs : s' = s)
      by (destruct (isPaused s); [destruct (cancelled s)|]; congruence).
    subst. repeat split; reflexivity.
  - destruct (isPaused s) eqn:Ep; [destruct (cancelled s) eqn:Ec|].
    + inversion H; subst. repeat split; auto.
    + destruct (IH _ _ (fun a Ha => Hno a (or_intror Ha)) H) as (H1 & H2 & H3).
      destruct (uiActions_untoggled acts (perform Sleep s) (Hno acts (or_introl eq_refl)))
        as (G1 & G2 & G3).
      rewrite H1, H2, H3, G1, G2, G3. cbn. auto.
    + inversion H; subst. repeat split; auto.
Qed.

Section PausedLoop.
Variable w : World.
Variable cfg : SchedulerSettings.
Variable page : FBPage.
Hypothesis Hno : noToggle w.

Lemma processItem_untoggled i f t s :
  cancelled s = false -> uploadAnswer w i = inl tt ->
  match processItem w cfg page i f (Some t) s with
  | Next s' =>
    withoutSleeps (effects s')
    = CreatePost i :: PublishMedia i :: Enhance i :: withoutSleeps (effects s) /\
    cancelled s' = false /\
    schedulingProgress s' = (S i, List.length (files cfg)) /\
    isScheduling s' = isScheduling s
  | Stop (Waiting _) => True
  | Stop _ => False
  end.
Proof.
  intros Hc Hok. destruct (Hno i) as (Hfl & Hpp).
  unfold processItem. rewrite Hc.
  destruct (pauseLoop (pausePresses w i) s) as [s1|s1] eqn:Ep; [|exact I].
  destruct (pauseLoop_untoggled _ _ _ Hpp Ep) as (Hc1 & _ & Hs1).
  destruct (pauseLoop_grows i (file_name f) _ _ _ (or_introl Ep))
    as (de1 & dl1 & (He1 & _) & Hsl).
  assert (Hadj : effects (snd (adjustSlot w i f t
                    (setSchedulingProgress (S i, List.length (files cfg)) s1)))
                 = effects s1 /\
                 cancelled (snd (adjustSlot w i f t
                    (setSchedulingProgress (S i, List.length (files cfg)) s1)))
                 = cancelled s1 /\
                 schedulingProgress (snd (adjustSlot w i f t
                    (setSchedulingProgress (S i, List.length (files cfg)) s1)))
                 = (S i, List.length (files cfg)) /\
                 isScheduling (snd (adjustSlot w i f t
                    (setSchedulingProgress (S i, List.length (files cfg)) s1)))
                 = isScheduling s1).
  { unfold adjustSlot. destruct (t <? dispatchClock w i + 600000); cbn; auto. }
  destruct Hadj as (He2 & Hc2 & Hp2 & Hs2).
  destruct (adjustSlot w i f t _) as [t' s2]. cbn [snd] in *.
  destruct (uploadPost_success w cfg i f (Some t') page s2 Hok)
    as (dl & He & _ & _ & _ & Hpr & Hs & Hr).
  destruct (uploadPost_flags w cfg page i f (Some t') s2) as (Hc3 & _).
  destruct (uploadPost w cfg i f (Some t') (Some page) s2) as [s3 r].
  cbn [fst snd] in *. subst r.
  destruct (uiActions_untoggled (flightPresses w i) s3 Hfl) as (G1 & G2 & G3).
  rewrite uiActions_effects, G1, G2, G3, He, He2, He1, Hc3, Hc2, Hc1, Hc, Hpr, Hp2,
    Hs, Hs2, Hs1.
  split; [|auto].
  change (CreatePost i :: PublishMedia i :: Enhance i :: de1 ++ effects s)%list
    with ([CreatePost i; PublishMedia i; Enhance i] ++ de1 ++ effects s)%list.
  rewrite !withoutSleeps_app, (withoutSleeps_sleeps de1 Hsl). reflexivity.
Qed.

Lemma loop_untoggled queue : forall i0 times s sf,
  cancelled s = false ->
  (List.length queue <= List.length times)%nat ->
  (forall k, (k < List.length queue)%nat -> uploadAnswer w (i0 + k) = inl tt) ->
  schedulingLoop w cfg page i0 queue times s = Returned sf ->
  withoutSleeps (effects sf)
  = (rev (callsOf i0 (List.length queue)) ++ withoutSleeps (effects s))%list /\
  (queue <> [] ->
   schedulingProgress sf = ((i0 + List.length queue)%nat, List.length (files cfg))) /\
  isScheduling sf = isScheduling s.
Proof.
  induction queue as [|f q IH]; intros i0 times s sf Hc Hlen Hall Hret.
  { cbn [schedulingLoop] in Hret. inversion Hret; subst.
    split; [reflexivity|]. split; [congruence|reflexivity]. }
  destruct times as [|t ts]; [simpl in Hlen; lia|].
  cbn [schedulingLoop hd_error tl] in Hret.
  assert (Hok0 : uploadAnswer w i0 = inl tt).
  { rewrite <- (Nat.add_0_r i0). apply Hall. simpl. lia. }
  pose proof (processItem_untoggled i0 f t s Hc Hok0) as Hstep.
  destruct (processItem w cfg page i0 f (Some t) s) as [s'|[o|o|o]];
    try contradiction; [|discriminate].
  destruct Hstep as (He & Hc' & Hpr & Hs).
  destruct (IH (S i0) ts s' sf Hc' ltac:(simpl in Hlen; lia)) as (Hef & Hprf & Hsf).
  { intros k Hk. replace (S i0 + k)%nat with (i0 + S k)%nat by lia.
    apply Hall. simpl. lia. }
  { exact Hret. }
  split.
  { rewrite Hef, He. cbn [List.length]. rewrite <- rev_callsOf_step.
    rewrite <- app_assoc. reflexivity. }
  split; [|congruence].
  intros _. destruct q as [|f1 q'].
  - cbn [schedulingLoop] in Hret. inversion Hret; subst.
    rewrite Hpr. cbn [List.length]. f_equal. lia.
  - rewrite Hprf by discriminate. cbn [List.length]. f_equal. lia.
Qed.

End PausedLoop.

(** X22. When the start/stop button is not pressed and every call goes
    through, a run that returns, however often and however long it was
    paused in between, has made exactly the calls caption, media upload
    and post creation for the items 0 .. n-1, once each and in queue
    order, apart from the seconds it slept; the progress stands at n of
    n and the scheduling and pause flags are down. *)
Theorem pausing_only_delays (w : World) (cfg : SchedulerSettings) (s sf : State)
  (page : FBPage) :
  noToggle w -> isScheduling s = false -> activePage s = Some page -> files cfg <> [] ->
  (forall i, (i < List.length (files cfg))%nat -> uploadAnswer w i = inl tt) ->
  handleSchedulingProcess w cfg s = Returned sf ->
  withoutSleeps (effects sf)
  = (SetScheduling false :: rev (callsOf 0 (List.length (files cfg)))
       ++ SetScheduling true :: withoutSleeps (effects s))%list /\
  schedulingProgress sf = (List.length (files cfg), List.length (files cfg)) /\
  isScheduling sf = false /\ isPaused sf = false.
Proof.
  intros Hno Hidle Hpage Hfiles Hall.
  unfold handleSchedulingProcess, handleSchedulingProcessWith. rewrite Hidle, Hpage.
  destruct (files cfg) as [|f0 q] eqn:Eq; [congruence|]. rewrite <- Eq in *.
  set (s0 := beginRun cfg s).
  destruct (generateSchedule_mock w cfg page s0) as (times & Hgen).
  destruct (generateSchedule_grows w cfg (fun _ => ok mockInsights) page s0)
    as (dl0 & He0 & _).
  pose proof (generateSchedule_length w cfg (fun _ => ok mockInsights) page s0 times Hgen)
    as Hlen.
  pose proof (generateSchedule_flags w cfg (fun _ => ok mockInsights) page s0) as (Hfc & _).
  destruct (generateSchedule w cfg (fun _ => ok mockInsights) page s0) as [s1 r].
  cbn [fst snd] in *. subst r.
  unfold runQueue.
  destruct (schedulingLoop w cfg page 0 (files cfg) times s1) as [s2|s2|s2] eqn:El;
    try discriminate.
  intros [= <-].
  destruct (loop_untoggled w cfg page Hno (files cfg) O times s1 s2)
    as (Hef & Hprf & Hsf); auto; try lia.
  unfold finishRun.
  cbn [effects setIsPaused setIsScheduling addNotification addLog setSchedulingLog
       isScheduling isPaused schedulingProgress withoutSleeps filter].
  split.
  { change (filter (fun e => match e with Sleep => false | _ => true end) (effects s2))
      with (withoutSleeps (effects s2)).
    rewrite Hef, He0. reflexivity. }
  split; [|auto].
  rewrite Hprf by (rewrite Eq; discriminate). reflexivity.
Qed.

Lemma pausing_only_delays_witness :
  schedulingProgress
    (finalState (handleSchedulingProcess PageSamples.U.pausedAndResumed
                   (Samples.U.hourly false) Samples.U.idle))
  = (5%nat, 5%nat).
Proof.
  refine (proj1 (proj2 (pausing_only_delays PageSamples.U.pausedAndResumed
                          (Samples.U.hourly false) Samples.U.idle
                          (finalState (handleSchedulingProcess
                                         PageSamples.U.pausedAndResumed
                                         (Samples.U.hourly false) Samples.U.idle))
                          Samples.page _ _ _ _ _ _))).
  - intros [|[|i]]; vm_compute; (split; [|intros acts]);
      intuition (subst; cbn in *; intuition discriminate).
  - reflexivity.
  - reflexivity.
  - discriminate.
  - intros i Hi. reflexivity.
  - vm_compute. reflexivity.
Defined.

End RunFacts.

(** ** The posting window of the manual allocator *)

Module WindowFacts.
Import Uploader Spec RunObserve.

Lemma after_false (a b : Z * Z) :
  after a b = false <-> fst a < fst b \/ (fst a = fst b /\ snd a <= snd b).
Proof.
  unfold after.
  destruct (Z.gtb_spec (fst a) (fst b)), (Z.eqb_spec (fst a) (fst b)),
    (Z.gtb_spec (snd a) (snd b)); cbn; split; intros; try discriminate;
    try reflexivity; lia.
Qed.

Lemma exceeds_after m e : exceeds m e = after (m / 60, m mod 60) e.
Proof. reflexivity. Qed.

Section Window.
Variable cfg : SchedulerSettings.
Hypothesis start_hour : 0 <= fst (startTime cfg) <= 23.
Hypothesis start_minute : 0 <= snd (startTime cfg) <= 59.
Hypothesis start_not_after_end : after (startTime cfg) (endTime cfg) = false.

Lemma start_fields :
  minuteOfDay (startTime cfg) / 60 = fst (startTime cfg) /\
  minuteOfDay (startTime cfg) mod 60 = snd (startTime cfg).
Proof.
  unfold minuteOfDay. split; Z.to_euclidean_division_equations; lia.
Qed.

Lemma start_inDay : inDay cfg (minuteOfDay (startTime cfg)).
Proof.
  destruct start_fields as (Hh & Hm). split.
  - unfold minuteOfDay. lia.
  - rewrite exceeds_after, Hh, Hm. destruct (startTime cfg). exact start_not_after_end.
Qed.

Lemma manualNext_inDay d m : inDay cfg (snd (manualNext cfg (d, m))).
Proof.
  unfold manualNext.
  pose proof (Z.mod_pos_bound (m + interval cfg) 1440 ltac:(lia)) as Hr.
  destruct (exceeds ((m + interval cfg) mod 1440) (endTime cfg)) eqn:E; cbn [snd].
  - exact start_inDay.
  - split; assumption.
Qed.

Lemma manualSlots_inDay n : forall d m,
  inDay cfg m -> Forall (fun c => inDay cfg (snd c)) (manualSlots cfg n (d, m)).
Proof.
  induction n as [|n IH]; intros d m Hm; cbn [manualSlots]; constructor.
  - exact Hm.
  - pose proof (manualNext_inDay d m) as Hn.
    destruct (manualNext cfg (d, m)) as [d' m']. now apply IH.
Qed.

Hypothesis interval_nonneg : 0 <= interval cfg.
Hypothesis end_minute : 0 <= snd (endTime cfg).
Hypothesis no_wrap : minuteOfDay (endTime cfg) + interval cfg < 1440.

Lemma inDay_before_end m : inDay cfg m -> m <= minuteOfDay (endTime cfg).
Proof.
  intros (Hr & He). rewrite exceeds_after in He. apply after_false in He.
  cbn [fst snd] in He. unfold minuteOfDay.
  Z.to_euclidean_division_equations; lia.
Qed.

Lemma manualNext_late d m :
  inDay cfg m -> minuteOfDay (startTime cfg) <= m ->
  minuteOfDay (startTime cfg) <= snd (manualNext cfg (d, m)).
Proof.
  intros Hin Hm. pose proof (inDay_before_end m Hin) as Hle.
  destruct Hin as (Hr & _).
  unfold manualNext.
  destruct (exceeds ((m + interval cfg) mod 1440) (endTime cfg)); cbn [snd].
  - lia.
  - rewrite Z.mod_small by lia. lia.
Qed.

Lemma manualSlots_late n : forall d m,
  inDay cfg m -> minuteOfDay (startTime cfg) <= m ->
  Forall (fun c => inDay cfg (snd c) /\ minuteOfDay (startTime cfg) <= snd c)
         (manualSlots cfg n (d, m)).
Proof.
  induction n as [|n IH]; intros d m Hin Hm; cbn [manualSlots]; constructor.
  - split; assumption.
  - pose proof (manualNext_inDay d m) as Hn.
    pose proof (manualNext_late d m Hin Hm) as Hl.
    destruct (manualNext cfg (d, m)) as [d' m']. now apply IH.
Qed.

End Window.

(** X23. With a start time that is a time of day and not after the end
    time, no slot of the manual allocator has a time of day after the
    end time, for every interval and every count.  When moreover the
    interval is not negative and the end time plus the interval does not
    reach midnight, no slot lies before the start time either. *)
Theorem manual_slots_in_window (w : World) (cfg : SchedulerSettings) (n : nat) :
  0 <= fst (startTime cfg) <= 23 -> 0 <= snd (startTime cfg) <= 59 ->
  after (startTime cfg) (endTime cfg) = false ->
  Forall (fun t => after (timeOfDay (tz w) t) (endTime cfg) = false)
         (manualSchedule w cfg n) /\
  (0 <= interval cfg -> 0 <= snd (endTime cfg) ->
   minuteOfDay (endTime cfg) + interval cfg < 1440 ->
   Forall (fun t => after (startTime cfg) (timeOfDay (tz w) t) = false)
          (manualSchedule w cfg n)).
Proof.
  intros Hh Hm Hse. rewrite ManualFacts.manualSchedule_slots.
  pose proof (start_inDay cfg Hh Hm Hse) as H0.
  split.
  - apply Forall_map.
    eapply Forall_impl;
      [|exact (manualSlots_inDay cfg Hh Hm Hse n _ _ H0)].
    intros [d m] H. destruct H as (Hr & He). cbn [snd] in *.
    unfold timeOfDay.
    rewrite ManualFacts.getHours_atLocal, ManualFacts.getMinutes_atLocal by exact Hr.
    exact He.
  - intros Hi Hem Hw. apply Forall_map.
    eapply Forall_impl;
      [|exact (manualSlots_late cfg Hh Hm Hse Hi Hem Hw n _ _ H0 (Z.le_refl _))].
    intros [d m] H. destruct H as ((Hr & He) & Hlate). cbn [snd] in *.
    unfold timeOfDay.
    rewrite ManualFacts.getHours_atLocal, ManualFacts.getMinutes_atLocal by exact Hr.
    apply after_false. cbn [fst snd]. unfold minuteOfDay in Hlate.
    Z.to_euclidean_division_equations; lia.
Qed.

Lemma manual_slots_in_window_witness :
  Forall (fun t => after (timeOfDay 0 t) (22, 0) = false)
         (manualSchedule (Samples.U.calm 0) (Samples.U.hourly false) 5).
Proof.
  refine (proj1 (manual_slots_in_window (Samples.U.calm 0) (Samples.U.hourly false) 5
                   _ _ _)).
  - cbn. lia.
  - cbn. lia.
  - reflexivity.
Defined.

End WindowFacts.

(** ** What a failure is taken for, and the captions *)

Module FailureFacts.
Import Uploader Observe UploaderObserve UploaderPageObserve.

Lemma isAuthFailure_media m :
  isAuthFailure ("Media upload failed: " ++ m) = isAuthFailure m.
Proof. unfold isAuthFailure. cbn. reflexivity. Qed.

Lemma isAuthFailure_post m :
  isAuthFailure ("Post creation failed: " ++ m) = isAuthFailure m.
Proof. unfold isAuthFailure. cbn. reflexivity. Qed.

(** X24. A failed upload is taken for a failed login exactly when the
    message the collaborator gave is one: the prefixes
    "Media upload failed: " and "Post creation failed: " that
    [uploadPost] puts in front neither hide nor make one, and the
    failure for a missing media ID never is one. *)
Theorem failure_class_is_the_collaborators (w : World) (i : nat) :
  match uploadAnswer w i with
  | inl _ => rawFailure w i = None
  | inr msg =>
    isAuthFailure msg
    = match rawFailure w i with
      | Some m => isAuthFailure m
      | None => false
      end
  end.
Proof.
  unfold uploadAnswer, rawFailure.
  destruct (generateCaptionForScheduling w i) as [caption|msg]; [|reflexivity].
  destruct (postMedia w i) as [[[m|] rid]|msg]; cbn [resp_error resp_id];
    [apply isAuthFailure_media| |reflexivity].
  destruct rid as [[|c mediaId]|]; [reflexivity| |reflexivity].
  destruct (postFeed w i) as [[[m|] pid]|msg]; cbn [resp_error];
    [apply isAuthFailure_post|reflexivity|reflexivity].
Qed.

(** *** The caption service never fails an upload *)

Lemma spaced_length s : String.length (Gemini.spaced s) = String.length s.
Proof. induction s as [|c s IH]; cbn; auto. Qed.

Lemma spaced_char (c : ascii) :
  let c' := if (Ascii.eqb c "-" || Ascii.eqb c "_")%bool then " "%char else c in
  c' <> "-"%char /\ c' <> "_"%char.
Proof.
  cbv zeta.
  destruct (Ascii.eqb_spec c "-") as [->|H1]; [split; discriminate|].
  destruct (Ascii.eqb_spec c "_") as [->|H2]; [split; discriminate|].
  cbn. auto.
Qed.

Lemma spaced_clean s :
  JSString.includes "-" (Gemini.spaced s) = false /\
  JSString.includes "_" (Gemini.spaced s) = false.
Proof.
  induction s as [|c s (IH1 & IH2)]; [split; reflexivity|].
  cbn [Gemini.spaced JSString.includes String.prefix].
  destruct (spaced_char c) as (H1 & H2). cbv zeta in H1, H2.
  rewrite IH1, IH2.
  destruct (ascii_dec "-" _) as [E|_]; [symmetry in E; contradiction|].
  destruct (ascii_dec "_" _) as [E|_]; [symmetry in E; contradiction|].
  split; reflexivity.
Qed.

Lemma fallback_caption reply sourceText mode :
  (forall text, reply <> inl (Some text)) ->
  Gemini.generateCaptionForScheduling reply sourceText mode
  = Gemini.spaced sourceText ++ Gemini.newline ++ Gemini.newline
      ++ "#general #post" ++ Gemini.newline ++ "What do you think?".
Proof.
  intros H. destruct reply as [[text|]|msg]; try reflexivity.
  now destruct (H text).
Qed.

(** X25. When the caption model fails (the request is rejected or the
    reply has no text), the caption service returns its fallback, and
    [uploadPost] goes on with it: the media upload is requested and the
    log shows the first 50 characters of the fallback, which is the
    source text with every hyphen and underscore replaced by a blank,
    as long as the source text, followed by the fixed hashtags and
    question. *)
Theorem caption_fallback_in_upload (w : World) (cfg : SchedulerSettings) (i : nat)
  (f : File) (t : option Date) (page : FBPage) (s : State) (reply : Gemini.Reply) :
  generateCaptionForScheduling w i
  = ok (Gemini.generateCaptionForScheduling reply (sourceTextOf cfg f) (captionMode cfg)) ->
  (forall text, reply <> inl (Some text)) ->
  In (PublishMedia i) (effects (fst (uploadPost w cfg i f t (Some page) s))) /\
  In (mkEntry (file_name f) info
        ("Caption ready: " ++ dquote
           ++ substring 0 50
                (Gemini.spaced (sourceTextOf cfg f) ++ Gemini.newline ++ Gemini.newline
                   ++ "#general #post" ++ Gemini.newline ++ "What do you think?")
           ++ "..." ++ dquote))
     (schedulingLog (fst (uploadPost w cfg i f t (Some page) s))) /\
  String.length (Gemini.spaced (sourceTextOf cfg f)) = String.length (sourceTextOf cfg f) /\
  JSString.includes "-" (Gemini.spaced (sourceTextOf cfg f)) = false /\
  JSString.includes "_" (Gemini.spaced (sourceTextOf cfg f)) = false.
Proof.
  intros Hcap Hreply. rewrite (fallback_caption _ _ _ Hreply) in Hcap.
  split; [|split; [|split; [apply spaced_length|apply spaced_clean]]].
  - unfold uploadPost, request, log.
    unfold bind, update, await, ret, raise, ok, throw.
    cbv beta iota. rewrite Hcap. unfold ok. cbv beta iota.
    destruct (postMedia w i) as [[[m|] rid]|msg]; cbv beta iota; cbn [resp_error resp_id];
      try (cbn; auto; fail).
    destruct rid as [[|c mediaId]|]; cbv beta iota; try (cbn; auto; fail).
    destruct (nonEmpty (checkInPlaceId cfg)); cbv beta iota;
      destruct t as [t|]; cbv beta iota;
      destruct (postFeed w i) as [[[m|] pid]|msg]; cbv beta iota;
      cbn [resp_error resp_id]; cbn; auto.
  - unfold uploadPost, request, log.
    unfold bind, update, await, ret, raise, ok, throw.
    cbv beta iota. rewrite Hcap. unfold ok. cbv beta iota.
    destruct (postMedia w i) as [[[m|] rid]|msg]; cbv beta iota; cbn [resp_error resp_id];
      try (cbn [fst schedulingLog addLog setSchedulingLog perform];
           auto 6 using in_eq, in_cons; fail).
    destruct rid as [[|c mediaId]|]; cbv beta iota;
      try (cbn [fst schedulingLog addLog setSchedulingLog perform];
           auto 6 using in_eq, in_cons; fail).
    destruct (nonEmpty (checkInPlaceId cfg)); cbv beta iota;
      destruct t as [t|]; cbv beta iota;
      destruct (postFeed w i) as [[[m|] pid]|msg]; cbv beta iota;
      cbn [resp_error resp_id];
      cbn [fst schedulingLog addLog setSchedulingLog perform];
      auto 10 using in_eq, in_cons.
Qed.

Lemma caption_fallback_in_upload_witness :
  In (PublishMedia 0)
     (effects (fst (uploadPost PageSamples.U.mute (Samples.U.hourly false) 0
                      (mkFile "my-cat_photo.jpg") None (Some Samples.page)
                      Samples.U.idle))).
Proof.
  refine (proj1 (caption_fallback_in_upload PageSamples.U.mute (Samples.U.hourly false) 0
                   (mkFile "my-cat_photo.jpg") None Samples.page Samples.U.idle
                   (throw "503 Service Unavailable") _ _)).
  - reflexivity.
  - discriminate.
Defined.

End FailureFacts.
